(** * Tool calling with Llama 4 on Vertex AI: the two notebook drivers

    A shallow embedding of the notebook
    [3p-integrations/gcp/vertex_MaaS/Vertex_tool_calling_for_Llama_4.ipynb]:
    the tool [get_exchange_rate] and the function [main], once written
    against the OpenAI SDK and once against the Vertex AI SDK.

    Python values are an inductive type, exceptions are a result type, and
    the effects of the code (the global list [messages], the chat session,
    the calls that leave the process) are a state and exception monad over
    a world that records every external call in the order it is made.
    The remote model, the exchange-rate service and the [json] module are
    not part of the notebook: they are variables of the sections below. *)

From Stdlib Require Import List String Ascii ZArith Bool Lia DecimalString.
Import ListNotations.
Local Open Scope string_scope.
Local Open Scope Z_scope.

Set Implicit Arguments.
Set Warnings "-register-all".

(** ** Python values and exceptions *)

(** The values [json.loads] produces and [json.dumps] consumes.  A float is
    kept as its literal: nothing in the notebook computes with one. *)
Inductive json : Type :=
| JNull
| JBool (b : bool)
| JInt (z : Z)
| JFloat (lit : string)
| JString (s : string)
| JArray (xs : list json)
| JObject (kv : list (string * json)).

(** The exception classes that can occur, each with the text [str(e)]. *)
Inductive exn : Type :=
| JSONDecodeError (msg : string)
| AttributeError (msg : string)
| IndexError (msg : string)
| ValueError (msg : string)
| HTTPError (msg : string)
| RequestException (msg : string)
| APIError (msg : string).

Definition str_exn (e : exn) : string :=
  match e with
  | JSONDecodeError m | AttributeError m | IndexError m | ValueError m
  | HTTPError m | RequestException m | APIError m => m
  end.

Inductive result (A : Type) : Type :=
| Ok (a : A)
| Raise (e : exn).
Arguments Ok {A} a.
Arguments Raise {A} e.

(** [d[k]] on the pairs of a dict, keys being unique. *)
Fixpoint assoc (k : string) (kv : list (string * json)) : option json :=
  match kv with
  | [] => None
  | (k', v) :: rest => if String.eqb k k' then Some v else assoc k rest
  end.

(** [d[k] = v]: replaces the value of an existing key in place, else adds
    the key at the end. *)
Fixpoint dict_set (k : string) (v : json) (kv : list (string * json))
  : list (string * json) :=
  match kv with
  | [] => [(k, v)]
  | (k', v') :: rest =>
      if String.eqb k k' then (k, v) :: rest else (k', v') :: dict_set k v rest
  end.

(** [dict.get(key, default)]. *)
Definition dict_get (kv : list (string * json)) (k : string) (default : json)
  : json :=
  match assoc k kv with
  | Some v => v
  | None => default
  end.

(** [args.get(key, default)] on whatever [json.loads] returned: only a dict
    has the method. *)
Definition py_get (args : json) (k : string) (default : json) : result json :=
  match args with
  | JObject kv => Ok (dict_get kv k default)
  | JNull => Raise (AttributeError "'NoneType' object has no attribute 'get'")
  | JBool _ => Raise (AttributeError "'bool' object has no attribute 'get'")
  | JInt _ => Raise (AttributeError "'int' object has no attribute 'get'")
  | JFloat _ => Raise (AttributeError "'float' object has no attribute 'get'")
  | JString _ => Raise (AttributeError "'str' object has no attribute 'get'")
  | JArray _ => Raise (AttributeError "'list' object has no attribute 'get'")
  end.

Definition decimal (z : Z) : string := NilZero.string_of_int (Z.to_int z).

(** [str(x)] for an [Optional[str]], as [print] applies it. *)
Definition str_opt (x : option string) : string :=
  match x with
  | Some s => s
  | None => "None"
  end.

(** [xs[0]]. *)
Definition index0 {A : Type} (xs : list A) : result A :=
  match xs with
  | x :: _ => Ok x
  | [] => Raise (IndexError "list index out of range")
  end.

(** ** The tool declaration

    One declaration is written twice in the notebook: as the dict in the
    list [tools] of the OpenAI cells and as [get_exchange_rate_func] of the
    Vertex cells. *)

Record property : Type := {
  prop_name : string;
  prop_type : string;
  prop_description : string
}.

Record function_declaration : Type := {
  fd_name : string;
  fd_description : string;
  fd_parameters_type : string;
  fd_properties : list property;
  fd_required : list string
}.

(** ** Data of the OpenAI SDK *)

(** [tool_call.function]: the name and the arguments as JSON text. *)
Record function_ : Type := {
  fn_name : string;
  fn_arguments : string
}.

Record tool_call_ : Type := {
  tc_id : string;
  tc_function : function_
}.

(** [completion.choices[i].message]; [tool_calls] is [None] or a list. *)
Record chat_message : Type := {
  msg_content : option string;
  msg_tool_calls : option (list tool_call_)
}.

Record choice : Type := { ch_message : chat_message }.

Record completion_ : Type := { choices : list choice }.

(** An element of the list [messages]: a dict with a role and a content
    (what the list may hold before [main] runs), the message object of a
    completion, or the dict [main] builds for a tool result. *)
Inductive message : Type :=
| RoleMessage (role content : string)
| AssistantMessage (m : chat_message)
| ToolMessage (tool_call_id content : string).

(** An entry of the list [tools]. *)
Record tool_entry : Type := {
  te_type : string;
  te_function : function_declaration
}.

(** The keyword arguments of [client.chat.completions.create]. *)
Record chat_request : Type := {
  rq_model : string;
  rq_messages : list message;
  rq_tools : option (list tool_entry);
  rq_temperature : string;
  rq_max_tokens : option Z;
  rq_tool_choice : option string
}.

(** ** Data of the Vertex AI SDK *)

(** [function_call.args] is always a mapping. *)
Record function_call_ : Type := {
  fc_name : string;
  fc_args : list (string * json)
}.

Record candidate : Type := { function_calls : list function_call_ }.

(** [response.text] is a property that raises [ValueError] when the
    response carries no text. *)
Record generation_response : Type := {
  candidates : list candidate;
  resp_text : result string
}.

(** What [chat.send_message] is given: a string, which the SDK sends as a
    user turn, or [Content(role="function",
    parts=[Part.from_function_response(name=..., response=...)])]. *)
Inductive content : Type :=
| UserText (text : string)
| FunctionResponse (name : string) (response : json).

(** The history a chat session keeps: what was sent and what came back. *)
Inductive turn : Type :=
| Sent (c : content)
| Received (r : generation_response).

(** ** The HTTP client *)

Record response_ : Type := {
  status_code : Z;
  reason : string;
  url_ : string;
  text_ : string
}.

(** ** The world *)

(** Every call that leaves the process, and every line printed. *)
Inductive event : Type :=
| EvInput (prompt : string)
| EvCreate (rq : chat_request)
| EvSend (history : list turn) (c : content)
| EvGet (url : string) (params : list (string * json))
| EvPrint (line : string).

(** The world holds the log of events and the transcript: the global list
    [messages] for the OpenAI cells, the history of the chat session for
    the Vertex cells. *)
Record world (T : Type) : Type := {
  w_log : list event;
  w_transcript : list T
}.

(** ** The monad: state and exceptions *)

Definition M (T A : Type) : Type := world T -> result A * world T.

Definition ret {T A : Type} (a : A) : M T A := fun w => (Ok a, w).

Definition bind {T A B : Type} (m : M T A) (k : A -> M T B) : M T B :=
  fun w =>
    match m w with
    | (Ok a, w') => k a w'
    | (Raise e, w') => (Raise e, w')
    end.

(** A pure computation that may raise. *)
Definition lift {T A : Type} (r : result A) : M T A := fun w => (r, w).

(** [try: m except Exception as e: h e]. *)
Definition try_except {T A : Type} (m : M T A) (h : exn -> M T A) : M T A :=
  fun w =>
    match m w with
    | (Ok a, w') => (Ok a, w')
    | (Raise e, w') => h e w'
    end.

Definition emit {T : Type} (ev : event) : M T unit :=
  fun w => (Ok tt, {| w_log := w_log w ++ [ev]; w_transcript := w_transcript w |}).

Definition get_log {T : Type} : M T (list event) := fun w => (Ok (w_log w), w).

Definition get_transcript {T : Type} : M T (list T) :=
  fun w => (Ok (w_transcript w), w).

Definition set_transcript {T : Type} (ts : list T) : M T unit :=
  fun w => (Ok tt, {| w_log := w_log w; w_transcript := ts |}).

(** [list.append]. *)
Definition append {T : Type} (t : T) : M T unit :=
  fun w => (Ok tt, {| w_log := w_log w; w_transcript := w_transcript w ++ [t] |}).

(** [print(label, x)]. *)
Definition print {T : Type} (line : string) : M T unit := emit (EvPrint line).

Declare Scope py_scope.
Delimit Scope py_scope with py.
Notation "x <- m ;; k" := (bind m (fun x => k))
  (at level 100, m at next level, right associativity) : py_scope.
Notation "m ;;; k" := (bind m (fun _ => k))
  (at level 100, right associativity) : py_scope.
Local Open Scope py_scope.

(** [for x in xs: body x]. *)
Fixpoint for_each {T A : Type} (xs : list A) (body : A -> M T unit) : M T unit :=
  match xs with
  | [] => ret tt
  | x :: rest => body x ;;; for_each rest body
  end.

(** ** What lies outside the notebook

    The [json] module, the remote model behind either SDK and the
    exchange-rate service.  The model and the service answer as a function
    of everything that happened before the call (the log) and of the call
    itself, so an answer may change from one call to the next. *)
Record env : Type := {
  json_loads : string -> result json;
  json_dumps : json -> string;
  py_repr : json -> string;
  chat_completions_create : list event -> chat_request -> result completion_;
  generate_content : list event -> list turn -> content -> result generation_response;
  http_get : list event -> string -> list (string * json) -> result response_
}.

(** What an f-string puts in place of [{x}]: [str(x)].  For a list, a dict
    or a float that is its [repr]. *)
Definition py_str (E : env) (x : json) : string :=
  match x with
  | JString s => s
  | JNull => "None"
  | JBool true => "True"
  | JBool false => "False"
  | JInt z => decimal z
  | JFloat _ | JArray _ | JObject _ => py_repr E x
  end.

(** [requests.get(url, params=params)].  The name [requests] is taken as
    bound to the module: the notebook imports it in the set-up cell of its
    Vertex part, and the cells share one namespace. *)
Definition requests_get {T : Type} (E : env) (url : string)
  (params : list (string * json)) : M T response_ :=
  log <- get_log ;;
  emit (EvGet url params) ;;;
  lift (http_get E log url params).

(** [response.raise_for_status()] of the requests library: an [HTTPError]
    for a status from 400 to 599. *)
Definition raise_for_status (r : response_) : result unit :=
  if (400 <=? status_code r) && (status_code r <? 500) then
    Raise (HTTPError (decimal (status_code r) ++ " Client Error: " ++ reason r
                      ++ " for url: " ++ url_ r))
  else if (500 <=? status_code r) && (status_code r <? 600) then
    Raise (HTTPError (decimal (status_code r) ++ " Server Error: " ++ reason r
                      ++ " for url: " ++ url_ r))
  else Ok tt.

(** [response.json()]. *)
Definition response_json (E : env) (r : response_) : result json :=
  json_loads E (text_ r).

(** ** The OpenAI cells *)
Module OpenAI.
Section Program.
Variable E : env.

Definition tools : list tool_entry := [
  {| te_type := "function";
     te_function := {|
       fd_name := "get_exchange_rate";
       fd_description := "Get the exchange rate for currencies between countries";
       fd_parameters_type := "object";
       fd_properties := [
         {| prop_name := "currency_date"; prop_type := "string";
            prop_description := "A date in YYYY-MM-DD format or 'latest'" |};
         {| prop_name := "currency_from"; prop_type := "string";
            prop_description := "The currency to convert from in ISO 4217 format" |};
         {| prop_name := "currency_to"; prop_type := "string";
            prop_description := "The currency to convert to in ISO 4217 format" |} ];
       fd_required := ["currency_from"; "currency_to"] |} |} ].

Definition get_exchange_rate (currency_date currency_from currency_to : json)
  : M message string :=
  try_except
    (let url := "https://api.frankfurter.app/" ++ py_str E currency_date in
     let params := [("from", currency_from); ("to", currency_to)] in
     response <- requests_get E url params ;;
     lift (raise_for_status response) ;;;
     j <- lift (response_json E response) ;;
     ret (json_dumps E j))
    (fun e => ret ("Error fetching exchange rate: " ++ str_exn e)).

(** [client.chat.completions.create(...)]. *)
Definition create (rq : chat_request) : M message completion_ :=
  log <- get_log ;;
  emit (EvCreate rq) ;;;
  lift (chat_completions_create E log rq).

Definition model_name : string := "meta/llama-4-maverick-17b-128e-instruct-maas".

(** The truth value of [message.tool_calls], with the list to iterate. *)
Definition truthy_calls (m : chat_message) : option (list tool_call_) :=
  match msg_tool_calls m with
  | Some (tc :: tcs) => Some (tc :: tcs)
  | Some [] | None => None
  end.

(** The body of [for tool_call in completion.choices[0].message.tool_calls]. *)
Definition main_for_body (completion : completion_) (tool_call : tool_call_)
  : M message unit :=
  if String.eqb (fn_name (tc_function tool_call)) "get_exchange_rate" then
    args <- lift (json_loads E (fn_arguments (tc_function tool_call))) ;;
    currency_date <- lift (py_get args "currency_date" (JString "latest")) ;;
    currency_from <- lift (py_get args "currency_from" JNull) ;;
    currency_to <- lift (py_get args "currency_to" JNull) ;;
    result <- get_exchange_rate currency_date currency_from currency_to ;;
    c0 <- lift (index0 (choices completion)) ;;
    append (AssistantMessage (ch_message c0)) ;;;
    append (ToolMessage (tc_id tool_call) result) ;;;
    messages <- get_transcript ;;
    final_response <- create {| rq_model := model_name;
                                rq_messages := messages;
                                rq_tools := None;
                                rq_temperature := "0.1";
                                rq_max_tokens := None;
                                rq_tool_choice := None |} ;;
    f0 <- lift (index0 (choices final_response)) ;;
    print ("Final response: " ++ str_opt (msg_content (ch_message f0)))
  else ret tt.

(** [main()]; [user_query] is what [input] returns.  The list [messages]
    is a global the notebook never assigns: its value when [main] starts
    is the transcript of the initial world. *)
Definition main (user_query : string) : M message unit :=
  emit (EvInput "Enter your currency exchange query: ") ;;;
  messages <- get_transcript ;;
  completion <- create {| rq_model := model_name;
                          rq_messages := messages;
                          rq_tools := Some tools;
                          rq_temperature := "0.1";
                          rq_max_tokens := Some 512;
                          rq_tool_choice := Some "auto" |} ;;
  c0 <- lift (index0 (choices completion)) ;;
  match truthy_calls (ch_message c0) with
  | Some tool_calls => for_each tool_calls (main_for_body completion)
  | None =>
      d0 <- lift (index0 (choices completion)) ;;
      print ("Direct response: " ++ str_opt (msg_content (ch_message d0)))
  end.
End Program.
End OpenAI.

(** ** The Vertex cells *)
Module Vertex.
Section Program.
Variable E : env.

Definition get_exchange_rate_func : function_declaration := {|
  fd_name := "get_exchange_rate";
  fd_description := "Get the exchange rate for currencies between countries";
  fd_parameters_type := "object";
  fd_properties := [
    {| prop_name := "currency_date"; prop_type := "string";
       prop_description := "A date in YYYY-MM-DD format or 'latest'" |};
    {| prop_name := "currency_from"; prop_type := "string";
       prop_description := "The currency to convert from in ISO 4217 format" |};
    {| prop_name := "currency_to"; prop_type := "string";
       prop_description := "The currency to convert to in ISO 4217 format" |} ];
  fd_required := ["currency_from"; "currency_to"]
|}.

Definition exchange_tool : list function_declaration := [get_exchange_rate_func].

Definition get_exchange_rate (currency_date currency_from currency_to : json)
  : M turn json :=
  try_except
    (let url := "https://api.frankfurter.app/" ++ py_str E currency_date in
     let params := [("from", currency_from); ("to", currency_to)] in
     response <- requests_get E url params ;;
     lift (raise_for_status response) ;;;
     j <- lift (response_json E response) ;;
     ret j)
    (fun e => ret (JObject [("error", JString (str_exn e))])).

(** [model.start_chat()]: a session with an empty history. *)
Definition start_chat : M turn unit := set_transcript [].

(** [chat.send_message(c)]: the session sends its history and [c], and on
    an answer keeps both [c] and the answer. *)
Definition send_message (c : content) : M turn generation_response :=
  log <- get_log ;;
  history <- get_transcript ;;
  emit (EvSend history c) ;;;
  r <- lift (generate_content E log history c) ;;
  append (Sent c) ;;;
  append (Received r) ;;;
  ret r.

(** [Part.from_function_response(name=..., response=...)]: the SDK turns
    the response into a protobuf struct through its [items()], so a
    response that is not a mapping raises [AttributeError]. *)
Definition from_function_response (name : string) (response : json)
  : result content :=
  match response with
  | JObject _ => Ok (FunctionResponse name response)
  | JNull => Raise (AttributeError "'NoneType' object has no attribute 'items'")
  | JBool _ => Raise (AttributeError "'bool' object has no attribute 'items'")
  | JInt _ => Raise (AttributeError "'int' object has no attribute 'items'")
  | JFloat _ => Raise (AttributeError "'float' object has no attribute 'items'")
  | JString _ => Raise (AttributeError "'str' object has no attribute 'items'")
  | JArray _ => Raise (AttributeError "'list' object has no attribute 'items'")
  end.

(** The body of [for function_call in response.candidates[0].function_calls].
    The argument of [chat.send_message] is built before the call. *)
Definition main_for_body (function_call : function_call_) : M turn unit :=
  if String.eqb (fc_name function_call) "get_exchange_rate" then
    let args := fc_args function_call in
    let currency_date := dict_get args "currency_date" (JString "latest") in
    let currency_from := dict_get args "currency_from" JNull in
    let currency_to := dict_get args "currency_to" JNull in
    result <- get_exchange_rate currency_date currency_from currency_to ;;
    function_response <- lift (from_function_response "get_exchange_rate" result) ;;
    final_response <- send_message function_response ;;
    t <- lift (resp_text final_response) ;;
    print ("Final response: " ++ t)
  else ret tt.

Definition main (user_query : string) : M turn unit :=
  emit (EvInput "Enter your currency exchange query: ") ;;;
  start_chat ;;;
  response <- send_message (UserText user_query) ;;
  c0 <- lift (index0 (candidates response)) ;;
  match function_calls c0 with
  | _ :: _ =>
      d0 <- lift (index0 (candidates response)) ;;
      for_each (function_calls d0) main_for_body
  | [] =>
      t <- lift (resp_text response) ;;
      print ("Direct response: " ++ t)
  end.
End Program.
End Vertex.

(** ** A JSON reader and writer for the examples

    An instance of [json_loads], [json_dumps] and [repr] on which the
    programs can be run: JSON over printable ASCII text, without unicode
    escapes and without the constants [NaN] and [Infinity].  The theorems
    hold for every instance. *)
Module Sample.
Local Open Scope char_scope.

Definition dq : ascii := "034".
Definition backslash : ascii := "092".

Definition is_ws (c : ascii) : bool :=
  (c =? " ") || (c =? "009") || (c =? "010") || (c =? "013").

Fixpoint skip_ws (cs : list ascii) : list ascii :=
  match cs with
  | c :: rest => if is_ws c then skip_ws rest else cs
  | [] => []
  end.

Definition is_digit (c : ascii) : bool :=
  (48 <=? nat_of_ascii c)%nat && (nat_of_ascii c <=? 57)%nat.

(** The longest prefix of digits, and the rest. *)
Fixpoint span_digits (cs : list ascii) : list ascii * list ascii :=
  match cs with
  | c :: rest =>
      if is_digit c then let (ds, r) := span_digits rest in (c :: ds, r)
      else ([], cs)
  | [] => ([], [])
  end.

Definition digits_value (ds : list ascii) : Z :=
  fold_left (fun acc c => 10 * acc + (Z.of_nat (nat_of_ascii c) - 48)) ds 0%Z.

(** A number: an optional sign, digits without a leading zero, then an
    optional fraction and an optional exponent, each with at least one
    digit.  With a fraction or an exponent the number is a float, kept as
    the characters read. *)
Definition read_number (cs : list ascii) : option (json * list ascii) :=
  let (sign, body) := match cs with
                      | "-" :: r => (["-"], r)
                      | _ => ([], cs)
                      end in
  let (ds, r1) := span_digits body in
  let (dot, frac_body) := match r1 with
                          | "." :: r => (["."], r)
                          | _ => ([], r1)
                          end in
  let (fs, r2) := match dot with
                  | [] => ([], r1)
                  | _ :: _ => span_digits frac_body
                  end in
  let (mark, exp_body) := match r2 with
                          | "e" :: "-" :: r => (["e"; "-"], r)
                          | "e" :: "+" :: r => (["e"; "+"], r)
                          | "E" :: "-" :: r => (["E"; "-"], r)
                          | "E" :: "+" :: r => (["E"; "+"], r)
                          | "e" :: r => (["e"], r)
                          | "E" :: r => (["E"], r)
                          | _ => ([], r2)
                          end in
  let (es, r3) := match mark with
                  | [] => ([], r2)
                  | _ :: _ => span_digits exp_body
                  end in
  match ds with
  | [] => None
  | d :: more =>
      if (d =? "0") && negb (Nat.eqb (List.length more) 0) then None
      else if negb (Nat.eqb (List.length dot) 0) && Nat.eqb (List.length fs) 0 then None
      else if negb (Nat.eqb (List.length mark) 0) && Nat.eqb (List.length es) 0 then None
      else
        match dot, mark with
        | [], [] =>
            let v := digits_value ds in
            Some (JInt (match sign with [] => v | _ :: _ => (- v)%Z end), r1)
        | _, _ =>
            Some (JFloat (string_of_list_ascii
                            (sign ++ ds ++ dot ++ fs ++ mark ++ es)%list), r3)
        end
  end.

(** The characters of a string up to its closing quote. *)
Fixpoint read_string (cs : list ascii) : option (string * list ascii) :=
  match cs with
  | [] => None
  | c :: rest =>
      if c =? dq then Some (EmptyString, rest)
      else if c =? backslash then
        match rest with
        | e :: rest' =>
            let unescaped :=
              if e =? dq then Some dq
              else if e =? backslash then Some backslash
              else if e =? "/" then Some "/"
              else if e =? "b" then Some "008"
              else if e =? "f" then Some "012"
              else if e =? "n" then Some "010"
              else if e =? "r" then Some "013"
              else if e =? "t" then Some "009"
              else None in
            match unescaped, read_string rest' with
            | Some u, Some (s, r) => Some (String u s, r)
            | _, _ => None
            end
        | [] => None
        end
      else if (nat_of_ascii c <? 32)%nat then None
      else match read_string rest with
           | Some (s, r) => Some (String c s, r)
           | None => None
           end
  end.

Fixpoint read_value (fuel : nat) (cs : list ascii) {struct fuel}
  : option (json * list ascii) :=
  match fuel with
  | O => None
  | S fuel' =>
      match skip_ws cs with
      | "n" :: "u" :: "l" :: "l" :: r => Some (JNull, r)
      | "t" :: "r" :: "u" :: "e" :: r => Some (JBool true, r)
      | "f" :: "a" :: "l" :: "s" :: "e" :: r => Some (JBool false, r)
      | "[" :: r =>
          match skip_ws r with
          | "]" :: r' => Some (JArray [], r')
          | _ => read_elements fuel' r []
          end
      | "{" :: r =>
          match skip_ws r with
          | "}" :: r' => Some (JObject [], r')
          | _ => read_members fuel' r []
          end
      | c :: r =>
          if c =? dq then
            match read_string r with
            | Some (s, r') => Some (JString s, r')
            | None => None
            end
          else read_number (c :: r)
      | [] => None
      end
  end
with read_elements (fuel : nat) (cs : list ascii) (acc : list json) {struct fuel}
  : option (json * list ascii) :=
  match fuel with
  | O => None
  | S fuel' =>
      match read_value fuel' cs with
      | Some (v, r) =>
          match skip_ws r with
          | "," :: r' => read_elements fuel' r' (acc ++ [v])%list
          | "]" :: r' => Some (JArray (acc ++ [v])%list, r')
          | _ => None
          end
      | None => None
      end
  end
with read_members (fuel : nat) (cs : list ascii) (acc : list (string * json))
  {struct fuel} : option (json * list ascii) :=
  match fuel with
  | O => None
  | S fuel' =>
      match skip_ws cs with
      | c :: r =>
          if c =? dq then
            match read_string r with
            | Some (k, r1) =>
                match skip_ws r1 with
                | ":" :: r2 =>
                    match read_value fuel' r2 with
                    | Some (v, r3) =>
                        match skip_ws r3 with
                        | "," :: r4 => read_members fuel' r4 (dict_set k v acc)
                        | "}" :: r4 => Some (JObject (dict_set k v acc), r4)
                        | _ => None
                        end
                    | None => None
                    end
                | _ => None
                end
            | None => None
            end
          else None
      | [] => None
      end
  end.

(** [json.loads]; the message of its exception is given without the
    position. *)
Definition loads (s : string) : result json :=
  let cs := list_ascii_of_string s in
  match read_value (S (List.length cs)) cs with
  | Some (v, r) =>
      match skip_ws r with
      | [] => Ok v
      | _ :: _ => Raise (JSONDecodeError "Extra data")
      end
  | None => Raise (JSONDecodeError "Expecting value")
  end.

Local Open Scope string_scope.

Definition join (sep : string) (parts : list string) : string :=
  match parts with
  | [] => ""
  | p :: ps => fold_left (fun acc q => acc ++ sep ++ q) ps p
  end.

(** A string between quotes.  [json.dumps] writes double quotes and the
    short escapes of JSON; [repr] writes single quotes, or double quotes
    when the string holds a single quote and no double one.  Control
    characters without a short escape are left as they are. *)
Fixpoint escape (quote : ascii) (json_escapes : bool) (s : string) : string :=
  match s with
  | EmptyString => ""
  | String c rest =>
      (if (c =? quote)%char then String backslash (String quote "")
       else if (c =? backslash)%char then String backslash (String backslash "")
       else if json_escapes && (c =? "008")%char then String backslash "b"
       else if json_escapes && (c =? "012")%char then String backslash "f"
       else if (c =? "010")%char then String backslash "n"
       else if (c =? "013")%char then String backslash "r"
       else if (c =? "009")%char then String backslash "t"
       else String c "") ++ escape quote json_escapes rest
  end.

Definition quoted (quote : ascii) (s : string) : string :=
  String quote (escape quote true s ++ String quote "").

Fixpoint holds (c : ascii) (s : string) : bool :=
  match s with
  | EmptyString => false
  | String c' rest => (c =? c')%char || holds c rest
  end.

Definition repr_str (s : string) : string :=
  let quote := if holds "'" s && negb (holds dq s) then dq else "'"%char in
  String quote (escape quote false s ++ String quote "").

(** [json.dumps] with its default separators. *)
Fixpoint dumps (v : json) : string :=
  match v with
  | JNull => "null"
  | JBool true => "true"
  | JBool false => "false"
  | JInt z => decimal z
  | JFloat lit => lit
  | JString s => quoted dq s
  | JArray xs => "[" ++ join ", " (map dumps xs) ++ "]"
  | JObject kv =>
      "{" ++ join ", " (map (fun p => quoted dq (fst p) ++ ": " ++ dumps (snd p)) kv)
          ++ "}"
  end.

(** [repr]. *)
Fixpoint repr (v : json) : string :=
  match v with
  | JNull => "None"
  | JBool true => "True"
  | JBool false => "False"
  | JInt z => decimal z
  | JFloat lit => lit
  | JString s => repr_str s
  | JArray xs => "[" ++ join ", " (map repr xs) ++ "]"
  | JObject kv =>
      "{" ++ join ", " (map (fun p => repr_str (fst p) ++ ": " ++ repr (snd p)) kv)
          ++ "}"
  end.

Definition is_query (ev : event) : bool :=
  match ev with
  | EvCreate _ | EvSend _ _ => true
  | _ => false
  end.

Definition is_get (ev : event) : bool :=
  match ev with
  | EvGet _ _ => true
  | _ => false
  end.

(** A scripted world: the k-th query to the model is answered by the k-th
    entry of [cs] (OpenAI) or [gs] (Vertex), the k-th GET by the k-th
    entry of [hs]; past the script every call fails. *)
Definition scripted (cs : list (result completion_))
  (gs : list (result generation_response)) (hs : list (result response_)) : env := {|
  json_loads := loads;
  json_dumps := dumps;
  py_repr := repr;
  chat_completions_create := fun log _ =>
    nth (List.length (filter is_query log)) cs (Raise (APIError "Connection error."));
  generate_content := fun log _ _ =>
    nth (List.length (filter is_query log)) gs (Raise (APIError "Connection error."));
  http_get := fun log _ _ =>
    nth (List.length (filter is_get log)) hs (Raise (RequestException "Connection refused"))
|}.

(** The text [{"currency_from": "USD", "currency_to": "EUR"}]. *)
Definition usd_eur_text : string :=
  "{" ++ quoted dq "currency_from" ++ ": " ++ quoted dq "USD" ++ ", "
      ++ quoted dq "currency_to" ++ ": " ++ quoted dq "EUR" ++ "}".

Definition usd_eur : list (string * json) :=
  [("currency_from", JString "USD"); ("currency_to", JString "EUR")].

(** A body the service answers with:
    [{"amount": 100, "base": "USD", "rates": {"EUR": 88.645}}]. *)
Definition rates_text : string :=
  "{" ++ quoted dq "amount" ++ ": 100, " ++ quoted dq "base" ++ ": "
      ++ quoted dq "USD" ++ ", " ++ quoted dq "rates" ++ ": {"
      ++ quoted dq "EUR" ++ ": 88.645}}".

Definition rates : json :=
  JObject [("amount", JInt 100); ("base", JString "USD");
           ("rates", JObject [("EUR", JFloat "88.645")])].

Definition ok_response : response_ := {|
  status_code := 200;
  reason := "OK";
  url_ := "https://api.frankfurter.app/latest?from=USD&to=EUR";
  text_ := rates_text
|}.

Definition not_found_at (u : string) : response_ := {|
  status_code := 404;
  reason := "Not Found";
  url_ := u;
  text_ := "{" ++ quoted dq "message" ++ ": " ++ quoted dq "not found" ++ "}"
|}.

Definition call (id name arguments : string) : tool_call_ :=
  {| tc_id := id; tc_function := {| fn_name := name; fn_arguments := arguments |} |}.

(** A choice that asks for the given tool calls, one that is plain text,
    and the completions made of one such choice. *)
Definition ask_choice (tcs : list tool_call_) : choice :=
  {| ch_message := {| msg_content := None; msg_tool_calls := Some tcs |} |}.

Definition say_choice (t : string) : choice :=
  {| ch_message := {| msg_content := Some t; msg_tool_calls := None |} |}.

Definition asks (tcs : list tool_call_) : completion_ :=
  {| choices := [ask_choice tcs] |}.

Definition says (t : string) : completion_ := {| choices := [say_choice t] |}.

Definition vasks (fcs : list function_call_) : generation_response :=
  {| candidates := [ {| function_calls := fcs |} ];
     resp_text := Raise (ValueError "Response has no text parts") |}.

Definition vsays (t : string) : generation_response :=
  {| candidates := [ {| function_calls := [] |} ]; resp_text := Ok t |}.
End Sample.

(** ** Reading a run

    The vocabulary of the statements below: the events a run added to the
    log, their kinds, and the requests and payloads the programs build. *)

(** The events of [w'] that were not yet in [w]. *)
Definition new_events {T : Type} (w w' : world T) : list event :=
  skipn (List.length (w_log w)) (w_log w').

(** A call to the model, or the execution of a tool. *)
Inductive kind : Type := Query | Tool.

Definition kind_of (ev : event) : option kind :=
  match ev with
  | EvCreate _ | EvSend _ _ => Some Query
  | EvGet _ _ => Some Tool
  | EvInput _ | EvPrint _ => None
  end.

Fixpoint kinds (log : list event) : list kind :=
  match log with
  | [] => []
  | ev :: rest =>
      match kind_of ev with
      | Some k => k :: kinds rest
      | None => kinds rest
      end
  end.

Definition is_tool (k : kind) : bool :=
  match k with
  | Tool => true
  | Query => false
  end.

(** [n] rounds, each a tool execution followed by a query. *)
Fixpoint rounds (n : nat) : list kind :=
  match n with
  | O => []
  | S n' => Tool :: Query :: rounds n'
  end.

(** The GET requests of a log, in order. *)
Fixpoint gets (log : list event) : list (string * list (string * json)) :=
  match log with
  | [] => []
  | EvGet url params :: rest => (url, params) :: gets rest
  | _ :: rest => gets rest
  end.

(** The lines printed, in order. *)
Fixpoint printed (log : list event) : list string :=
  match log with
  | [] => []
  | EvPrint line :: rest => line :: printed rest
  | _ :: rest => printed rest
  end.

(** The requests sent through the OpenAI SDK, in order. *)
Fixpoint requests (log : list event) : list chat_request :=
  match log with
  | [] => []
  | EvCreate rq :: rest => rq :: requests rest
  | _ :: rest => requests rest
  end.

(** The tool turns of a list [messages]. *)
Fixpoint tool_turns (ms : list message) : list (string * string) :=
  match ms with
  | [] => []
  | ToolMessage id c :: rest => (id, c) :: tool_turns rest
  | _ :: rest => tool_turns rest
  end.

Definition input_event : event := EvInput "Enter your currency exchange query: ".

(** The GET that [get_exchange_rate] issues for its three arguments. *)
Definition rate_url (E : env) (currency_date : json) : string :=
  "https://api.frankfurter.app/" ++ py_str E currency_date.

Definition rate_params (currency_from currency_to : json) : list (string * json) :=
  [("from", currency_from); ("to", currency_to)].

(** What the three steps inside the [try] yield: the parsed body, or the
    first exception. *)
Definition fetched (E : env) (outcome : result response_) : result json :=
  match outcome with
  | Raise e => Raise e
  | Ok r =>
      match raise_for_status r with
      | Raise e => Raise e
      | Ok _ => response_json E r
      end
  end.

(** The value the OpenAI [get_exchange_rate] returns for that. *)
Definition openai_payload (E : env) (f : result json) : string :=
  match f with
  | Ok j => json_dumps E j
  | Raise e => "Error fetching exchange rate: " ++ str_exn e
  end.

(** The value the Vertex [get_exchange_rate] returns for that. *)
Definition vertex_payload (f : result json) : json :=
  match f with
  | Ok j => j
  | Raise e => JObject [("error", JString (str_exn e))]
  end.

(** The first request of the OpenAI [main]. *)
Definition first_request (messages : list message) : chat_request := {|
  rq_model := OpenAI.model_name;
  rq_messages := messages;
  rq_tools := Some OpenAI.tools;
  rq_temperature := "0.1";
  rq_max_tokens := Some 512;
  rq_tool_choice := Some "auto"
|}.

(** The request inside its loop. *)
Definition follow_up (messages : list message) : chat_request := {|
  rq_model := OpenAI.model_name;
  rq_messages := messages;
  rq_tools := None;
  rq_temperature := "0.1";
  rq_max_tokens := None;
  rq_tool_choice := None
|}.

Definition registered (tc : tool_call_) : bool :=
  String.eqb (fn_name (tc_function tc)) "get_exchange_rate".

Definition vregistered (fc : function_call_) : bool :=
  String.eqb (fc_name fc) "get_exchange_rate".

(** The tool calls the OpenAI [main] iterates over, given the answer to its
    first request. *)
Definition calls_of (answer : result completion_) : list tool_call_ :=
  match answer with
  | Ok completion =>
      match choices completion with
      | c0 :: _ =>
          match msg_tool_calls (ch_message c0) with
          | Some tcs => tcs
          | None => []
          end
      | [] => []
      end
  | Raise _ => []
  end.

(** The same for the Vertex [main]. *)
Definition vcalls_of (answer : result generation_response) : list function_call_ :=
  match answer with
  | Ok response =>
      match candidates response with
      | c0 :: _ => function_calls c0
      | [] => []
      end
  | Raise _ => []
  end.

(** The GET the OpenAI loop issues for a tool call, when its arguments parse
    to a dict. *)
Definition planned_get (E : env) (tc : tool_call_)
  : option (string * list (string * json)) :=
  match json_loads E (fn_arguments (tc_function tc)) with
  | Ok (JObject kv) =>
      Some (rate_url E (dict_get kv "currency_date" (JString "latest")),
            rate_params (dict_get kv "currency_from" JNull)
                        (dict_get kv "currency_to" JNull))
  | _ => None
  end.

(** The GET the Vertex loop issues for a function call. *)
Definition vplanned_get (E : env) (fc : function_call_)
  : string * list (string * json) :=
  (rate_url E (dict_get (fc_args fc) "currency_date" (JString "latest")),
   rate_params (dict_get (fc_args fc) "currency_from" JNull)
               (dict_get (fc_args fc) "currency_to" JNull)).


(** The same world, except that every answer of the OpenAI endpoint to a
    request made when the log is longer than [n] has the tool calls of its
    messages replaced by [alter]. *)
Definition retool (alter : chat_message -> option (list tool_call_))
  (c : completion_) : completion_ :=
  {| choices := map (fun ch =>
       {| ch_message := {| msg_content := msg_content (ch_message ch);
                           msg_tool_calls := alter (ch_message ch) |} |})
       (choices c) |}.

Definition alter_follow_ups (E : env) (n : nat)
  (alter : chat_message -> option (list tool_call_)) : env := {|
  json_loads := json_loads E;
  json_dumps := json_dumps E;
  py_repr := py_repr E;
  chat_completions_create := fun log rq =>
    if (List.length log <=? n)%nat then chat_completions_create E log rq
    else match chat_completions_create E log rq with
         | Ok c => Ok (retool alter c)
         | Raise e => Raise e
         end;
  generate_content := generate_content E;
  http_get := http_get E
|}.

(** The same for the Vertex endpoint: every answer to a message sent when
    the log is longer than [n] has its candidates, and with them its
    function calls, replaced by [alter]; its text is kept. *)
Definition vretool (alter : generation_response -> list candidate)
  (r : generation_response) : generation_response :=
  {| candidates := alter r; resp_text := resp_text r |}.

Definition valter_follow_ups (E : env) (n : nat)
  (alter : generation_response -> list candidate) : env := {|
  json_loads := json_loads E;
  json_dumps := json_dumps E;
  py_repr := py_repr E;
  chat_completions_create := chat_completions_create E;
  generate_content := fun log history c =>
    if (List.length log <=? n)%nat then generate_content E log history c
    else match generate_content E log history c with
         | Ok r => Ok (vretool alter r)
         | Raise e => Raise e
         end;
  http_get := http_get E
|}.

(** A turn of the chat history without the candidates of its answer. *)
Definition without_calls (t : turn) : turn :=
  match t with
  | Sent c => Sent c
  | Received r => Received {| candidates := []; resp_text := resp_text r |}
  end.

(** ** The same answers for both SDKs *)

(** A tool call of the OpenAI SDK and a function call of the Vertex SDK ask
    for the same when the names agree and the arguments of the first parse
    to the dict of the second. *)
Definition same_call (E : env) (tc : tool_call_) (fc : function_call_) : Prop :=
  fn_name (tc_function tc) = fc_name fc
  /\ json_loads E (fn_arguments (tc_function tc)) = Ok (JObject (fc_args fc)).

(** The answers to the first request say the same: the same exception, or
    no choice and no candidate, or the same calls in the same order, or no
    call and the same text. *)
Definition same_first_answer (E : env) (a : result completion_)
  (b : result generation_response) : Prop :=
  match a, b with
  | Raise e, Raise e' => e = e'
  | Ok c, Ok r =>
      match choices c, candidates r with
      | [], [] => True
      | c0 :: _, d0 :: _ =>
          match msg_tool_calls (ch_message c0) with
          | Some (tc :: tcs) => Forall2 (same_call E) (tc :: tcs) (function_calls d0)
          | Some [] | None =>
              function_calls d0 = []
              /\ exists t, msg_content (ch_message c0) = Some t /\ resp_text r = Ok t
          end
      | _, _ => False
      end
  | _, _ => False
  end.

(** The answers to a follow-up request say the same: the same exception,
    or the same text. *)
Definition same_follow_up_answer (a : result completion_)
  (b : result generation_response) : Prop :=
  match a, b with
  | Raise e, Raise e' => e = e'
  | Ok c, Ok r =>
      exists f0 fs t,
        choices c = f0 :: fs /\ msg_content (ch_message f0) = Some t
        /\ resp_text r = Ok t
  | _, _ => False
  end.

(** Two worlds, one for each [main], in which the same calls were made and
    the same lines printed. *)
Definition same_trace (w : world message) (wv : world turn) : Prop :=
  kinds (w_log w) = kinds (w_log wv)
  /\ gets (w_log w) = gets (w_log wv)
  /\ printed (w_log w) = printed (w_log wv).
(** ** Scenarios

    Worlds on which the programs are run in the examples. *)

(** Two tool calls in one answer, each for USD to EUR.  The model answers
    three queries, the service two requests. *)
Definition two_calls_env : env :=
  Sample.scripted
    [Ok (Sample.asks [Sample.call "call_1" "get_exchange_rate" Sample.usd_eur_text;
                      Sample.call "call_2" "get_exchange_rate" Sample.usd_eur_text]);
     Ok (Sample.says "100 USD is 88.645 EUR.");
     Ok (Sample.says "100 USD is 88.645 EUR, twice.")]
    [Ok (Sample.vasks [ {| fc_name := "get_exchange_rate"; fc_args := Sample.usd_eur |};
                        {| fc_name := "get_exchange_rate"; fc_args := Sample.usd_eur |} ]);
     Ok (Sample.vsays "100 USD is 88.645 EUR.");
     Ok (Sample.vsays "100 USD is 88.645 EUR, twice.")]
    [Ok Sample.ok_response; Ok Sample.ok_response].

Definition user_asks (q : string) : world message :=
  {| w_log := []; w_transcript := [RoleMessage "user" q] |}.

Definition fresh_session : world turn := {| w_log := []; w_transcript := [] |}.


(** One tool call for USD to EUR, then the final answer. *)
Definition one_call_env : env :=
  Sample.scripted
    [Ok (Sample.asks [Sample.call "call_1" "get_exchange_rate" Sample.usd_eur_text]);
     Ok (Sample.says "The exchange rate for 100 USD to EUR is 88.645 EUR.")]
    [Ok (Sample.vasks [ {| fc_name := "get_exchange_rate"; fc_args := Sample.usd_eur |} ]);
     Ok (Sample.vsays "The exchange rate for 100 USD to EUR is 88.645 EUR.")]
    [Ok Sample.ok_response].

(** The list [messages] is empty when [main] starts. *)
Definition no_messages : world message := {| w_log := []; w_transcript := [] |}.

(** The model asks for a tool that does not exist. *)
Definition unknown_tool_env : env :=
  Sample.scripted
    [Ok (Sample.asks [Sample.call "call_1" "unknown_tool" "{}"])]
    [Ok (Sample.vasks [ {| fc_name := "unknown_tool"; fc_args := [] |} ])]
    [].

(** The model asks for the tool with arguments that are not JSON. *)
Definition bad_json_env : env :=
  Sample.scripted
    [Ok (Sample.asks [Sample.call "call_1" "get_exchange_rate" "not json"]);
     Ok (Sample.says "I could not read the arguments.")]
    []
    [Ok Sample.ok_response].

(** The exchange-rate service answers, refuses the currency, or cannot be
    reached. *)
Definition service_ok_env : env := Sample.scripted [] [] [Ok Sample.ok_response].

Definition service_404_env : env :=
  Sample.scripted [] []
    [Ok (Sample.not_found_at "https://api.frankfurter.app/latest?from=USD&to=XXX")].

Definition service_down_env : env := Sample.scripted [] [] [].

(** The model asks for the tool without saying which currency to convert
    from. *)
Definition to_eur_text : string :=
  "{" ++ Sample.quoted Sample.dq "currency_to" ++ ": "
      ++ Sample.quoted Sample.dq "EUR" ++ "}".

Definition missing_from_env : env :=
  Sample.scripted
    [Ok (Sample.asks [Sample.call "call_1" "get_exchange_rate" to_eur_text]);
     Ok (Sample.says "Which currency do you want to convert from?")]
    []
    [Ok (Sample.not_found_at "https://api.frankfurter.app/latest?to=EUR")].

(** The model answers the follow-up request with another tool call. *)
Definition asks_again_env : env :=
  Sample.scripted
    [Ok (Sample.asks [Sample.call "call_1" "get_exchange_rate" Sample.usd_eur_text]);
     Ok (Sample.asks [Sample.call "call_2" "get_exchange_rate" Sample.usd_eur_text]);
     Ok (Sample.says "never asked for")]
    [Ok (Sample.vasks [ {| fc_name := "get_exchange_rate"; fc_args := Sample.usd_eur |} ]);
     Ok {| candidates := [ {| function_calls :=
             [ {| fc_name := "get_exchange_rate"; fc_args := Sample.usd_eur |} ] |} ];
           resp_text := Ok "One more lookup is needed." |};
     Ok (Sample.vsays "never asked for")]
    [Ok Sample.ok_response; Ok Sample.ok_response].

(** ** The set-up cells *)

(** [os.environ]: the variables that are set, each once. *)
Definition environ : Type := list (string * string).

(** [os.environ.get(key)]. *)
Fixpoint environ_get (vars : environ) (key : string) : option string :=
  match vars with
  | [] => None
  | (k, v) :: rest => if String.eqb key k then Some v else environ_get rest key
  end.

(** [not s] for a string. *)
Definition is_empty (s : string) : bool :=
  match s with
  | EmptyString => true
  | String _ _ => false
  end.

(** The OpenAI set-up cell: [project_id] after the [if], [form] being the
    value of the form field. *)
Definition project_id (form : string) (vars : environ) : string :=
  if is_empty form || String.eqb form "[your-project-id]" then
    str_opt (environ_get vars "GOOGLE_CLOUD_PROJECT")
  else form.

Definition location (vars : environ) : string :=
  match environ_get vars "GOOGLE_CLOUD_REGION" with
  | Some region => region
  | None => "us-east5"
  end.

Definition base_url (form : string) (vars : environ) : string :=
  "https://" ++ location vars ++ "-aiplatform.googleapis.com/v1/projects/"
  ++ project_id form vars ++ "/locations/" ++ location vars ++ "/endpoints/openapi".

(** The Vertex set-up cell. *)
Definition PROJECT_ID (form : string) (vars : environ) : string :=
  if is_empty form || String.eqb form "[your-project-id]" then
    str_opt (environ_get vars "GOOGLE_CLOUD_PROJECT")
  else form.

Definition LOCATION (vars : environ) : string :=
  match environ_get vars "GOOGLE_CLOUD_REGION" with
  | Some region => region
  | None => "us-central1"
  end.

(** ** More vocabulary for runs *)

(** What was sent through the chat session of the Vertex SDK, in order. *)
Fixpoint sends (log : list event) : list content :=
  match log with
  | [] => []
  | EvSend _ c :: rest => c :: sends rest
  | _ :: rest => sends rest
  end.

(** A message without the content of a tool result. *)
Definition erase_content (m : message) : message :=
  match m with
  | ToolMessage id _ => ToolMessage id ""
  | _ => m
  end.

(** The lists of messages of successive follow-up requests: each is the
    one before with the model's message and one tool turn appended. *)
Fixpoint grows_by_rounds (previous : list message) (mss : list (list message))
  : Prop :=
  match mss with
  | [] => True
  | ms :: rest =>
      (exists a id c,
         ms = (previous ++ [AssistantMessage a; ToolMessage id c])%list)
      /\ grows_by_rounds ms rest
  end.

(** ** More scenarios *)

(** The model answers in plain text. *)
Definition direct_env : env :=
  Sample.scripted
    [Ok (Sample.says "The exchange rate for 100 USD to EUR is 88.645 EUR.")]
    [Ok (Sample.vsays "The exchange rate for 100 USD to EUR is 88.645 EUR.")]
    [].

(** The model cannot be reached. *)
Definition model_down_env : env := Sample.scripted [] [] [].

(** The model answers without a choice. *)
Definition no_choice_env : env := Sample.scripted [Ok {| choices := [] |}] [] [].

(** The model asks for the tool with a list as arguments. *)
Definition list_arguments_env : env :=
  Sample.scripted
    [Ok (Sample.asks [Sample.call "call_1" "get_exchange_rate" "[]"])] [] [].

(** The model asks for the tool with [null] as the date. *)
Definition null_date : list (string * json) :=
  [("currency_date", JNull); ("currency_from", JString "USD");
   ("currency_to", JString "EUR")].

Definition null_date_text : string :=
  "{" ++ Sample.quoted Sample.dq "currency_date" ++ ": null, "
      ++ Sample.quoted Sample.dq "currency_from" ++ ": "
      ++ Sample.quoted Sample.dq "USD" ++ ", "
      ++ Sample.quoted Sample.dq "currency_to" ++ ": "
      ++ Sample.quoted Sample.dq "EUR" ++ "}".

Definition null_date_env : env :=
  Sample.scripted
    [Ok (Sample.asks [Sample.call "call_1" "get_exchange_rate" null_date_text]);
     Ok (Sample.says "There is no such date.")]
    [Ok (Sample.vasks [ {| fc_name := "get_exchange_rate"; fc_args := null_date |} ]);
     Ok (Sample.vsays "There is no such date.")]
    [Ok (Sample.not_found_at "https://api.frankfurter.app/None?from=USD&to=EUR")].

(** One tool call; the model then fails on the follow-up request (OpenAI)
    or answers it without text (Vertex). *)
Definition follow_up_fails_env : env :=
  Sample.scripted
    [Ok (Sample.asks [Sample.call "call_1" "get_exchange_rate" Sample.usd_eur_text])]
    [Ok (Sample.vasks [ {| fc_name := "get_exchange_rate"; fc_args := Sample.usd_eur |} ]);
     Ok (Sample.vasks [ {| fc_name := "get_exchange_rate"; fc_args := Sample.usd_eur |} ])]
    [Ok Sample.ok_response].

(** The service answers 300 with a JSON body. *)
Definition multiple_choices : response_ := {|
  status_code := 300;
  reason := "Multiple Choices";
  url_ := "https://api.frankfurter.app/latest?from=USD&to=EUR";
  text_ := Sample.rates_text
|}.

Definition service_300_env : env := Sample.scripted [] [] [Ok multiple_choices].

(** The service answers 200 with the body [{"error": "Connection refused"}]. *)
Definition error_body : response_ := {|
  status_code := 200;
  reason := "OK";
  url_ := "https://api.frankfurter.app/latest?from=USD&to=EUR";
  text_ := "{" ++ Sample.quoted Sample.dq "error" ++ ": "
               ++ Sample.quoted Sample.dq "Connection refused" ++ "}"
|}.

Definition service_error_body_env : env := Sample.scripted [] [] [Ok error_body].

(** An unknown tool between two calls for the exchange rate. *)
Definition mixed_calls : list tool_call_ :=
  [Sample.call "call_1" "get_exchange_rate" Sample.usd_eur_text;
   Sample.call "call_2" "unknown_tool" "{}";
   Sample.call "call_3" "get_exchange_rate" Sample.usd_eur_text].

Definition mixed_calls_env : env :=
  Sample.scripted
    [Ok (Sample.asks mixed_calls);
     Ok (Sample.says "100 USD is 88.645 EUR.");
     Ok (Sample.says "100 USD is 88.645 EUR, again.")]
    []
    [Ok Sample.ok_response; Ok Sample.ok_response].

(** A call with unreadable arguments between two good ones. *)
Definition broken_calls : list tool_call_ :=
  [Sample.call "call_1" "get_exchange_rate" Sample.usd_eur_text;
   Sample.call "call_2" "get_exchange_rate" "not json";
   Sample.call "call_3" "get_exchange_rate" Sample.usd_eur_text].

Definition broken_calls_env : env :=
  Sample.scripted
    [Ok (Sample.asks broken_calls);
     Ok (Sample.says "100 USD is 88.645 EUR.");
     Ok (Sample.says "never asked for")]
    []
    [Ok Sample.ok_response; Ok Sample.ok_response].


(** The service answers 200 with a JSON list as body. *)
Definition list_body : response_ := {|
  status_code := 200;
  reason := "OK";
  url_ := "https://api.frankfurter.app/latest?from=USD&to=EUR";
  text_ := "[1, 2]"
|}.

Definition list_body_env : env :=
  Sample.scripted
    [Ok (Sample.asks [Sample.call "call_1" "get_exchange_rate" Sample.usd_eur_text]);
     Ok (Sample.says "The rates are 1 and 2.")]
    [Ok (Sample.vasks [ {| fc_name := "get_exchange_rate"; fc_args := Sample.usd_eur |} ]);
     Ok (Sample.vsays "The rates are 1 and 2.")]
    [Ok list_body].

(** One tool call; the follow-up answer has no text: no content (OpenAI),
    a [text] that raises (Vertex). *)
Definition no_text_env : env :=
  Sample.scripted
    [Ok (Sample.asks [Sample.call "call_1" "get_exchange_rate" Sample.usd_eur_text]);
     Ok {| choices := [ {| ch_message := {| msg_content := None;
                                            msg_tool_calls := None |} |} ] |}]
    [Ok (Sample.vasks [ {| fc_name := "get_exchange_rate"; fc_args := Sample.usd_eur |} ]);
     Ok {| candidates := [ {| function_calls := [] |} ];
           resp_text := Raise (ValueError "Response has no text parts") |}]
    [Ok Sample.ok_response].

(** The two worlds when the loops start on that call: the first query has
    been made. *)
Definition asked_once : world message := {|
  w_log := [input_event; EvCreate (first_request [RoleMessage "user" "100 usd to eur"])];
  w_transcript := [RoleMessage "user" "100 usd to eur"]
|}.

Definition vasked_once : world turn := {|
  w_log := [input_event; EvSend [] (UserText "100 usd to eur")];
  w_transcript :=
    [Sent (UserText "100 usd to eur");
     Received (Sample.vasks [ {| fc_name := "get_exchange_rate";
                                 fc_args := Sample.usd_eur |} ])]
|}.
(** * Facts *)

Unset Implicit Arguments.

Example sample_loads_usd_eur :
  Sample.loads Sample.usd_eur_text = Ok (JObject Sample.usd_eur).
Proof. vm_compute. reflexivity. Qed.

Example sample_loads_rates : Sample.loads Sample.rates_text = Ok Sample.rates.
Proof. vm_compute. reflexivity. Qed.

Example sample_dumps_rates : Sample.dumps Sample.rates = Sample.rates_text.
Proof. vm_compute. reflexivity. Qed.

Example sample_loads_nested :
  Sample.loads "[1, -2.5e3, null, {}]"
  = Ok (JArray [JInt 1; JFloat "-2.5e3"; JNull; JObject []]).
Proof. vm_compute. reflexivity. Qed.

Example sample_repr_dict :
  Sample.repr (JObject [("a", JInt 1); ("b", JString "it's")])
  = "{'a': 1, 'b': " ++ String Sample.dq ("it's" ++ String Sample.dq "}").
Proof. vm_compute. reflexivity. Qed.

Example sample_loads_not_json :
  exists msg, Sample.loads "not json" = Raise (JSONDecodeError msg).
Proof. eexists. vm_compute. reflexivity. Qed.

(** ** The log only grows *)

Lemma new_events_app {T : Type} (w w' : world T) (added : list event) :
  w_log w' = (w_log w ++ added)%list -> new_events w w' = added.
Proof.
  intros H. unfold new_events. rewrite H.
  rewrite skipn_app, skipn_all, Nat.sub_diag. reflexivity.
Qed.

Lemma kinds_app (l1 l2 : list event) : kinds (l1 ++ l2) = (kinds l1 ++ kinds l2)%list.
Proof.
  induction l1 as [|ev l1 IH]; simpl; [reflexivity|].
  destruct (kind_of ev); simpl; rewrite IH; reflexivity.
Qed.

Lemma gets_app (l1 l2 : list event) : gets (l1 ++ l2) = (gets l1 ++ gets l2)%list.
Proof.
  induction l1 as [|ev l1 IH]; simpl; [reflexivity|].
  destruct ev; simpl; rewrite IH; reflexivity.
Qed.

Lemma printed_app (l1 l2 : list event) :
  printed (l1 ++ l2) = (printed l1 ++ printed l2)%list.
Proof.
  induction l1 as [|ev l1 IH]; simpl; [reflexivity|].
  destruct ev; simpl; rewrite IH; reflexivity.
Qed.

Lemma tool_turns_app (l1 l2 : list message) :
  tool_turns (l1 ++ l2) = (tool_turns l1 ++ tool_turns l2)%list.
Proof.
  induction l1 as [|m l1 IH]; simpl; [reflexivity|].
  destruct m; simpl; rewrite IH; reflexivity.
Qed.

(** ** The tool *)
Section Tool.
Variable E : env.

(** The OpenAI [get_exchange_rate] issues one GET and returns a string:
    it never raises. *)
Lemma openai_get_exchange_rate_run (d f t : json) (w : world message) :
  OpenAI.get_exchange_rate E d f t w =
  (Ok (openai_payload E (fetched E (http_get E (w_log w) (rate_url E d)
                                               (rate_params f t)))),
   {| w_log := w_log w ++ [EvGet (rate_url E d) (rate_params f t)];
      w_transcript := w_transcript w |}).
Proof.
  unfold OpenAI.get_exchange_rate, try_except, requests_get, bind, get_log,
    emit, lift, ret, fetched, openai_payload, rate_url, rate_params.
  simpl.
  destruct (http_get E (w_log w) _ _) as [r|e]; [|reflexivity].
  destruct (raise_for_status r) as [[]|e]; [|reflexivity].
  destruct (response_json E r) as [j|e]; reflexivity.
Qed.

Lemma vertex_get_exchange_rate_run (d f t : json) (w : world turn) :
  Vertex.get_exchange_rate E d f t w =
  (Ok (vertex_payload (fetched E (http_get E (w_log w) (rate_url E d)
                                             (rate_params f t)))),
   {| w_log := w_log w ++ [EvGet (rate_url E d) (rate_params f t)];
      w_transcript := w_transcript w |}).
Proof.
  unfold Vertex.get_exchange_rate, try_except, requests_get, bind, get_log,
    emit, lift, ret, fetched, vertex_payload, rate_url, rate_params.
  simpl.
  destruct (http_get E (w_log w) _ _) as [r|e]; [|reflexivity].
  destruct (raise_for_status r) as [[]|e]; [|reflexivity].
  destruct (response_json E r) as [j|e]; reflexivity.
Qed.

(** [raise_for_status] raises exactly for a status from 400 to 599. *)
Lemma raise_for_status_raises (r : response_) :
  400 <= status_code r < 600 <-> exists e, raise_for_status r = Raise e.
Proof.
  unfold raise_for_status.
  destruct (400 <=? status_code r) eqn:H1, (status_code r <? 500) eqn:H2,
           (500 <=? status_code r) eqn:H3, (status_code r <? 600) eqn:H4;
    simpl; split; intros H;
    try (eexists; reflexivity); try lia;
    destruct H as [e H]; discriminate.
Qed.

(** Below 400 it does not raise: such a response goes on to
    [response.json()] whatever its status. *)
Lemma raise_for_status_passes (r : response_) :
  status_code r < 400 -> raise_for_status r = Ok tt.
Proof.
  intros Hr. unfold raise_for_status.
  replace (400 <=? status_code r) with false by (symmetry; apply Z.leb_gt; lia).
  replace (500 <=? status_code r) with false by (symmetry; apply Z.leb_gt; lia).
  reflexivity.
Qed.
End Tool.

(** ** The OpenAI loop, step by step *)
Section OpenAISteps.
Variable E : env.

Lemma openai_body_skip (completion : completion_) (tc : tool_call_)
  (w : world message) :
  registered tc = false ->
  OpenAI.main_for_body E completion tc w = (Ok tt, w).
Proof.
  unfold registered, OpenAI.main_for_body. intros ->. reflexivity.
Qed.

Lemma openai_body_bad_json (completion : completion_) (tc : tool_call_)
  (w : world message) (e : exn) :
  registered tc = true ->
  json_loads E (fn_arguments (tc_function tc)) = Raise e ->
  OpenAI.main_for_body E completion tc w = (Raise e, w).
Proof.
  unfold registered, OpenAI.main_for_body. intros -> H.
  unfold bind, lift. rewrite H. reflexivity.
Qed.

Lemma openai_body_not_dict (completion : completion_) (tc : tool_call_)
  (w : world message) (a : json) :
  registered tc = true ->
  json_loads E (fn_arguments (tc_function tc)) = Ok a ->
  (forall kv, a <> JObject kv) ->
  exists e, OpenAI.main_for_body E completion tc w = (Raise e, w).
Proof.
  unfold registered, OpenAI.main_for_body. intros -> H Hno.
  unfold bind, lift. rewrite H.
  destruct a; simpl; try (eexists; reflexivity).
  exfalso. eapply Hno. reflexivity.
Qed.

(** A registered call whose arguments are a dict: the tool runs, two turns
    are appended, the follow-up request is sent and its answer printed. *)
Lemma openai_body_dict (completion : completion_) (tc : tool_call_)
  (w : world message) (kv : list (string * json)) :
  registered tc = true ->
  json_loads E (fn_arguments (tc_function tc)) = Ok (JObject kv) ->
  let url := rate_url E (dict_get kv "currency_date" (JString "latest")) in
  let params := rate_params (dict_get kv "currency_from" JNull)
                            (dict_get kv "currency_to" JNull) in
  let result := openai_payload E (fetched E (http_get E (w_log w) url params)) in
  OpenAI.main_for_body E completion tc w =
  match choices completion with
  | [] => (Raise (IndexError "list index out of range"),
           {| w_log := w_log w ++ [EvGet url params];
              w_transcript := w_transcript w |})
  | c0 :: _ =>
      let messages := (w_transcript w ++
        [AssistantMessage (ch_message c0); ToolMessage (tc_id tc) result])%list in
      let sent := {| w_log := w_log w ++ [EvGet url params; EvCreate (follow_up messages)];
                     w_transcript := messages |} in
      match chat_completions_create E (w_log w ++ [EvGet url params])
                                    (follow_up messages) with
      | Raise e => (Raise e, sent)
      | Ok final_response =>
          match choices final_response with
          | [] => (Raise (IndexError "list index out of range"), sent)
          | f0 :: _ =>
              (Ok tt,
               {| w_log := w_log w ++
                    [EvGet url params; EvCreate (follow_up messages);
                     EvPrint ("Final response: "
                              ++ str_opt (msg_content (ch_message f0)))];
                  w_transcript := messages |})
          end
      end
  end.
Proof.
  intros Hreg Hargs url params result. unfold registered in Hreg.
  unfold OpenAI.main_for_body. rewrite Hreg.
  unfold bind at 1. unfold lift at 1. rewrite Hargs.
  unfold bind at 1. unfold lift at 1. simpl py_get.
  unfold bind at 1. unfold lift at 1.
  unfold bind at 1. unfold lift at 1.
  unfold bind at 1. rewrite openai_get_exchange_rate_run.
  fold url params result.
  unfold bind, lift, append, get_transcript, OpenAI.create, get_log, emit,
    print, emit, index0; simpl.
  destruct (choices completion) as [|c0 cs]; [reflexivity|]. simpl.
  rewrite <- !app_assoc. simpl.
  destruct (chat_completions_create E _ _) as [final|e]; [|reflexivity].
  destruct (choices final) as [|f0 fs]; simpl; [reflexivity|].
  rewrite <- !app_assoc. reflexivity.
Qed.

(** [main] up to its loop. *)
Lemma openai_main_run (user_query : string) (w : world message) :
  let asked := {| w_log := w_log w ++
                    [input_event; EvCreate (first_request (w_transcript w))];
                  w_transcript := w_transcript w |} in
  OpenAI.main E user_query w =
  match chat_completions_create E (w_log w ++ [input_event])
                                (first_request (w_transcript w)) with
  | Raise e => (Raise e, asked)
  | Ok completion =>
      match choices completion with
      | [] => (Raise (IndexError "list index out of range"), asked)
      | c0 :: _ =>
          match OpenAI.truthy_calls (ch_message c0) with
          | Some tool_calls =>
              for_each tool_calls (OpenAI.main_for_body E completion) asked
          | None =>
              (Ok tt,
               {| w_log := w_log w ++
                    [input_event; EvCreate (first_request (w_transcript w));
                     EvPrint ("Direct response: "
                              ++ str_opt (msg_content (ch_message c0)))];
                  w_transcript := w_transcript w |})
          end
      end
  end.
Proof.
  intros asked. unfold OpenAI.main.
  unfold bind, lift, get_transcript, OpenAI.create, get_log, emit, print,
    emit, index0; simpl.
  rewrite <- !app_assoc. simpl.
  fold input_event. fold (first_request (w_transcript w)).
  destruct (chat_completions_create E _ _) as [completion|e]; [|reflexivity].
  destruct (choices completion) as [|c0 cs]; simpl; [reflexivity|].
  destruct (OpenAI.truthy_calls (ch_message c0)) as [tcs|]; [reflexivity|].
  simpl. rewrite <- !app_assoc. reflexivity.
Qed.
End OpenAISteps.

(** ** The Vertex loop, step by step *)
Section VertexSteps.
Variable E : env.

Lemma vertex_send_message_run (c : content) (w : world turn) :
  Vertex.send_message E c w =
  match generate_content E (w_log w) (w_transcript w) c with
  | Raise e => (Raise e, {| w_log := w_log w ++ [EvSend (w_transcript w) c];
                            w_transcript := w_transcript w |})
  | Ok r => (Ok r, {| w_log := w_log w ++ [EvSend (w_transcript w) c];
                      w_transcript := w_transcript w ++ [Sent c; Received r] |})
  end.
Proof.
  unfold Vertex.send_message, bind, lift, get_log, get_transcript, emit,
    append, ret; simpl.
  destruct (generate_content E _ _ _) as [r|e]; [|reflexivity].
  rewrite <- !app_assoc. reflexivity.
Qed.

Lemma vertex_body_skip (fc : function_call_) (w : world turn) :
  vregistered fc = false ->
  Vertex.main_for_body E fc w = (Ok tt, w).
Proof.
  unfold vregistered, Vertex.main_for_body. intros ->. reflexivity.
Qed.

(** A registered call: the tool runs; its result, when it is a mapping, is
    sent to the model and the text of the answer is printed. *)
Lemma vertex_body_registered (fc : function_call_) (w : world turn) :
  vregistered fc = true ->
  let url := fst (vplanned_get E fc) in
  let params := snd (vplanned_get E fc) in
  let result := vertex_payload (fetched E (http_get E (w_log w) url params)) in
  Vertex.main_for_body E fc w =
  match Vertex.from_function_response "get_exchange_rate" result with
  | Raise e => (Raise e, {| w_log := w_log w ++ [EvGet url params];
                            w_transcript := w_transcript w |})
  | Ok c =>
      let log2 := (w_log w ++ [EvGet url params; EvSend (w_transcript w) c])%list in
      match generate_content E (w_log w ++ [EvGet url params]) (w_transcript w) c with
      | Raise e => (Raise e, {| w_log := log2; w_transcript := w_transcript w |})
      | Ok final_response =>
          let history := (w_transcript w ++ [Sent c; Received final_response])%list in
          match resp_text final_response with
          | Raise e => (Raise e, {| w_log := log2; w_transcript := history |})
          | Ok t => (Ok tt, {| w_log := log2 ++ [EvPrint ("Final response: " ++ t)];
                               w_transcript := history |})
          end
      end
  end.
Proof.
  intros Hreg url params result. unfold vregistered in Hreg.
  unfold Vertex.main_for_body. rewrite Hreg.
  unfold bind at 1. rewrite vertex_get_exchange_rate_run.
  unfold vplanned_get in url, params. simpl in url, params.
  simpl w_log. fold url params result.
  unfold bind at 1. unfold lift at 1.
  destruct (Vertex.from_function_response "get_exchange_rate" result) as [c|e];
    [|reflexivity].
  unfold bind at 1. rewrite vertex_send_message_run.
  simpl w_log. simpl w_transcript.
  destruct (generate_content E _ _ _) as [final|e].
  - unfold bind, lift, print, emit. simpl.
    destruct (resp_text final) as [t|e]; rewrite <- ?app_assoc; reflexivity.
  - rewrite <- ?app_assoc. reflexivity.
Qed.

(** What [Part.from_function_response] gives: the function response for a
    mapping, an exception for anything else. *)
Lemma from_function_response_cases (name : string) (response : json) :
  (exists kv, response = JObject kv
              /\ Vertex.from_function_response name response
                 = Ok (FunctionResponse name response))
  \/ ((forall kv, response <> JObject kv)
      /\ exists msg, Vertex.from_function_response name response
                     = Raise (AttributeError msg)).
Proof.
  destruct response; try (right; split; [intros kv0 H; discriminate H
                                        |eexists; reflexivity]).
  left. eexists. split; reflexivity.
Qed.

(** [main] up to its loop. *)
Lemma vertex_main_run (user_query : string) (w : world turn) :
  let log1 := (w_log w ++ [input_event; EvSend [] (UserText user_query)])%list in
  Vertex.main E user_query w =
  match generate_content E (w_log w ++ [input_event]) [] (UserText user_query) with
  | Raise e => (Raise e, {| w_log := log1; w_transcript := [] |})
  | Ok response =>
      let asked := {| w_log := log1;
                      w_transcript := [Sent (UserText user_query); Received response] |} in
      match candidates response with
      | [] => (Raise (IndexError "list index out of range"), asked)
      | c0 :: _ =>
          match function_calls c0 with
          | _ :: _ => for_each (function_calls c0) (Vertex.main_for_body E) asked
          | [] =>
              match resp_text response with
              | Raise e => (Raise e, asked)
              | Ok t => (Ok tt,
                         {| w_log := log1 ++ [EvPrint ("Direct response: " ++ t)];
                            w_transcript := w_transcript asked |})
              end
          end
      end
  end.
Proof.
  intros log1. unfold Vertex.main.
  unfold bind at 1. unfold emit at 1.
  unfold bind at 1. unfold Vertex.start_chat, set_transcript.
  unfold bind at 1. rewrite vertex_send_message_run.
  simpl w_log. simpl w_transcript. fold input_event.
  destruct (generate_content E _ _ _) as [response|e].
  - unfold bind, lift, index0, print, emit. simpl.
    destruct (candidates response) as [|c0 cs]; simpl;
      [subst log1; rewrite <- ?app_assoc; reflexivity|].
    destruct (function_calls c0) as [|fc fcs]; simpl.
    + destruct (resp_text response) as [t|e]; subst log1;
        rewrite <- ?app_assoc; reflexivity.
    + subst log1. rewrite <- ?app_assoc. reflexivity.
  - subst log1. rewrite <- ?app_assoc. reflexivity.
Qed.
End VertexSteps.

(** ** The shape of a run *)
Section Shape.
Variable E : env.

(** The three ways one iteration of the OpenAI loop can go. *)
Lemma openai_body_shape (completion : completion_) (c0 : choice) (cs : list choice)
  (tc : tool_call_) (w w' : world message) (r : result unit) :
  choices completion = c0 :: cs ->
  OpenAI.main_for_body E completion tc w = (r, w') ->
  (registered tc = false /\ r = Ok tt /\ w' = w)
  \/ (registered tc = true /\ planned_get E tc = None
      /\ (exists e, r = Raise e) /\ w' = w)
  \/ (registered tc = true /\
      exists g result tail,
        planned_get E tc = Some g
        /\ w_log w' = (w_log w ++
             [EvGet (fst g) (snd g);
              EvCreate (follow_up (w_transcript w ++
                [AssistantMessage (ch_message c0); ToolMessage (tc_id tc) result]))]
             ++ tail)%list
        /\ w_transcript w' = (w_transcript w ++
             [AssistantMessage (ch_message c0); ToolMessage (tc_id tc) result])%list
        /\ ((tail = [] /\ exists e, r = Raise e)
            \/ (exists line, tail = [EvPrint line] /\ r = Ok tt))).
Proof.
  intros Hc Hrun.
  destruct (registered tc) eqn:Hreg.
  2:{ rewrite openai_body_skip in Hrun by assumption.
      inversion Hrun; subst. left. auto. }
  right.
  destruct (json_loads E (fn_arguments (tc_function tc))) as [a|e] eqn:Hargs.
  2:{ rewrite (openai_body_bad_json E _ _ w e Hreg Hargs) in Hrun.
      inversion Hrun; subst. left. unfold planned_get. rewrite Hargs.
      repeat split; eauto. }
  assert (Hdict : (exists kv, a = JObject kv) \/ (forall kv, a <> JObject kv)).
  { destruct a; try (right; intros kv0 Habs; discriminate). left. eauto. }
  destruct Hdict as [[kv ->]|Hno].
  - right. split; [reflexivity|].
    rewrite (openai_body_dict E completion tc w kv Hreg Hargs) in Hrun.
    rewrite Hc in Hrun. cbv zeta in Hrun.
    unfold planned_get. rewrite Hargs.
    destruct (chat_completions_create E _ _) as [final|e].
    + destruct (choices final) as [|f0 fs]; inversion Hrun; subst; clear Hrun.
      * eexists; eexists; exists []; simpl.
        split; [reflexivity|]. split; [reflexivity|]. split; [reflexivity|].
        left. eauto.
      * eexists; eexists; eexists; simpl.
        split; [reflexivity|]. split; [reflexivity|]. split; [reflexivity|].
        right. eauto.
    + inversion Hrun; subst; clear Hrun.
      eexists; eexists; exists []; simpl.
      split; [reflexivity|]. split; [reflexivity|]. split; [reflexivity|].
      left. eauto.
  - left. destruct (openai_body_not_dict E completion tc w a Hreg Hargs Hno) as [e He].
    rewrite He in Hrun. inversion Hrun; subst.
    unfold planned_get. rewrite Hargs.
    split; [reflexivity|]. split; [|split; eauto].
    destruct a; try reflexivity. exfalso. eapply Hno. reflexivity.
Qed.

(** The OpenAI loop: one round per registered call, in the order of the
    list, as far as the loop gets. *)
Lemma openai_loop_shape (completion : completion_) (c0 : choice) (cs : list choice)
  (tcs : list tool_call_) :
  choices completion = c0 :: cs ->
  forall (w w' : world message) (r : result unit),
  for_each tcs (OpenAI.main_for_body E completion) w = (r, w') ->
  exists added more j,
    w_log w' = (w_log w ++ added)%list
    /\ w_transcript w' = (w_transcript w ++ more)%list
    /\ kinds added = rounds j
    /\ (j <= List.length (filter registered tcs))%nat
    /\ List.length (tool_turns more) = j
    /\ (r = Ok tt ->
        j = List.length (filter registered tcs)
        /\ map Some (gets added) = map (planned_get E) (filter registered tcs)).
Proof.
  intros Hc. induction tcs as [|tc rest IH]; intros w w' r Hrun.
  - simpl in Hrun. unfold ret in Hrun. inversion Hrun; subst.
    exists [], [], O. rewrite !app_nil_r. simpl. auto 10.
  - simpl in Hrun. unfold bind in Hrun.
    destruct (OpenAI.main_for_body E completion tc w) as [r1 w1] eqn:Hbody.
    destruct (openai_body_shape _ _ _ _ _ _ _ Hc Hbody)
      as [(Hreg & -> & ->)|[(Hreg & Hplan & [e ->] & ->)
                           |(Hreg & g & result & tail & Hplan & Hlog & Htr & Hend)]].
    + destruct (IH _ _ _ Hrun) as (added & more & j & H1 & H2 & H3 & H4 & H5 & H6).
      exists added, more, j. simpl. rewrite Hreg. auto 10.
    + inversion Hrun; subst.
      exists [], [], O. rewrite !app_nil_r. simpl.
      repeat split; try reflexivity; try lia; discriminate.
    + simpl filter. rewrite Hreg.
      destruct Hend as [[-> [e ->]]|[line [-> ->]]].
      * inversion Hrun; subst. rewrite app_nil_r in Hlog.
        eexists; eexists; exists 1%nat.
        split; [eassumption|]. split; [eassumption|].
        simpl. repeat split; try reflexivity; try lia; discriminate.
      * destruct (IH _ _ _ Hrun) as (added & more & j & H1 & H2 & H3 & H4 & H5 & H6).
        eexists; eexists; exists (S j).
        split; [rewrite H1, Hlog, <- !app_assoc; reflexivity|].
        split; [rewrite H2, Htr, <- !app_assoc; reflexivity|].
        simpl. rewrite H3.
        split; [reflexivity|]. split; [lia|].
        split; [rewrite ?tool_turns_app; simpl; rewrite H5; reflexivity|].
        intros Hok. destruct (H6 Hok) as [H7 H8].
        split; [lia|]. rewrite Hplan, H8. destruct g. reflexivity.
Qed.
End Shape.

Section VertexShape.
Variable E : env.

(** The three ways one iteration of the Vertex loop can go: the call is
    skipped; the tool runs and the function response cannot be built; the
    tool runs and the function response is sent. *)
Lemma vertex_body_shape (fc : function_call_) (w w' : world turn) (r : result unit) :
  Vertex.main_for_body E fc w = (r, w') ->
  (vregistered fc = false /\ r = Ok tt /\ w' = w)
  \/ (vregistered fc = true
      /\ w_log w' = (w_log w ++
             [EvGet (fst (vplanned_get E fc)) (snd (vplanned_get E fc))])%list
      /\ w_transcript w' = w_transcript w
      /\ exists msg, r = Raise (AttributeError msg))
  \/ (vregistered fc = true /\
      exists kv tail more,
        w_log w' = (w_log w ++
             [EvGet (fst (vplanned_get E fc)) (snd (vplanned_get E fc));
              EvSend (w_transcript w)
                     (FunctionResponse "get_exchange_rate" (JObject kv))] ++ tail)%list
        /\ w_transcript w' = (w_transcript w ++ more)%list
        /\ ((tail = [] /\ exists e, r = Raise e)
            \/ (exists line, tail = [EvPrint line] /\ r = Ok tt))).
Proof.
  intros Hrun. destruct (vregistered fc) eqn:Hreg.
  2:{ rewrite vertex_body_skip in Hrun by assumption.
      inversion Hrun; subst. left. auto. }
  right.
  rewrite (vertex_body_registered E fc w Hreg) in Hrun. cbv zeta in Hrun.
  destruct (from_function_response_cases "get_exchange_rate"
              (vertex_payload (fetched E (http_get E (w_log w)
                 (fst (vplanned_get E fc)) (snd (vplanned_get E fc))))))
    as [(kv & Hkv & Hpart)|(_ & msg & Hpart)]; rewrite Hpart in Hrun.
  2:{ left. inversion Hrun; subst. simpl. eauto 6. }
  right. split; [reflexivity|]. rewrite Hkv in Hrun.
  destruct (generate_content E _ _ _) as [final|e].
  - destruct (resp_text final) as [t|e]; inversion Hrun; subst; clear Hrun.
    + exists kv; eexists; eexists; simpl.
      split; [rewrite <- app_assoc; reflexivity|]. split; [reflexivity|].
      right. eauto.
    + exists kv, []; eexists; simpl.
      split; [reflexivity|]. split; [reflexivity|]. left. eauto.
  - inversion Hrun; subst; clear Hrun.
    exists kv, [], []; simpl.
    split; [reflexivity|]. split; [rewrite app_nil_r; reflexivity|]. left. eauto.
Qed.

(** The Vertex loop: one round for each registered call, in the order of
    the list, as far as the loop gets; the last tool execution is without
    its query when the function response could not be built. *)
Lemma vertex_loop_shape (fcs : list function_call_) :
  forall (w w' : world turn) (r : result unit),
  for_each fcs (Vertex.main_for_body E) w = (r, w') ->
  exists added more j stub,
    w_log w' = (w_log w ++ added)%list
    /\ w_transcript w' = (w_transcript w ++ more)%list
    /\ kinds added = (rounds j ++ stub)%list
    /\ (stub = [] \/ stub = [Tool])
    /\ (j + List.length stub <= List.length (filter vregistered fcs))%nat
    /\ (r = Ok tt ->
        stub = []
        /\ j = List.length (filter vregistered fcs)
        /\ gets added = map (vplanned_get E) (filter vregistered fcs)).
Proof.
  induction fcs as [|fc rest IH]; intros w w' r Hrun.
  - simpl in Hrun. unfold ret in Hrun. inversion Hrun; subst.
    exists [], [], O, []. rewrite !app_nil_r. simpl. auto 10.
  - simpl in Hrun. unfold bind in Hrun.
    destruct (Vertex.main_for_body E fc w) as [r1 w1] eqn:Hbody.
    destruct (vertex_body_shape _ _ _ _ Hbody)
      as [(Hreg & -> & ->)
         |[(Hreg & Hlog & Htr & msg & ->)
          |(Hreg & kv & tail & more1 & Hlog & Htr & Hend)]].
    + destruct (IH _ _ _ Hrun)
        as (added & more & j & stub & H1 & H2 & H3 & Hs & H4 & H5).
      exists added, more, j, stub. simpl. rewrite Hreg. auto 10.
    + simpl filter. rewrite Hreg. inversion Hrun; subst.
      eexists; exists [], O, [Tool].
      split; [eassumption|]. split; [rewrite app_nil_r; assumption|].
      simpl. repeat split; auto; try lia; discriminate.
    + simpl filter. rewrite Hreg.
      destruct Hend as [[-> [e ->]]|[line [-> ->]]].
      * inversion Hrun; subst. rewrite app_nil_r in Hlog.
        eexists; eexists; exists 1%nat, [].
        split; [eassumption|]. split; [eassumption|].
        simpl. repeat split; auto; try lia; discriminate.
      * destruct (IH _ _ _ Hrun)
          as (added & more & j & stub & H1 & H2 & H3 & Hs & H4 & H5).
        eexists; eexists; exists (S j), stub.
        split; [rewrite H1, Hlog, <- !app_assoc; reflexivity|].
        split; [rewrite H2, Htr, <- !app_assoc; reflexivity|].
        simpl. rewrite H3.
        split; [reflexivity|]. split; [assumption|]. split; [lia|].
        intros Hok. destruct (H5 Hok) as (H6 & H7 & H8).
        split; [assumption|]. split; [lia|]. rewrite H8. reflexivity.
Qed.
End VertexShape.

(** ** Whole runs *)
Section Runs.
Variable E : env.

(** The OpenAI [main]: its first query, then one round for each registered
    call of the answer, as far as the loop gets; the list [messages] only
    grows, by one tool turn a round. *)
Lemma openai_main_shape (user_query : string) (w : world message) :
  let tcs := calls_of (chat_completions_create E (w_log w ++ [input_event])
                         (first_request (w_transcript w))) in
  exists added more j,
    w_log (snd (OpenAI.main E user_query w)) = (w_log w ++ added)%list
    /\ w_transcript (snd (OpenAI.main E user_query w)) = (w_transcript w ++ more)%list
    /\ kinds added = Query :: rounds j
    /\ (j <= List.length (filter registered tcs))%nat
    /\ List.length (tool_turns more) = j
    /\ (fst (OpenAI.main E user_query w) = Ok tt ->
        j = List.length (filter registered tcs)
        /\ map Some (gets added) = map (planned_get E) (filter registered tcs)).
Proof.
  intros tcs. rewrite openai_main_run. cbv zeta. subst tcs. unfold calls_of.
  destruct (chat_completions_create E _ _) as [completion|e].
  2:{ eexists; exists []; exists O; simpl.
      split; [reflexivity|]. rewrite app_nil_r.
      repeat split; try reflexivity; try lia; discriminate. }
  destruct (choices completion) as [|c0 cs] eqn:Hc.
  { eexists; exists []; exists O; simpl.
    split; [reflexivity|]. rewrite app_nil_r.
    repeat split; try reflexivity; try lia; discriminate. }
  unfold OpenAI.truthy_calls.
  destruct (msg_tool_calls (ch_message c0)) as [[|tc tcs]|].
  1,3: eexists; exists []; exists O; simpl;
       (split; [reflexivity|]); rewrite app_nil_r;
       repeat split; try reflexivity; lia.
  destruct (for_each (tc :: tcs) (OpenAI.main_for_body E completion) _)
    as [r w'] eqn:Hloop.
  destruct (openai_loop_shape E completion c0 cs (tc :: tcs) Hc _ _ _ Hloop)
    as (added & more & j & H1 & H2 & H3 & H4 & H5 & H6).
  simpl w_log in H1. simpl w_transcript in H2.
  exists ([input_event; EvCreate (first_request (w_transcript w))] ++ added)%list,
    more, j.
  simpl fst. simpl snd.
  split; [rewrite H1, <- app_assoc; reflexivity|].
  split; [assumption|].
  split; [simpl; rewrite H3; reflexivity|].
  split; [assumption|]. split; [assumption|].
  intros Hok. destruct (H6 Hok) as [H7 H8]. split; [assumption|].
  simpl. exact H8.
Qed.

(** The Vertex [main]: its first query, then one round for each registered
    call of the answer, as far as the loop gets. *)
Lemma vertex_main_shape (user_query : string) (w : world turn) :
  let fcs := vcalls_of (generate_content E (w_log w ++ [input_event]) []
                          (UserText user_query)) in
  exists added j stub,
    w_log (snd (Vertex.main E user_query w)) = (w_log w ++ added)%list
    /\ kinds added = (Query :: rounds j ++ stub)%list
    /\ (stub = [] \/ stub = [Tool])
    /\ (j + List.length stub <= List.length (filter vregistered fcs))%nat
    /\ (fst (Vertex.main E user_query w) = Ok tt ->
        stub = []
        /\ j = List.length (filter vregistered fcs)
        /\ gets added = map (vplanned_get E) (filter vregistered fcs)).
Proof.
  intros fcs. rewrite vertex_main_run. cbv zeta. subst fcs. unfold vcalls_of.
  destruct (generate_content E _ _ _) as [response|e].
  2:{ eexists; exists O, []; simpl.
      split; [reflexivity|].
      repeat split; auto; try lia; discriminate. }
  destruct (candidates response) as [|c0 cs] eqn:Hc.
  { eexists; exists O, []; simpl.
    split; [reflexivity|].
    repeat split; auto; try lia; discriminate. }
  destruct (function_calls c0) as [|fc fcs] eqn:Hfc.
  { destruct (resp_text response) as [t|e]; eexists; exists O, []; simpl;
      (split; [rewrite <- ?app_assoc; reflexivity|]);
      repeat split; auto; try lia; discriminate. }
  destruct (for_each (fc :: fcs) (Vertex.main_for_body E) _) as [r w'] eqn:Hloop.
  destruct (vertex_loop_shape E (fc :: fcs) _ _ _ Hloop)
    as (added & more & j & stub & H1 & H2 & H3 & Hs & H4 & H5).
  simpl w_log in H1.
  exists ([input_event; EvSend [] (UserText user_query)] ++ added)%list, j, stub.
  simpl fst. simpl snd.
  split; [rewrite H1, <- app_assoc; reflexivity|].
  split; [simpl; rewrite H3; reflexivity|].
  split; [assumption|]. split; [assumption|].
  intros Hok. destruct (H5 Hok) as (H6 & H7 & H8).
  split; [assumption|]. split; [assumption|].
  simpl. exact H8.
Qed.
End Runs.

(** ** The order of tool executions and follow-up queries *)

(** C1, as stated, fails: with two tool calls in the answer the OpenAI
    [main] sends a follow-up query after the first execution, before the
    second call is executed, and another one after the second: two
    follow-up queries, not one after the whole batch. *)
Lemma two_calls_two_follow_ups :
  let w := user_asks "100 usd to eur" in
  let run := OpenAI.main two_calls_env "100 usd to eur" w in
  List.length (calls_of (chat_completions_create two_calls_env
                           (w_log w ++ [input_event])
                           (first_request (w_transcript w)))) = 2%nat
  /\ fst run = Ok tt
  /\ kinds (new_events w (snd run)) = [Query; Tool; Query; Tool; Query]
  /\ kinds (new_events w (snd run)) <> (Query :: repeat Tool 2 ++ [Query])%list.
Proof.
  vm_compute. repeat split; try reflexivity. discriminate.
Qed.

(** C1 (amended): the calls of the answer are taken in the order the model
    returned them, and every call for [get_exchange_rate] is a round of its
    own: one tool execution followed at once by one follow-up query, before
    the next call is looked at.  So the queries and executions of a run are
    the first query followed by [j] such rounds, [j] being at most the number
    of registered calls, and equal to it, with the GET requests in the order
    of the calls, when [main] returns.  With the Vertex SDK a run that raises
    may end on a tool execution without its query: the one whose result was
    no mapping, so that no function response could be built. *)
Theorem each_call_is_followed_by_its_own_query (E : env) (user_query : string)
  (w : world message) (wv : world turn) :
  (let tcs := calls_of (chat_completions_create E (w_log w ++ [input_event])
                          (first_request (w_transcript w))) in
   let run := OpenAI.main E user_query w in
   exists j,
     kinds (new_events w (snd run)) = Query :: rounds j
     /\ (j <= List.length (filter registered tcs))%nat
     /\ (fst run = Ok tt ->
         j = List.length (filter registered tcs)
         /\ map Some (gets (new_events w (snd run)))
            = map (planned_get E) (filter registered tcs)))
  /\
  (let fcs := vcalls_of (generate_content E (w_log wv ++ [input_event]) []
                           (UserText user_query)) in
   let run := Vertex.main E user_query wv in
   exists j stub,
     kinds (new_events wv (snd run)) = (Query :: rounds j ++ stub)%list
     /\ (stub = [] \/ stub = [Tool])
     /\ (j + List.length stub <= List.length (filter vregistered fcs))%nat
     /\ (fst run = Ok tt ->
         stub = []
         /\ j = List.length (filter vregistered fcs)
         /\ gets (new_events wv (snd run))
            = map (vplanned_get E) (filter vregistered fcs))).
Proof.
  split; cbv zeta.
  - destruct (openai_main_shape E user_query w)
      as (added & more & j & H1 & H2 & H3 & H4 & H5 & H6).
    rewrite (new_events_app w _ added H1). exists j. auto.
  - destruct (vertex_main_shape E user_query wv)
      as (added & j & stub & H1 & H3 & Hs & H4 & H6).
    rewrite (new_events_app wv _ added H1). exists j, stub. auto.
Qed.

(** The theorem at the scenario of two calls: both runs return, and both
    are the first query and two rounds. *)
Lemma each_call_is_followed_by_its_own_query_witness :
  fst (OpenAI.main two_calls_env "100 usd to eur" (user_asks "100 usd to eur")) = Ok tt
  /\ fst (Vertex.main two_calls_env "100 usd to eur" fresh_session) = Ok tt
  /\ kinds (new_events (user_asks "100 usd to eur")
              (snd (OpenAI.main two_calls_env "100 usd to eur"
                      (user_asks "100 usd to eur"))))
     = Query :: rounds 2
  /\ kinds (new_events fresh_session
              (snd (Vertex.main two_calls_env "100 usd to eur" fresh_session)))
     = Query :: rounds 2.
Proof.
  destruct (each_call_is_followed_by_its_own_query two_calls_env "100 usd to eur"
              (user_asks "100 usd to eur") fresh_session)
    as [[j (Hk & _ & Hj)] [jv [stub (Hkv & _ & _ & Hjv)]]].
  assert (Ho : fst (OpenAI.main two_calls_env "100 usd to eur"
                      (user_asks "100 usd to eur")) = Ok tt)
    by (vm_compute; reflexivity).
  assert (Hv : fst (Vertex.main two_calls_env "100 usd to eur" fresh_session) = Ok tt)
    by (vm_compute; reflexivity).
  destruct (Hj Ho) as [Ej _]. destruct (Hjv Hv) as (Es & Ejv & _).
  split; [exact Ho|]. split; [exact Hv|].
  split.
  - rewrite Hk, Ej. vm_compute. reflexivity.
  - rewrite Hkv, Es, Ejv. vm_compute. reflexivity.
Defined.

(** The service answers with a JSON list: the Vertex run ends on the tool
    execution, the OpenAI run goes on to its follow-up query. *)
Example run_with_a_list_as_tool_result :
  let run := OpenAI.main list_body_env "100 usd to eur" (user_asks "100 usd to eur") in
  let vrun := Vertex.main list_body_env "100 usd to eur" fresh_session in
  fst run = Ok tt
  /\ kinds (new_events (user_asks "100 usd to eur") (snd run)) = [Query; Tool; Query]
  /\ fst vrun = Raise (AttributeError "'list' object has no attribute 'items'")
  /\ kinds (new_events fresh_session (snd vrun)) = [Query; Tool].
Proof.
  vm_compute. repeat split; reflexivity.
Qed.

(** ** One tool call *)

(** One registered call in the first answer does not always give one
    execution: its arguments are read before the tool runs, and text that is
    no JSON ends the run with no execution, no follow-up query and no
    printed line. *)
Lemma one_call_with_bad_arguments_is_not_executed :
  let w := user_asks "100 usd to eur" in
  let first := chat_completions_create bad_json_env (w_log w ++ [input_event])
                 (first_request (w_transcript w)) in
  let run := OpenAI.main bad_json_env "100 usd to eur" w in
  map registered (calls_of first) = [true]
  /\ (exists msg, fst run = Raise (JSONDecodeError msg))
  /\ gets (new_events w (snd run)) = []
  /\ kinds (new_events w (snd run)) = [Query]
  /\ tool_turns (w_transcript (snd run)) = []
  /\ printed (new_events w (snd run)) = [].
Proof.
  vm_compute. repeat split; try reflexivity. eexists. reflexivity.
Qed.

(** The run of the OpenAI [main] on one registered call whose arguments
    are a dict. *)
Lemma openai_one_call_run (E : env) (user_query : string)
  (w : world message) (completion final : completion_) (c0 f0 : choice)
  (cs fs : list choice) (tc : tool_call_) (kv : list (string * json)) :
  let first := first_request (w_transcript w) in
  let url := rate_url E (dict_get kv "currency_date" (JString "latest")) in
  let params := rate_params (dict_get kv "currency_from" JNull)
                            (dict_get kv "currency_to" JNull) in
  let result := openai_payload E
    (fetched E (http_get E (w_log w ++ [input_event; EvCreate first]) url params)) in
  let messages := (w_transcript w ++
    [AssistantMessage (ch_message c0); ToolMessage (tc_id tc) result])%list in
  let answer := ("Final response: " ++ str_opt (msg_content (ch_message f0)))%string in
  chat_completions_create E (w_log w ++ [input_event]) first = Ok completion ->
  choices completion = c0 :: cs ->
  msg_tool_calls (ch_message c0) = Some [tc] ->
  fn_name (tc_function tc) = "get_exchange_rate" ->
  json_loads E (fn_arguments (tc_function tc)) = Ok (JObject kv) ->
  chat_completions_create E (w_log w ++ [input_event; EvCreate first; EvGet url params])
    (follow_up messages) = Ok final ->
  choices final = f0 :: fs ->
  OpenAI.main E user_query w
  = (Ok tt,
     {| w_log := w_log w ++ [input_event; EvCreate first; EvGet url params;
                             EvCreate (follow_up messages); EvPrint answer];
        w_transcript := messages |}).
Proof.
  intros first url params result messages answer H1 Hc Hcalls Hname Hargs H2 Hf.
  rewrite openai_main_run. cbv zeta. fold first. rewrite H1, Hc.
  unfold OpenAI.truthy_calls. rewrite Hcalls.
  simpl for_each. unfold bind at 1.
  assert (Hreg : registered tc = true)
    by (unfold registered; rewrite Hname; reflexivity).
  rewrite (openai_body_dict E completion tc _ kv Hreg Hargs). cbv zeta.
  rewrite Hc. simpl w_log. simpl w_transcript.
  fold url params result messages.
  rewrite <- !app_assoc. simpl app.
  rewrite H2, Hf. unfold ret. rewrite <- !app_assoc. reflexivity.
Qed.

(** The run of the Vertex [main] on one registered call whose tool result
    is a mapping. *)
Lemma vertex_one_call_run (E : env) (user_query : string) (w : world turn)
  (response final : generation_response) (c0 : candidate) (cs : list candidate)
  (fc : function_call_) (kv : list (string * json)) (t : string) :
  let asked := [Sent (UserText user_query); Received response] in
  let url := fst (vplanned_get E fc) in
  let params := snd (vplanned_get E fc) in
  let log1 := (w_log w ++ [input_event; EvSend [] (UserText user_query)])%list in
  let result := vertex_payload (fetched E (http_get E log1 url params)) in
  let c := FunctionResponse "get_exchange_rate" result in
  generate_content E (w_log w ++ [input_event]) [] (UserText user_query) = Ok response ->
  candidates response = c0 :: cs ->
  function_calls c0 = [fc] ->
  fc_name fc = "get_exchange_rate" ->
  result = JObject kv ->
  generate_content E (log1 ++ [EvGet url params]) asked c = Ok final ->
  resp_text final = Ok t ->
  Vertex.main E user_query w =
  (Ok tt, {| w_log := log1 ++ [EvGet url params; EvSend asked c;
                               EvPrint ("Final response: " ++ t)];
             w_transcript := asked ++ [Sent c; Received final] |}).
Proof.
  intros asked url params log1 result c H1 Hc Hcalls Hname Hmap H2 Ht.
  rewrite vertex_main_run. cbv zeta. rewrite H1, Hc, Hcalls.
  simpl for_each. unfold bind at 1.
  assert (Hreg : vregistered fc = true)
    by (unfold vregistered; rewrite Hname; reflexivity).
  rewrite (vertex_body_registered E fc _ Hreg). cbv zeta.
  simpl w_log. simpl w_transcript.
  fold log1 url params result.
  assert (Hfr : Vertex.from_function_response "get_exchange_rate" result = Ok c)
    by (rewrite Hmap; subst c; rewrite Hmap; reflexivity).
  rewrite Hfr. fold asked.
  rewrite H2, Ht. unfold ret. rewrite <- !app_assoc. reflexivity.
Qed.

(** C2: when the answer to the first request carries exactly one tool call,
    for [get_exchange_rate], the arguments are a dict (OpenAI: the text of
    the arguments parses to one), the tool result can be sent back (Vertex:
    it is a mapping) and the model answers the follow-up request (Vertex:
    with a text), each [main] returns after exactly one tool execution, one
    tool result appended to the transcript behind the model's own message,
    one follow-up query and one printed line: the text of the follow-up
    answer.  The tool turn of the OpenAI transcript carries the id of the
    call; a function call of the Vertex SDK has no id, and the function
    response carries the name of the tool. *)
Theorem one_call_one_execution_one_follow_up (E : env) (user_query : string) :
  (forall (w : world message) (completion final : completion_) (c0 f0 : choice)
          (cs fs : list choice) (tc : tool_call_) (kv : list (string * json)),
     let first := first_request (w_transcript w) in
     let url := rate_url E (dict_get kv "currency_date" (JString "latest")) in
     let params := rate_params (dict_get kv "currency_from" JNull)
                               (dict_get kv "currency_to" JNull) in
     let result := openai_payload E
       (fetched E (http_get E (w_log w ++ [input_event; EvCreate first]) url params)) in
     let messages := (w_transcript w ++
       [AssistantMessage (ch_message c0); ToolMessage (tc_id tc) result])%list in
     let answer := ("Final response: " ++ str_opt (msg_content (ch_message f0)))%string in
     chat_completions_create E (w_log w ++ [input_event]) first = Ok completion ->
     choices completion = c0 :: cs ->
     msg_tool_calls (ch_message c0) = Some [tc] ->
     fn_name (tc_function tc) = "get_exchange_rate" ->
     json_loads E (fn_arguments (tc_function tc)) = Ok (JObject kv) ->
     chat_completions_create E (w_log w ++ [input_event; EvCreate first; EvGet url params])
       (follow_up messages) = Ok final ->
     choices final = f0 :: fs ->
     let run := OpenAI.main E user_query w in
     run = (Ok tt,
            {| w_log := w_log w ++ [input_event; EvCreate first; EvGet url params;
                                    EvCreate (follow_up messages); EvPrint answer];
               w_transcript := messages |})
     /\ gets (new_events w (snd run)) = [(url, params)]
     /\ tool_turns (w_transcript (snd run))
        = (tool_turns (w_transcript w) ++ [(tc_id tc, result)])%list
     /\ kinds (new_events w (snd run)) = [Query; Tool; Query]
     /\ printed (new_events w (snd run)) = [answer])
  /\
  (forall (wv : world turn) (response final : generation_response)
          (c0 : candidate) (cs : list candidate) (fc : function_call_)
          (kv : list (string * json)) (t : string),
     let asked := [Sent (UserText user_query); Received response] in
     let url := fst (vplanned_get E fc) in
     let params := snd (vplanned_get E fc) in
     let log1 := (w_log wv ++ [input_event; EvSend [] (UserText user_query)])%list in
     let result := vertex_payload (fetched E (http_get E log1 url params)) in
     let c := FunctionResponse "get_exchange_rate" result in
     generate_content E (w_log wv ++ [input_event]) [] (UserText user_query)
       = Ok response ->
     candidates response = c0 :: cs ->
     function_calls c0 = [fc] ->
     fc_name fc = "get_exchange_rate" ->
     result = JObject kv ->
     generate_content E (log1 ++ [EvGet url params]) asked c = Ok final ->
     resp_text final = Ok t ->
     let run := Vertex.main E user_query wv in
     run = (Ok tt,
            {| w_log := log1 ++ [EvGet url params; EvSend asked c;
                                 EvPrint ("Final response: " ++ t)];
               w_transcript := asked ++ [Sent c; Received final] |})
     /\ gets (new_events wv (snd run)) = [(url, params)]
     /\ sends (new_events wv (snd run)) = [UserText user_query; c]
     /\ kinds (new_events wv (snd run)) = [Query; Tool; Query]
     /\ printed (new_events wv (snd run)) = [("Final response: " ++ t)%string]).
Proof.
  split.
  - intros w completion final c0 f0 cs fs tc kv
           first url params result messages answer H1 Hc Hcalls Hname Hargs H2 Hf run.
    assert (Hrun : run = (Ok tt,
           {| w_log := w_log w ++ [input_event; EvCreate first; EvGet url params;
                                   EvCreate (follow_up messages); EvPrint answer];
              w_transcript := messages |}))
      by exact (openai_one_call_run E user_query w completion final c0 f0 cs fs tc kv
                  H1 Hc Hcalls Hname Hargs H2 Hf).
    split; [exact Hrun|]. rewrite Hrun. simpl snd.
    erewrite new_events_app by (simpl; reflexivity). simpl w_transcript.
    subst messages. rewrite tool_turns_app. simpl. auto.
  - intros wv response final c0 cs fc kv t
           asked url params log1 result c H1 Hc Hcalls Hname Hmap H2 Ht run.
    assert (Hrun : run = (Ok tt,
           {| w_log := log1 ++ [EvGet url params; EvSend asked c;
                                EvPrint ("Final response: " ++ t)];
              w_transcript := asked ++ [Sent c; Received final] |}))
      by exact (vertex_one_call_run E user_query wv response final c0 cs fc kv t
                  H1 Hc Hcalls Hname Hmap H2 Ht).
    split; [exact Hrun|]. rewrite Hrun. simpl snd. subst log1.
    rewrite <- app_assoc.
    erewrite new_events_app by (simpl; reflexivity).
    simpl. auto.
Qed.

Lemma one_call_one_execution_one_follow_up_witness :
  OpenAI.main one_call_env "100 usd to eur" (user_asks "100 usd to eur")
  = (Ok tt,
     {| w_log := [input_event;
                  EvCreate (first_request [RoleMessage "user" "100 usd to eur"]);
                  EvGet "https://api.frankfurter.app/latest"
                        [("from", JString "USD"); ("to", JString "EUR")];
                  EvCreate (follow_up
                    [RoleMessage "user" "100 usd to eur";
                     AssistantMessage {| msg_content := None;
                       msg_tool_calls := Some [Sample.call "call_1" "get_exchange_rate"
                                                 Sample.usd_eur_text] |};
                     ToolMessage "call_1" Sample.rates_text]);
                  EvPrint "Final response: The exchange rate for 100 USD to EUR is 88.645 EUR."];
        w_transcript :=
          [RoleMessage "user" "100 usd to eur";
           AssistantMessage {| msg_content := None;
             msg_tool_calls := Some [Sample.call "call_1" "get_exchange_rate"
                                       Sample.usd_eur_text] |};
           ToolMessage "call_1" Sample.rates_text] |})
  /\ kinds (new_events fresh_session
              (snd (Vertex.main one_call_env "100 usd to eur" fresh_session)))
     = [Query; Tool; Query]
  /\ sends (new_events fresh_session
              (snd (Vertex.main one_call_env "100 usd to eur" fresh_session)))
     = [UserText "100 usd to eur"; FunctionResponse "get_exchange_rate" Sample.rates]
  /\ printed (new_events fresh_session
                (snd (Vertex.main one_call_env "100 usd to eur" fresh_session)))
     = ["Final response: The exchange rate for 100 USD to EUR is 88.645 EUR."].
Proof.
  split.
  - refine (proj1 (proj1 (one_call_one_execution_one_follow_up one_call_env
              "100 usd to eur")
              (user_asks "100 usd to eur")
              (Sample.asks [Sample.call "call_1" "get_exchange_rate" Sample.usd_eur_text])
              (Sample.says "The exchange rate for 100 USD to EUR is 88.645 EUR.")
              (Sample.ask_choice [Sample.call "call_1" "get_exchange_rate"
                                    Sample.usd_eur_text])
              (Sample.say_choice "The exchange rate for 100 USD to EUR is 88.645 EUR.")
              [] [] (Sample.call "call_1" "get_exchange_rate" Sample.usd_eur_text)
              Sample.usd_eur _ _ _ _ _ _ _));
      vm_compute; reflexivity.
  - destruct (proj2 (one_call_one_execution_one_follow_up one_call_env
                "100 usd to eur")
                fresh_session
                (Sample.vasks [ {| fc_name := "get_exchange_rate";
                                   fc_args := Sample.usd_eur |} ])
                (Sample.vsays "The exchange rate for 100 USD to EUR is 88.645 EUR.")
                {| function_calls := [ {| fc_name := "get_exchange_rate";
                                          fc_args := Sample.usd_eur |} ] |}
                []
                {| fc_name := "get_exchange_rate"; fc_args := Sample.usd_eur |}
                [("amount", JInt 100); ("base", JString "USD");
                 ("rates", JObject [("EUR", JFloat "88.645")])]
                "The exchange rate for 100 USD to EUR is 88.645 EUR.")
      as (_ & _ & Hs & Hk & Hp); [vm_compute; reflexivity..|].
    split; [exact Hk|]. split; [|exact Hp].
    rewrite Hs. vm_compute. reflexivity.
Defined.

(** ** The transcript *)

(** The OpenAI [main] does not use what [input] returned. *)
Lemma openai_main_ignores_user_query (E : env) (q q' : string) (w : world message) :
  OpenAI.main E q w = OpenAI.main E q' w.
Proof. reflexivity. Qed.

(** Its first request carries the list [messages] as it was. *)
Lemma openai_first_request_is_messages (E : env) (q : string) (w : world message) :
  exists rest,
    new_events w (snd (OpenAI.main E q w))
    = input_event :: EvCreate (first_request (w_transcript w)) :: rest.
Proof.
  rewrite openai_main_run. cbv zeta.
  destruct (chat_completions_create E _ _) as [completion|e].
  2:{ exists []. apply new_events_app. reflexivity. }
  destruct (choices completion) as [|c0 cs] eqn:Hc.
  { exists []. apply new_events_app. reflexivity. }
  destruct (OpenAI.truthy_calls (ch_message c0)) as [tcs|] eqn:Ht.
  2:{ eexists. apply new_events_app. reflexivity. }
  destruct (for_each tcs (OpenAI.main_for_body E completion) _) as [r w'] eqn:Hloop.
  destruct (openai_loop_shape E completion c0 cs tcs Hc _ _ _ Hloop)
    as (added & more & j & H1 & _).
  exists added. apply new_events_app. simpl snd. rewrite H1. simpl.
  rewrite <- app_assoc. reflexivity.
Qed.

(** The list [messages] only grows during [main]. *)
Lemma openai_messages_append_only (E : env) (q : string) (w : world message) :
  exists more,
    w_transcript (snd (OpenAI.main E q w)) = (w_transcript w ++ more)%list.
Proof.
  destruct (openai_main_shape E q w) as (added & more & j & _ & H2 & _).
  exists more. exact H2.
Qed.

(** The Vertex [main] sends the user's text first, in a new session. *)
Lemma vertex_main_sends_user_query_first (E : env) (q : string) (w : world turn) :
  exists rest,
    new_events w (snd (Vertex.main E q w))
    = input_event :: EvSend [] (UserText q) :: rest.
Proof.
  rewrite vertex_main_run. cbv zeta.
  destruct (generate_content E _ _ _) as [response|e].
  2:{ exists []. apply new_events_app. reflexivity. }
  destruct (candidates response) as [|c0 cs] eqn:Hc.
  { exists []. apply new_events_app. reflexivity. }
  destruct (function_calls c0) as [|fc fcs] eqn:Hf.
  { destruct (resp_text response); eexists; apply new_events_app; simpl;
      rewrite <- ?app_assoc; reflexivity. }
  destruct (for_each (fc :: fcs) (Vertex.main_for_body E) _) as [r w'] eqn:Hloop.
  destruct (vertex_loop_shape E (fc :: fcs) _ _ _ Hloop)
    as (added & more & j & stub & H1 & _).
  exists added. apply new_events_app. simpl snd. rewrite H1. simpl.
  rewrite <- app_assoc. reflexivity.
Qed.

(** C3: the OpenAI [main] at the input [100 usd to eur], the list [messages]
    being empty.  The run returns, but no request to the model carries a
    user turn with the text: the first request carries no message at all,
    the follow-up request the model's message and the tool turn, and the
    text is not in [messages] afterwards. *)
Theorem openai_main_never_sends_the_user_query :
  let run := OpenAI.main one_call_env "100 usd to eur" no_messages in
  let asking := AssistantMessage
    (ch_message (Sample.ask_choice
       [Sample.call "call_1" "get_exchange_rate" Sample.usd_eur_text])) in
  fst run = Ok tt
  /\ map rq_messages (requests (new_events no_messages (snd run)))
     = [ []; [asking; ToolMessage "call_1" Sample.rates_text] ]
  /\ w_transcript (snd run) = [asking; ToolMessage "call_1" Sample.rates_text]
  /\ ~ In (RoleMessage "user" "100 usd to eur") (w_transcript (snd run)).
Proof.
  vm_compute. repeat split; try reflexivity.
  intros [H|[H|[]]]; discriminate.
Qed.

(** ** Calls the loop does not resolve *)

(** C4, as stated, fails: the model asks for [unknown_tool]; the OpenAI
    [main] returns without a tool turn in [messages], without any line
    printed and without a follow-up query. *)
Lemma unknown_tool_leaves_no_tool_turn :
  let w := user_asks "100 usd to eur" in
  let run := OpenAI.main unknown_tool_env "100 usd to eur" w in
  map registered (calls_of (chat_completions_create unknown_tool_env
                              (w_log w ++ [input_event])
                              (first_request (w_transcript w)))) = [false]
  /\ fst run = Ok tt
  /\ tool_turns (w_transcript (snd run)) = []
  /\ w_transcript (snd run) = w_transcript w
  /\ new_events w (snd run) = [input_event; EvCreate (first_request (w_transcript w))].
Proof.
  vm_compute. repeat split; reflexivity.
Qed.

(** C4 (amended): a tool call whose name is not [get_exchange_rate] is
    skipped by the loop of either [main]: the iteration returns at once and
    leaves the world as it was, so no tool runs, no turn enters the
    transcript, no follow-up query is sent, nothing is printed and nothing
    is raised. *)
Theorem unknown_tool_is_skipped (E : env) (completion : completion_)
  (tc : tool_call_) (w : world message) (fc : function_call_) (wv : world turn) :
  fn_name (tc_function tc) <> "get_exchange_rate" ->
  fc_name fc <> "get_exchange_rate" ->
  OpenAI.main_for_body E completion tc w = (Ok tt, w)
  /\ Vertex.main_for_body E fc wv = (Ok tt, wv).
Proof.
  intros Ho Hv. split.
  - apply openai_body_skip. unfold registered. apply String.eqb_neq. exact Ho.
  - apply vertex_body_skip. unfold vregistered. apply String.eqb_neq. exact Hv.
Qed.

Lemma unknown_tool_is_skipped_witness :
  OpenAI.main_for_body unknown_tool_env
    (Sample.asks [Sample.call "call_1" "unknown_tool" "{}"])
    (Sample.call "call_1" "unknown_tool" "{}") (user_asks "100 usd to eur")
  = (Ok tt, user_asks "100 usd to eur")
  /\ Vertex.main_for_body unknown_tool_env
       {| fc_name := "unknown_tool"; fc_args := [] |} fresh_session
     = (Ok tt, fresh_session).
Proof.
  apply (unknown_tool_is_skipped unknown_tool_env
           (Sample.asks [Sample.call "call_1" "unknown_tool" "{}"])
           (Sample.call "call_1" "unknown_tool" "{}") (user_asks "100 usd to eur")
           {| fc_name := "unknown_tool"; fc_args := [] |} fresh_session);
    simpl; discriminate.
Defined.

(** C5, as stated, fails: the model asks for the tool with the arguments
    [not json]; the exception of [json.loads] leaves the OpenAI [main], and
    no tool turn is appended. *)
Lemma bad_json_escapes_main :
  let w := user_asks "100 usd to eur" in
  let run := OpenAI.main bad_json_env "100 usd to eur" w in
  (exists msg, json_loads bad_json_env "not json" = Raise (JSONDecodeError msg)
               /\ fst run = Raise (JSONDecodeError msg))
  /\ tool_turns (w_transcript (snd run)) = []
  /\ gets (new_events w (snd run)) = [].
Proof.
  vm_compute. split; [eexists; split; reflexivity|]. split; reflexivity.
Qed.

(** C5 (amended): when [json.loads] raises on the arguments of a call for
    [get_exchange_rate], the iteration raises that exception and leaves the
    world as it was; when the call is the first of the answer, [main] raises
    it right after its first request: no tool has run, no turn was appended
    and no follow-up query was sent. *)
Theorem bad_arguments_raise_out_of_main (E : env) (user_query : string)
  (w : world message) (completion : completion_) (c0 : choice) (cs : list choice)
  (tc : tool_call_) (rest : list tool_call_) (e : exn) :
  chat_completions_create E (w_log w ++ [input_event])
    (first_request (w_transcript w)) = Ok completion ->
  choices completion = c0 :: cs ->
  msg_tool_calls (ch_message c0) = Some (tc :: rest) ->
  fn_name (tc_function tc) = "get_exchange_rate" ->
  json_loads E (fn_arguments (tc_function tc)) = Raise e ->
  (forall w1, OpenAI.main_for_body E completion tc w1 = (Raise e, w1))
  /\ OpenAI.main E user_query w
     = (Raise e,
        {| w_log := w_log w ++ [input_event; EvCreate (first_request (w_transcript w))];
           w_transcript := w_transcript w |}).
Proof.
  intros H1 Hc Hcalls Hname Hargs.
  assert (Hreg : registered tc = true)
    by (unfold registered; rewrite Hname; reflexivity).
  split.
  - intros w1. apply openai_body_bad_json; assumption.
  - rewrite openai_main_run. cbv zeta. rewrite H1, Hc.
    unfold OpenAI.truthy_calls. rewrite Hcalls.
    simpl for_each. unfold bind.
    rewrite (openai_body_bad_json E completion tc _ e Hreg Hargs). reflexivity.
Qed.

Lemma bad_arguments_raise_out_of_main_witness :
  exists e,
    json_loads bad_json_env "not json" = Raise e
    /\ OpenAI.main bad_json_env "100 usd to eur" (user_asks "100 usd to eur")
       = (Raise e,
          {| w_log := [input_event;
                       EvCreate (first_request [RoleMessage "user" "100 usd to eur"])];
             w_transcript := [RoleMessage "user" "100 usd to eur"] |}).
Proof.
  eexists. split; [vm_compute; reflexivity|].
  refine (proj2 (bad_arguments_raise_out_of_main bad_json_env "100 usd to eur"
            (user_asks "100 usd to eur")
            (Sample.asks [Sample.call "call_1" "get_exchange_rate" "not json"])
            (Sample.ask_choice [Sample.call "call_1" "get_exchange_rate" "not json"])
            [] (Sample.call "call_1" "get_exchange_rate" "not json") []
            _ _ _ _ _ _));
    vm_compute; reflexivity.
Defined.

(** ** The tool at its boundary *)

(** A status that is not 2xx does not always give a failure value: the
    service answers 300 with a JSON body, [raise_for_status] lets it pass,
    and the tool returns the parsed body as it does for a 200. *)
Lemma non_2xx_answer_is_returned_as_success :
  let url := rate_url service_300_env (JString "latest") in
  let params := rate_params (JString "USD") (JString "EUR") in
  http_get service_300_env [] url params = Ok multiple_choices
  /\ ~ (200 <= status_code multiple_choices < 300)
  /\ fst (OpenAI.get_exchange_rate service_300_env (JString "latest") (JString "USD")
            (JString "EUR") no_messages) = Ok Sample.rates_text
  /\ fst (Vertex.get_exchange_rate service_300_env (JString "latest") (JString "USD")
            (JString "EUR") fresh_session) = Ok Sample.rates
  /\ (forall e, Sample.rates_text
                <> ("Error fetching exchange rate: " ++ str_exn e)%string)
  /\ (forall e, Sample.rates <> JObject [("error", JString (str_exn e))]).
Proof.
  cbv zeta. split; [vm_compute; reflexivity|].
  split; [simpl; lia|].
  split; [vm_compute; reflexivity|].
  split; [vm_compute; reflexivity|].
  split; intros e H; vm_compute in H; discriminate H.
Qed.

(** C6: [get_exchange_rate] never raises, with either SDK.  It returns a
    value whatever the service does: when [requests.get] raises, when
    [raise_for_status] raises (a status from 400 to 599) and when the body
    is not JSON, the exception is caught and the value carries its message;
    for every other status, 2xx or not, a body that is JSON is returned
    parsed (serialized again by [json.dumps] in the OpenAI cells). *)
Theorem get_exchange_rate_never_raises (E : env) (d f t : json)
  (w : world message) (wv : world turn) :
  (let outcome := http_get E (w_log w) (rate_url E d) (rate_params f t) in
   exists s : string,
     OpenAI.get_exchange_rate E d f t w
     = (Ok s, {| w_log := w_log w ++ [EvGet (rate_url E d) (rate_params f t)];
                 w_transcript := w_transcript w |})
     /\ (forall e, outcome = Raise e ->
           s = ("Error fetching exchange rate: " ++ str_exn e)%string)
     /\ (forall r, outcome = Ok r -> 400 <= status_code r < 600 ->
           exists e, raise_for_status r = Raise e
                     /\ s = ("Error fetching exchange rate: " ++ str_exn e)%string)
     /\ (forall r e, outcome = Ok r ->
           status_code r < 400 \/ 600 <= status_code r ->
           json_loads E (text_ r) = Raise e ->
           s = ("Error fetching exchange rate: " ++ str_exn e)%string)
     /\ (forall r j, outcome = Ok r ->
           status_code r < 400 \/ 600 <= status_code r ->
           json_loads E (text_ r) = Ok j -> s = json_dumps E j))
  /\
  (let outcome := http_get E (w_log wv) (rate_url E d) (rate_params f t) in
   exists v : json,
     Vertex.get_exchange_rate E d f t wv
     = (Ok v, {| w_log := w_log wv ++ [EvGet (rate_url E d) (rate_params f t)];
                 w_transcript := w_transcript wv |})
     /\ (forall e, outcome = Raise e -> v = JObject [("error", JString (str_exn e))])
     /\ (forall r, outcome = Ok r -> 400 <= status_code r < 600 ->
           exists e, raise_for_status r = Raise e
                     /\ v = JObject [("error", JString (str_exn e))])
     /\ (forall r e, outcome = Ok r ->
           status_code r < 400 \/ 600 <= status_code r ->
           json_loads E (text_ r) = Raise e ->
           v = JObject [("error", JString (str_exn e))])
     /\ (forall r j, outcome = Ok r ->
           status_code r < 400 \/ 600 <= status_code r ->
           json_loads E (text_ r) = Ok j -> v = j)).
Proof.
  assert (H2xx : forall r, status_code r < 400 \/ 600 <= status_code r ->
                           raise_for_status r = Ok tt).
  { intros r Hr. unfold raise_for_status.
    destruct ((400 <=? status_code r) && (status_code r <? 500)) eqn:H4.
    { apply andb_prop in H4. destruct H4 as [Ha Hb].
      apply Z.leb_le in Ha. apply Z.ltb_lt in Hb. lia. }
    destruct ((500 <=? status_code r) && (status_code r <? 600)) eqn:H5.
    { apply andb_prop in H5. destruct H5 as [Ha Hb].
      apply Z.leb_le in Ha. apply Z.ltb_lt in Hb. lia. }
    reflexivity. }
  split; cbv zeta.
  - eexists. split; [apply openai_get_exchange_rate_run|].
    repeat split.
    + intros e ->. reflexivity.
    + intros r -> Hr. destruct (proj1 (raise_for_status_raises r) Hr) as [e He].
      exists e. split; [exact He|]. simpl. rewrite He. reflexivity.
    + intros r e -> Hr He. simpl. rewrite (H2xx r Hr). unfold response_json.
      rewrite He. reflexivity.
    + intros r j -> Hr Hj. simpl. rewrite (H2xx r Hr). unfold response_json.
      rewrite Hj. reflexivity.
  - eexists. split; [apply vertex_get_exchange_rate_run|].
    repeat split.
    + intros e ->. reflexivity.
    + intros r -> Hr. destruct (proj1 (raise_for_status_raises r) Hr) as [e He].
      exists e. split; [exact He|]. simpl. rewrite He. reflexivity.
    + intros r e -> Hr He. simpl. rewrite (H2xx r Hr). unfold response_json.
      rewrite He. reflexivity.
    + intros r j -> Hr Hj. simpl. rewrite (H2xx r Hr). unfold response_json.
      rewrite Hj. reflexivity.
Qed.

(** The theorem where the service answers 200 with the rates, and where it
    cannot be reached. *)
Lemma get_exchange_rate_never_raises_witness :
  fst (OpenAI.get_exchange_rate service_ok_env (JString "latest") (JString "USD")
         (JString "EUR") no_messages) = Ok Sample.rates_text
  /\ fst (Vertex.get_exchange_rate service_ok_env (JString "latest") (JString "USD")
            (JString "EUR") fresh_session) = Ok Sample.rates
  /\ fst (OpenAI.get_exchange_rate service_down_env (JString "latest") (JString "USD")
            (JString "EUR") no_messages)
     = Ok "Error fetching exchange rate: Connection refused"
  /\ fst (Vertex.get_exchange_rate service_down_env (JString "latest") (JString "USD")
            (JString "EUR") fresh_session)
     = Ok (JObject [("error", JString "Connection refused")]).
Proof.
  destruct (get_exchange_rate_never_raises service_ok_env (JString "latest")
              (JString "USD") (JString "EUR") no_messages fresh_session)
    as [[s (Hs & _ & _ & _ & Hok)] [v (Hv & _ & _ & _ & Hvok)]].
  destruct (get_exchange_rate_never_raises service_down_env (JString "latest")
              (JString "USD") (JString "EUR") no_messages fresh_session)
    as [[s' (Hs' & Hdown & _)] [v' (Hv' & Hvdown & _)]].
  rewrite Hs, Hv, Hs', Hv'. simpl fst.
  split; [|split; [|split]]; f_equal.
  - rewrite (Hok Sample.ok_response Sample.rates);
      [vm_compute; reflexivity | vm_compute; reflexivity | simpl; lia
      | vm_compute; reflexivity].
  - rewrite (Hvok Sample.ok_response Sample.rates);
      [reflexivity | vm_compute; reflexivity | simpl; lia
      | vm_compute; reflexivity].
  - rewrite (Hdown (RequestException "Connection refused")); reflexivity.
  - rewrite (Hvdown (RequestException "Connection refused")); reflexivity.
Defined.

(** What an iteration of the OpenAI loop does once the arguments are a
    dict: exactly one GET, built from the dict, and, the completion having
    a choice, one tool turn holding what [get_exchange_rate] returned. *)
Lemma openai_body_dict_effects (E : env) (completion : completion_)
  (tc : tool_call_) (kv : list (string * json)) (w : world message) :
  fn_name (tc_function tc) = "get_exchange_rate" ->
  json_loads E (fn_arguments (tc_function tc)) = Ok (JObject kv) ->
  let url := rate_url E (dict_get kv "currency_date" (JString "latest")) in
  let params := rate_params (dict_get kv "currency_from" JNull)
                            (dict_get kv "currency_to" JNull) in
  let w' := snd (OpenAI.main_for_body E completion tc w) in
  gets (new_events w w') = [(url, params)]
  /\ (choices completion <> [] ->
      tool_turns (w_transcript w')
      = (tool_turns (w_transcript w) ++
         [(tc_id tc, openai_payload E (fetched E (http_get E (w_log w) url params)))])%list).
Proof.
  intros Hname Hargs url params w'.
  assert (Hreg : registered tc = true)
    by (unfold registered; rewrite Hname; reflexivity).
  subst w'. rewrite (openai_body_dict E completion tc w kv Hreg Hargs). cbv zeta.
  fold url params.
  destruct (choices completion) as [|c0 cs].
  { split; [|intros H; contradiction H; reflexivity].
    erewrite new_events_app by (simpl; reflexivity). reflexivity. }
  destruct (chat_completions_create E _ _) as [final|e];
    [destruct (choices final) as [|f0 fs]|];
    (split; [erewrite new_events_app by (simpl; reflexivity); reflexivity
            |intros _; simpl; rewrite tool_turns_app; reflexivity]).
Qed.

(** C7: when the arguments of a call for [get_exchange_rate] parse to a
    dict without [currency_date], the date is ["latest"], and the iteration
    issues exactly one GET, to the path [latest], with the parameters [from]
    and [to] taken from the dict.  Every invocation of [get_exchange_rate]
    issues exactly one GET, to the path named by its date, with its two
    currencies as [from] and [to]. *)
Theorem missing_date_defaults_to_latest (E : env) (completion : completion_)
  (tc : tool_call_) (kv : list (string * json)) (w w1 : world message)
  (d f t : json) :
  fn_name (tc_function tc) = "get_exchange_rate" ->
  json_loads E (fn_arguments (tc_function tc)) = Ok (JObject kv) ->
  assoc "currency_date" kv = None ->
  py_get (JObject kv) "currency_date" (JString "latest") = Ok (JString "latest")
  /\ gets (new_events w (snd (OpenAI.main_for_body E completion tc w)))
     = [("https://api.frankfurter.app/latest",
         [("from", dict_get kv "currency_from" JNull);
          ("to", dict_get kv "currency_to" JNull)])]
  /\ new_events w1 (snd (OpenAI.get_exchange_rate E d f t w1))
     = [EvGet ("https://api.frankfurter.app/" ++ py_str E d) [("from", f); ("to", t)]].
Proof.
  intros Hname Hargs Hdate.
  assert (Hd : dict_get kv "currency_date" (JString "latest") = JString "latest")
    by (unfold dict_get; rewrite Hdate; reflexivity).
  split; [simpl; rewrite Hd; reflexivity|].
  split.
  - destruct (openai_body_dict_effects E completion tc kv w Hname Hargs) as [Hg _].
    rewrite Hg, Hd. reflexivity.
  - rewrite openai_get_exchange_rate_run.
    erewrite new_events_app by (simpl; reflexivity). reflexivity.
Qed.

(** The theorem at the arguments [{"currency_from": "USD", "currency_to":
    "EUR"}]: one GET to [latest] with [from=USD] and [to=EUR]. *)
Lemma missing_date_defaults_to_latest_witness :
  gets (new_events (user_asks "100 usd to eur")
          (snd (OpenAI.main_for_body one_call_env
                  (Sample.asks [Sample.call "call_1" "get_exchange_rate"
                                  Sample.usd_eur_text])
                  (Sample.call "call_1" "get_exchange_rate" Sample.usd_eur_text)
                  (user_asks "100 usd to eur"))))
  = [("https://api.frankfurter.app/latest",
      [("from", JString "USD"); ("to", JString "EUR")])].
Proof.
  refine (proj1 (proj2 (missing_date_defaults_to_latest one_call_env
            (Sample.asks [Sample.call "call_1" "get_exchange_rate" Sample.usd_eur_text])
            (Sample.call "call_1" "get_exchange_rate" Sample.usd_eur_text)
            Sample.usd_eur (user_asks "100 usd to eur") no_messages
            JNull JNull JNull _ _ _)));
    vm_compute; reflexivity.
Defined.

(** C10: when the arguments of a call for [get_exchange_rate] parse to a
    dict without [currency_from] or without [currency_to], the iteration
    does not stop at the missing field: [get_exchange_rate] is called with
    [None] for it, the single GET is issued with that value, and the tool
    turn holds what came of the GET. *)
Theorem missing_required_field_is_not_checked (E : env) (completion : completion_)
  (tc : tool_call_) (kv : list (string * json)) (w : world message) :
  fn_name (tc_function tc) = "get_exchange_rate" ->
  json_loads E (fn_arguments (tc_function tc)) = Ok (JObject kv) ->
  assoc "currency_from" kv = None \/ assoc "currency_to" kv = None ->
  let currency_from := dict_get kv "currency_from" JNull in
  let currency_to := dict_get kv "currency_to" JNull in
  let url := rate_url E (dict_get kv "currency_date" (JString "latest")) in
  let w' := snd (OpenAI.main_for_body E completion tc w) in
  (assoc "currency_from" kv = None -> currency_from = JNull)
  /\ (assoc "currency_to" kv = None -> currency_to = JNull)
  /\ gets (new_events w w') = [(url, [("from", currency_from); ("to", currency_to)])]
  /\ (choices completion <> [] ->
      tool_turns (w_transcript w')
      = (tool_turns (w_transcript w) ++
         [(tc_id tc,
           openai_payload E (fetched E (http_get E (w_log w) url
              [("from", currency_from); ("to", currency_to)])))])%list).
Proof.
  intros Hname Hargs _ currency_from currency_to url w'.
  split; [intros H; subst currency_from; unfold dict_get; rewrite H; reflexivity|].
  split; [intros H; subst currency_to; unfold dict_get; rewrite H; reflexivity|].
  exact (openai_body_dict_effects E completion tc kv w Hname Hargs).
Qed.

(** The theorem at the arguments [{"currency_to": "EUR"}]: the GET goes out
    with [from] being [None], and the tool turn is the answer 404 of the
    service. *)
Lemma missing_required_field_is_not_checked_witness :
  let w := user_asks "to eur" in
  let w' := snd (OpenAI.main_for_body missing_from_env
                   (Sample.asks [Sample.call "call_1" "get_exchange_rate" to_eur_text])
                   (Sample.call "call_1" "get_exchange_rate" to_eur_text) w) in
  gets (new_events w w')
  = [("https://api.frankfurter.app/latest", [("from", JNull); ("to", JString "EUR")])]
  /\ tool_turns (w_transcript w')
     = [("call_1",
         "Error fetching exchange rate: 404 Client Error: Not Found for url: https://api.frankfurter.app/latest?to=EUR")].
Proof.
  destruct (missing_required_field_is_not_checked missing_from_env
              (Sample.asks [Sample.call "call_1" "get_exchange_rate" to_eur_text])
              (Sample.call "call_1" "get_exchange_rate" to_eur_text)
              [("currency_to", JString "EUR")] (user_asks "to eur"))
    as (_ & _ & Hg & Ht); try (vm_compute; reflexivity).
  - left. reflexivity.
  - cbv zeta. split; [rewrite Hg; reflexivity|].
    rewrite Ht by (simpl; discriminate). vm_compute. reflexivity.
Defined.

(** ** One round of tool resolution *)

Lemma gets_are_the_tools (log : list event) :
  List.length (gets log) = List.length (filter is_tool (kinds log)).
Proof.
  induction log as [|ev rest IH]; [reflexivity|].
  destruct ev; simpl; rewrite ?IH; reflexivity.
Qed.

Lemma tools_of_rounds (j : nat) : List.length (filter is_tool (rounds j)) = j.
Proof. induction j as [|j IH]; simpl; [reflexivity|]. rewrite IH. reflexivity. Qed.

Lemma filter_length_le {A : Type} (p : A -> bool) (xs : list A) :
  (List.length (filter p xs) <= List.length xs)%nat.
Proof.
  induction xs as [|x xs IH]; simpl; [lia|]. destruct (p x); simpl; lia.
Qed.

(** An iteration of the OpenAI loop reads the content of the follow-up
    answer and nothing else of it. *)
Lemma openai_body_alter (E : env) (n : nat)
  (alter : chat_message -> option (list tool_call_)) (completion : completion_)
  (tc : tool_call_) (w : world message) :
  (n < List.length (w_log w))%nat ->
  OpenAI.main_for_body (alter_follow_ups E n alter) completion tc w
  = OpenAI.main_for_body E completion tc w.
Proof.
  intros Hn.
  destruct (registered tc) eqn:Hreg.
  2:{ rewrite !openai_body_skip by assumption. reflexivity. }
  destruct (json_loads E (fn_arguments (tc_function tc))) as [a|e] eqn:Hargs.
  2:{ rewrite (openai_body_bad_json E completion tc w e Hreg Hargs).
      apply openai_body_bad_json; assumption. }
  assert (Hdict : (exists kv, a = JObject kv) \/ (forall kv, a <> JObject kv)).
  { destruct a; try (right; intros kv0 Habs; discriminate). left. eauto. }
  destruct Hdict as [[kv ->]|Hno].
  - rewrite (openai_body_dict E completion tc w kv Hreg Hargs).
    rewrite (openai_body_dict (alter_follow_ups E n alter) completion tc w kv Hreg Hargs).
    cbv zeta. destruct (choices completion) as [|c0 cs]; [reflexivity|].
    change (http_get (alter_follow_ups E n alter)) with (http_get E).
    change (rate_url (alter_follow_ups E n alter)) with (rate_url E).
    change (openai_payload (alter_follow_ups E n alter)) with (openai_payload E).
    change (fetched (alter_follow_ups E n alter)) with (fetched E).
    unfold alter_follow_ups at 1. cbn [chat_completions_create].
    replace (List.length (w_log w ++ _) <=? n)%nat with false
      by (symmetry; apply Nat.leb_gt; rewrite length_app; lia).
    destruct (chat_completions_create E _ _) as [final|e]; [|reflexivity].
    unfold retool. cbn [choices].
    destruct (choices final) as [|f0 fs]; reflexivity.
  - unfold registered in Hreg. unfold OpenAI.main_for_body. rewrite Hreg.
    unfold bind, lift. cbn [json_loads alter_follow_ups]. rewrite Hargs.
    destruct a; try reflexivity. exfalso. eapply Hno. reflexivity.
Qed.

Lemma openai_loop_alter (E : env) (n : nat)
  (alter : chat_message -> option (list tool_call_)) (completion : completion_)
  (c0 : choice) (cs : list choice) (tcs : list tool_call_) :
  choices completion = c0 :: cs ->
  forall w : world message,
  (n < List.length (w_log w))%nat ->
  for_each tcs (OpenAI.main_for_body (alter_follow_ups E n alter) completion) w
  = for_each tcs (OpenAI.main_for_body E completion) w.
Proof.
  intros Hc. induction tcs as [|tc rest IH]; intros w Hn; [reflexivity|].
  simpl. unfold bind. rewrite openai_body_alter by assumption.
  destruct (OpenAI.main_for_body E completion tc w) as [[[]|e] w1] eqn:Hbody;
    [|reflexivity].
  apply IH.
  destruct (openai_body_shape E completion c0 cs tc w w1 (Ok tt) Hc Hbody)
    as [(_ & _ & ->)|[(_ & _ & [e He] & _)|(_ & g & result & tail & _ & Hlog & _)]].
  - assumption.
  - discriminate.
  - rewrite Hlog, length_app. lia.
Qed.

(** An iteration of the Vertex loop reads the text of the follow-up answer
    and nothing else of it: with other candidates in that answer the
    iteration ends the same, with the same log, and keeps a chat history
    that differs in the candidates of that answer only. *)
Lemma vertex_body_alter (E : env)
  (alter : generation_response -> list candidate)
  (fc : function_call_) (w : world turn) :
  let run := Vertex.main_for_body E fc w in
  let run' := Vertex.main_for_body
                (valter_follow_ups E (List.length (w_log w)) alter) fc w in
  fst run' = fst run
  /\ w_log (snd run') = w_log (snd run)
  /\ map without_calls (w_transcript (snd run'))
     = map without_calls (w_transcript (snd run)).
Proof.
  cbv zeta.
  destruct (vregistered fc) eqn:Hreg.
  2:{ rewrite !vertex_body_skip by assumption. auto. }
  rewrite (vertex_body_registered E fc w Hreg).
  rewrite (vertex_body_registered (valter_follow_ups E (List.length (w_log w)) alter)
             fc w Hreg).
  cbv zeta.
  change (http_get (valter_follow_ups E (List.length (w_log w)) alter))
    with (http_get E).
  change (vplanned_get (valter_follow_ups E (List.length (w_log w)) alter) fc)
    with (vplanned_get E fc).
  change (fetched (valter_follow_ups E (List.length (w_log w)) alter))
    with (fetched E).
  destruct (Vertex.from_function_response _ _) as [c|e]; [|auto].
  unfold valter_follow_ups. cbn [generate_content].
  replace (List.length (w_log w ++ _) <=? List.length (w_log w))%nat with false
    by (symmetry; apply Nat.leb_gt; rewrite length_app; simpl; lia).
  destruct (generate_content E _ _ _) as [final|e]; [|auto].
  unfold vretool. cbn [resp_text].
  destruct (resp_text final) as [t|e] eqn:Ht; cbn [fst snd w_log w_transcript];
    rewrite !map_app; cbn [map without_calls resp_text]; rewrite ?Ht; auto.
Qed.

(** One round is not the bound: with two calls in the answer to the first
    request a tool is executed after a follow-up query has returned, with
    either SDK, and a second follow-up query is sent. *)
Lemma a_tool_runs_after_a_follow_up_returned :
  let w := user_asks "100 usd to eur" in
  let run := OpenAI.main two_calls_env "100 usd to eur" w in
  let vrun := Vertex.main two_calls_env "100 usd to eur" fresh_session in
  fst run = Ok tt
  /\ nth_error (kinds (new_events w (snd run))) 2 = Some Query
  /\ nth_error (kinds (new_events w (snd run))) 3 = Some Tool
  /\ List.length (gets (new_events w (snd run))) = 2%nat
  /\ fst vrun = Ok tt
  /\ nth_error (kinds (new_events fresh_session (snd vrun))) 2 = Some Query
  /\ nth_error (kinds (new_events fresh_session (snd vrun))) 3 = Some Tool
  /\ List.length (gets (new_events fresh_session (snd vrun))) = 2%nat.
Proof.
  vm_compute. repeat split; reflexivity.
Qed.

(** C8 (amended): tool calls are resolved for the answer to the first
    request only, but not in one round.  The follow-up answers are never
    looked at for calls: the OpenAI [main] runs the same, to the same result
    and the same world, when the tool calls of every follow-up answer are
    replaced by anything else, and an iteration of the Vertex loop ends the
    same, with the same log, when the candidates of its follow-up answer
    are replaced.  So, whatever the follow-up answers carry, a run is the
    first query followed by rounds of one tool execution and one follow-up
    query, and its tool executions are at most as many as the answer to the
    first request has calls: the run ends.  A Vertex run may end on a tool
    execution whose result could not be sent; a run of [main] that returns
    executes no tool after its last follow-up query. *)
Theorem tool_calls_are_resolved_once (E : env)
  (alter : chat_message -> option (list tool_call_))
  (valter : generation_response -> list candidate)
  (user_query : string) (fc : function_call_)
  (w : world message) (wv : world turn) :
  OpenAI.main (alter_follow_ups E (S (List.length (w_log w))) alter) user_query w
  = OpenAI.main E user_query w
  /\ (let run := Vertex.main_for_body E fc wv in
      let run' := Vertex.main_for_body
                    (valter_follow_ups E (List.length (w_log wv)) valter) fc wv in
      fst run' = fst run
      /\ w_log (snd run') = w_log (snd run)
      /\ map without_calls (w_transcript (snd run'))
         = map without_calls (w_transcript (snd run)))
  /\ (exists j,
        kinds (new_events w (snd (OpenAI.main E user_query w))) = Query :: rounds j
        /\ List.length (gets (new_events w (snd (OpenAI.main E user_query w)))) = j
        /\ (j <= List.length (calls_of
                   (chat_completions_create E (w_log w ++ [input_event])
                      (first_request (w_transcript w)))))%nat)
  /\ (exists j stub,
        kinds (new_events wv (snd (Vertex.main E user_query wv)))
        = (Query :: rounds j ++ stub)%list
        /\ (stub = [] \/ stub = [Tool])
        /\ (fst (Vertex.main E user_query wv) = Ok tt -> stub = [])
        /\ List.length (gets (new_events wv (snd (Vertex.main E user_query wv))))
           = (j + List.length stub)%nat
        /\ (j + List.length stub
            <= List.length (vcalls_of
                 (generate_content E (w_log wv ++ [input_event]) []
                    (UserText user_query))))%nat).
Proof.
  split; [|split; [|split]].
  - rewrite !openai_main_run. cbv zeta.
    unfold alter_follow_ups at 1. cbn [chat_completions_create].
    replace (List.length (w_log w ++ [input_event]) <=? S (List.length (w_log w)))%nat
      with true by (symmetry; apply Nat.leb_le; rewrite length_app; simpl; lia).
    destruct (chat_completions_create E _ _) as [completion|e]; [|reflexivity].
    destruct (choices completion) as [|c0 cs] eqn:Hc; [reflexivity|].
    destruct (OpenAI.truthy_calls (ch_message c0)) as [tcs|]; [|reflexivity].
    apply (openai_loop_alter E _ alter completion c0 cs tcs Hc).
    simpl. rewrite length_app. simpl. lia.
  - exact (vertex_body_alter E valter fc wv).
  - destruct (openai_main_shape E user_query w)
      as (added & more & j & H1 & _ & H3 & H4 & _).
    exists j. rewrite (new_events_app w _ added H1), gets_are_the_tools, H3.
    simpl. rewrite tools_of_rounds.
    split; [reflexivity|]. split; [reflexivity|].
    eapply Nat.le_trans; [exact H4|apply filter_length_le].
  - destruct (vertex_main_shape E user_query wv)
      as (added & j & stub & H1 & H3 & Hs & H4 & H5).
    exists j, stub. rewrite (new_events_app wv _ added H1), gets_are_the_tools, H3.
    split; [reflexivity|]. split; [exact Hs|].
    split; [intros Hok; exact (proj1 (H5 Hok))|].
    split.
    + simpl. rewrite filter_app, length_app, tools_of_rounds.
      destruct Hs as [->| ->]; reflexivity.
    + eapply Nat.le_trans; [exact H4|apply filter_length_le].
Qed.

(** The theorem at the run with two calls: the Vertex [main] returns, so
    its run is whole rounds, at most two. *)
Lemma tool_calls_are_resolved_once_witness :
  exists j,
    kinds (new_events fresh_session
             (snd (Vertex.main two_calls_env "100 usd to eur" fresh_session)))
    = Query :: rounds j
    /\ (j <= 2)%nat.
Proof.
  destruct (tool_calls_are_resolved_once two_calls_env (fun _ => None) (fun _ => [])
              "100 usd to eur"
              {| fc_name := "get_exchange_rate"; fc_args := Sample.usd_eur |}
              (user_asks "100 usd to eur") fresh_session)
    as (_ & _ & _ & j & stub & Hk & _ & Hs & _ & Hle).
  assert (Hv : fst (Vertex.main two_calls_env "100 usd to eur" fresh_session) = Ok tt)
    by (vm_compute; reflexivity).
  assert (H2 : List.length (vcalls_of
                 (generate_content two_calls_env (w_log fresh_session ++ [input_event])
                    [] (UserText "100 usd to eur"))) = 2%nat)
    by (vm_compute; reflexivity).
  rewrite H2 in Hle. rewrite (Hs Hv) in Hk, Hle.
  exists j. rewrite Hk, app_nil_r. cbn [List.length] in Hle.
  split; [reflexivity|lia].
Defined.

(** The model answers the follow-up request with a tool call of its own:
    both runs return after the one execution, and print what text the
    follow-up answer has. *)
Example follow_up_tool_calls_are_not_resolved :
  let run := OpenAI.main asks_again_env "100 usd to eur" (user_asks "100 usd to eur") in
  let vrun := Vertex.main asks_again_env "100 usd to eur" fresh_session in
  fst run = Ok tt
  /\ kinds (new_events (user_asks "100 usd to eur") (snd run)) = [Query; Tool; Query]
  /\ printed (new_events (user_asks "100 usd to eur") (snd run)) = ["Final response: None"]
  /\ fst vrun = Ok tt
  /\ kinds (new_events fresh_session (snd vrun)) = [Query; Tool; Query]
  /\ printed (new_events fresh_session (snd vrun))
     = ["Final response: One more lookup is needed."].
Proof.
  vm_compute. repeat split; reflexivity.
Qed.

(** ** The two SDKs side by side *)

(** Two logs built by appending to the same log: compare what was appended. *)
Ltac same_trace_by_computation :=
  unfold same_trace; simpl;
  rewrite ?kinds_app, ?gets_app, ?printed_app; simpl;
  rewrite ?app_nil_r; auto.

Section SideBySide.
Variable E : env.

(** The service answers by the request and by the calls made before it. *)
Hypothesis service_by_position :
  forall log log' url params,
    kinds log = kinds log' -> http_get E log url params = http_get E log' url params.

(** The calls made before [main] starts. *)
Variable k0 : list kind.

(** Once [main] has made its first query, the model gives both SDKs the
    same follow-up answers. *)
Hypothesis model_by_position :
  forall log log' rq history c rest,
    kinds log = kinds log' -> kinds log = (k0 ++ Query :: rest)%list ->
    same_follow_up_answer (chat_completions_create E log rq)
                          (generate_content E log' history c).

(** What the tool hands back is a mapping: every body of the service that
    is read is a JSON object. *)
Hypothesis tool_results_are_mappings :
  forall log url params,
    exists kv, vertex_payload (fetched E (http_get E log url params)) = JObject kv.

Lemma body_side_by_side (completion : completion_) (c0 : choice) (cs : list choice)
  (tc : tool_call_) (fc : function_call_) (w : world message) (wv : world turn) :
  choices completion = c0 :: cs ->
  same_call E tc fc ->
  same_trace w wv ->
  (exists rest, kinds (w_log w) = (k0 ++ Query :: rest)%list) ->
  fst (OpenAI.main_for_body E completion tc w) = fst (Vertex.main_for_body E fc wv)
  /\ same_trace (snd (OpenAI.main_for_body E completion tc w))
                (snd (Vertex.main_for_body E fc wv))
  /\ (exists rest,
        kinds (w_log (snd (OpenAI.main_for_body E completion tc w)))
        = (k0 ++ Query :: rest)%list).
Proof.
  intros Hc [Hname Hargs] (Hk & Hg & Hp) [rest Hrest].
  destruct (registered tc) eqn:Hreg.
  2:{ assert (Hvreg : vregistered fc = false)
        by (unfold vregistered; rewrite <- Hname; exact Hreg).
      rewrite openai_body_skip, vertex_body_skip by assumption.
      simpl. unfold same_trace. repeat split; eauto. }
  assert (Hvreg : vregistered fc = true)
    by (unfold vregistered; rewrite <- Hname; exact Hreg).
  rewrite (openai_body_dict E completion tc w (fc_args fc) Hreg Hargs).
  rewrite (vertex_body_registered E fc wv Hvreg).
  cbv zeta. rewrite Hc. unfold vplanned_get. cbn [fst snd].
  set (url := rate_url E _). set (params := rate_params _ _).
  rewrite (service_by_position (w_log w) (w_log wv) url params Hk).
  destruct (tool_results_are_mappings (w_log wv) url params) as [kv Hkv].
  rewrite Hkv. cbn [Vertex.from_function_response].
  set (x := fetched E _).
  assert (Hk1 : kinds (w_log w ++ [EvGet url params])
                = kinds (w_log wv ++ [EvGet url params]))
    by (rewrite !kinds_app, Hk; reflexivity).
  assert (Hrest1 : kinds (w_log w ++ [EvGet url params])
                   = (k0 ++ Query :: (rest ++ [Tool]))%list)
    by (rewrite kinds_app, Hrest, <- app_assoc; reflexivity).
  pose proof (model_by_position (w_log w ++ [EvGet url params])
                (w_log wv ++ [EvGet url params])
                (follow_up (w_transcript w ++
                   [AssistantMessage (ch_message c0);
                    ToolMessage (tc_id tc) (openai_payload E x)]))
                (w_transcript wv)
                (FunctionResponse "get_exchange_rate" (JObject kv))
                (rest ++ [Tool])%list Hk1 Hrest1) as Hsame.
  unfold same_follow_up_answer in Hsame.
  destruct (chat_completions_create E _ _) as [final|e];
    destruct (generate_content E _ _ _) as [vfinal|e']; try contradiction.
  - destruct Hsame as (f0 & fs & t & Hf & Ht & Hvt).
    rewrite Hf, Hvt, Ht. cbn [fst snd w_log w_transcript str_opt].
    split; [reflexivity|]. split.
    + unfold same_trace. cbn [w_log].
      rewrite !kinds_app, !gets_app, !printed_app, Hk, Hg, Hp. simpl.
      rewrite ?app_nil_r. auto.
    + exists (rest ++ [Tool; Query])%list.
      rewrite kinds_app, Hrest, <- app_assoc. reflexivity.
  - subst e'. cbn [fst snd w_log w_transcript].
    split; [reflexivity|]. split.
    + unfold same_trace. cbn [w_log].
      rewrite !kinds_app, !gets_app, !printed_app, Hk, Hg, Hp. simpl.
      rewrite ?app_nil_r. auto.
    + exists (rest ++ [Tool; Query])%list.
      rewrite kinds_app, Hrest, <- app_assoc. reflexivity.
Qed.

Lemma loop_side_by_side (completion : completion_) (c0 : choice) (cs : list choice)
  (tcs : list tool_call_) (fcs : list function_call_) :
  choices completion = c0 :: cs ->
  Forall2 (same_call E) tcs fcs ->
  forall (w : world message) (wv : world turn),
  same_trace w wv ->
  (exists rest, kinds (w_log w) = (k0 ++ Query :: rest)%list) ->
  fst (for_each tcs (OpenAI.main_for_body E completion) w)
  = fst (for_each fcs (Vertex.main_for_body E) wv)
  /\ same_trace (snd (for_each tcs (OpenAI.main_for_body E completion) w))
                (snd (for_each fcs (Vertex.main_for_body E) wv)).
Proof.
  intros Hc Hall. induction Hall as [|tc fc tcs fcs Hsame Hall IH]; intros w wv Ht Hn.
  - simpl. auto.
  - simpl. unfold bind.
    destruct (body_side_by_side completion c0 cs tc fc w wv Hc Hsame Ht Hn)
      as (Hr & Ht1 & Hn1).
    destruct (OpenAI.main_for_body E completion tc w) as [r w1].
    destruct (Vertex.main_for_body E fc wv) as [rv wv1].
    simpl in Hr, Ht1, Hn1. subst rv.
    destruct r as [[]|e]; [apply IH; assumption|]. simpl. auto.
Qed.

(** Both [main] side by side, from worlds with the same log. *)
Lemma main_side_by_side (user_query : string) (w : world message) (wv : world turn) :
  w_log wv = w_log w ->
  kinds (w_log w) = k0 ->
  same_first_answer E
    (chat_completions_create E (w_log w ++ [input_event])
       (first_request (w_transcript w)))
    (generate_content E (w_log wv ++ [input_event]) [] (UserText user_query)) ->
  fst (OpenAI.main E user_query w) = fst (Vertex.main E user_query wv)
  /\ same_trace (snd (OpenAI.main E user_query w)) (snd (Vertex.main E user_query wv)).
Proof.
  intros Hlog Hk0 Hfirst.
  rewrite openai_main_run, vertex_main_run. cbv zeta.
  unfold same_first_answer in Hfirst. rewrite Hlog in *.
  destruct (chat_completions_create E _ _) as [completion|e];
    destruct (generate_content E _ _ _) as [response|e']; try contradiction.
  2:{ subst e'. simpl. same_trace_by_computation. }
  destruct (choices completion) as [|c0 cs] eqn:Hc;
    destruct (candidates response) as [|d0 ds] eqn:Hd; try contradiction.
  { simpl. same_trace_by_computation. }
  unfold OpenAI.truthy_calls.
  destruct (msg_tool_calls (ch_message c0)) as [[|tc tcs]|] eqn:Hcalls.
  1,3: destruct Hfirst as (Hnone & t & Hcontent & Htext);
       rewrite Hnone, Htext, Hcontent; simpl; same_trace_by_computation.
  destruct (function_calls d0) as [|fc fcs] eqn:Hfcs; [inversion Hfirst|].
  apply (loop_side_by_side completion c0 cs (tc :: tcs) (fc :: fcs) Hc Hfirst).
  - same_trace_by_computation.
  - exists []. simpl. rewrite kinds_app, Hk0. reflexivity.
Qed.
End SideBySide.

(** C9, as stated, fails: the two [get_exchange_rate] do not hand the model
    payloads of the same form.  When the service cannot be reached the
    OpenAI cells return a sentence and the Vertex cells a dict, and the
    sentence is not the JSON text of the dict. *)
Lemma failure_payloads_differ_in_form :
  let E := service_down_env in
  fst (OpenAI.get_exchange_rate E (JString "latest") (JString "USD") (JString "EUR")
         no_messages)
  = Ok "Error fetching exchange rate: Connection refused"
  /\ fst (Vertex.get_exchange_rate E (JString "latest") (JString "USD") (JString "EUR")
            fresh_session)
     = Ok (JObject [("error", JString "Connection refused")])
  /\ "Error fetching exchange rate: Connection refused"
     <> json_dumps E (JObject [("error", JString "Connection refused")]).
Proof.
  vm_compute. repeat split; try reflexivity. discriminate.
Qed.

(** Where the two loops part: the tool result is no mapping.  The OpenAI
    iteration sends it to the model as a text; the Vertex iteration raises
    when it builds the function response, before anything is sent. *)
Lemma bodies_part_on_a_result_that_is_no_mapping (E : env)
  (completion : completion_) (c0 : choice) (cs : list choice)
  (tc : tool_call_) (fc : function_call_) (w : world message) (wv : world turn) :
  choices completion = c0 :: cs ->
  same_call E tc fc ->
  fc_name fc = "get_exchange_rate" ->
  (forall kv, vertex_payload (fetched E (http_get E (w_log wv)
                 (fst (vplanned_get E fc)) (snd (vplanned_get E fc)))) <> JObject kv) ->
  kinds (new_events w (snd (OpenAI.main_for_body E completion tc w))) = [Tool; Query]
  /\ (exists e, fst (Vertex.main_for_body E fc wv) = Raise e)
  /\ kinds (new_events wv (snd (Vertex.main_for_body E fc wv))) = [Tool].
Proof.
  intros Hc [Hname Hargs] Hfc Hno.
  assert (Hvreg : vregistered fc = true)
    by (unfold vregistered; rewrite Hfc; reflexivity).
  assert (Hreg : registered tc = true)
    by (unfold registered; rewrite Hname, Hfc; reflexivity).
  rewrite (openai_body_dict E completion tc w (fc_args fc) Hreg Hargs).
  rewrite (vertex_body_registered E fc wv Hvreg).
  cbv zeta. rewrite Hc.
  split.
  - destruct (chat_completions_create E _ _) as [final|e].
    + destruct (choices final) as [|f0 fs]; cbn [snd];
        erewrite new_events_app by (cbn [w_log]; reflexivity); reflexivity.
    + cbn [snd]. erewrite new_events_app by (cbn [w_log]; reflexivity). reflexivity.
  - destruct (from_function_response_cases "get_exchange_rate"
                (vertex_payload (fetched E (http_get E (w_log wv)
                   (fst (vplanned_get E fc)) (snd (vplanned_get E fc))))))
      as [(kv & Hkv & _)|(_ & msg & Hmsg)].
    + exfalso. exact (Hno kv Hkv).
    + rewrite Hmsg. cbn [fst snd]. split; [eexists; reflexivity|].
      erewrite new_events_app by (cbn [w_log]; reflexivity). reflexivity.
Qed.

(** Where the two loops part: the follow-up answer has no text.  The OpenAI
    iteration prints [None] for the missing content and goes on; the Vertex
    iteration raises what [final_response.text] raises and prints nothing. *)
Lemma bodies_part_on_an_answer_without_text (E : env)
  (completion final : completion_) (c0 f0 : choice) (cs fs : list choice)
  (tc : tool_call_) (fc : function_call_) (kv : list (string * json))
  (vfinal : generation_response) (e : exn)
  (w : world message) (wv : world turn) :
  let url := fst (vplanned_get E fc) in
  let params := snd (vplanned_get E fc) in
  let result := openai_payload E (fetched E (http_get E (w_log w) url params)) in
  let vresult := vertex_payload (fetched E (http_get E (w_log wv) url params)) in
  choices completion = c0 :: cs ->
  same_call E tc fc ->
  fc_name fc = "get_exchange_rate" ->
  vresult = JObject kv ->
  chat_completions_create E (w_log w ++ [EvGet url params])
    (follow_up (w_transcript w ++
       [AssistantMessage (ch_message c0); ToolMessage (tc_id tc) result]))
  = Ok final ->
  choices final = f0 :: fs ->
  msg_content (ch_message f0) = None ->
  generate_content E (w_log wv ++ [EvGet url params]) (w_transcript wv)
    (FunctionResponse "get_exchange_rate" vresult) = Ok vfinal ->
  resp_text vfinal = Raise e ->
  fst (OpenAI.main_for_body E completion tc w) = Ok tt
  /\ printed (new_events w (snd (OpenAI.main_for_body E completion tc w)))
     = ["Final response: None"]
  /\ fst (Vertex.main_for_body E fc wv) = Raise e
  /\ printed (new_events wv (snd (Vertex.main_for_body E fc wv))) = [].
Proof.
  intros url params result vresult Hc [Hname Hargs] Hfc Hmap H1 Hf Hnone H2 Ht.
  assert (Hvreg : vregistered fc = true)
    by (unfold vregistered; rewrite Hfc; reflexivity).
  assert (Hreg : registered tc = true)
    by (unfold registered; rewrite Hname, Hfc; reflexivity).
  rewrite (openai_body_dict E completion tc w (fc_args fc) Hreg Hargs).
  rewrite (vertex_body_registered E fc wv Hvreg).
  cbv zeta. rewrite Hc.
  subst url params result vresult.
  unfold vplanned_get in *. cbn [fst snd] in *.
  rewrite Hmap in *. cbn [Vertex.from_function_response].
  rewrite H1, Hf, H2, Ht, Hnone. cbn [fst snd str_opt].
  split; [reflexivity|]. split.
  - erewrite new_events_app by (cbn [w_log]; reflexivity). reflexivity.
  - split; [reflexivity|].
    erewrite new_events_app by (cbn [w_log]; reflexivity). reflexivity.
Qed.

(** The follow-up answer has no text: the OpenAI [main] prints [None] and
    returns, the Vertex [main] raises. *)
Example run_with_a_follow_up_answer_without_text :
  let run := OpenAI.main no_text_env "100 usd to eur" (user_asks "100 usd to eur") in
  let vrun := Vertex.main no_text_env "100 usd to eur" fresh_session in
  fst run = Ok tt
  /\ printed (new_events (user_asks "100 usd to eur") (snd run))
     = ["Final response: None"]
  /\ fst vrun = Raise (ValueError "Response has no text parts")
  /\ printed (new_events fresh_session (snd vrun)) = []
  /\ kinds (new_events (user_asks "100 usd to eur") (snd run))
     = kinds (new_events fresh_session (snd vrun)).
Proof.
  vm_compute. repeat split; reflexivity.
Qed.

(** C9 (amended): the two variants declare the same tool and drive the same
    protocol, as far as the two SDKs let them.  From the same log the two
    [get_exchange_rate] issue the same GET and return, for a parsed body
    [j], the text [json.dumps(j)] (OpenAI) and [j] (Vertex), and for an
    exception with message [m] the sentence [Error fetching exchange rate: m]
    (OpenAI) and the dict [{"error": m}] (Vertex): payloads of different
    form.  When the service answers by the request and the position of the
    call, every tool result is a mapping, and the model gives both SDKs the
    same answers (the same calls in the same order, the arguments of the
    OpenAI calls being the JSON text of the dicts of the Vertex calls, and
    the same texts, every answer without calls and every follow-up answer
    having one), the two [main] end the same way, make the same model
    queries and tool executions in the same order, issue the same GET
    requests and print the same lines.  Outside these conditions the loops
    part: on a tool result that is no mapping the OpenAI iteration sends its
    follow-up query and the Vertex iteration raises before sending; on a
    follow-up answer without text the OpenAI iteration prints [None] and
    returns and the Vertex iteration raises. *)
Theorem sdk_variants_drive_the_same_protocol (E : env) (k0 : list kind)
  (user_query : string) (w : world message) (wv : world turn) (d f t : json) :
  map te_function OpenAI.tools = Vertex.exchange_tool
  /\ (w_log wv = w_log w ->
      exists (x : result json) (s : string) (v : json),
        fst (OpenAI.get_exchange_rate E d f t w) = Ok s
        /\ fst (Vertex.get_exchange_rate E d f t wv) = Ok v
        /\ new_events w (snd (OpenAI.get_exchange_rate E d f t w))
           = new_events wv (snd (Vertex.get_exchange_rate E d f t wv))
        /\ match x with
           | Ok j => s = json_dumps E j /\ v = j
           | Raise e =>
               s = ("Error fetching exchange rate: " ++ str_exn e)%string
               /\ v = JObject [("error", JString (str_exn e))]
           end)
  /\ ((forall log log' url params,
         kinds log = kinds log' ->
         http_get E log url params = http_get E log' url params) ->
      (forall log url params,
         exists kv, vertex_payload (fetched E (http_get E log url params)) = JObject kv) ->
      (forall log log' rq history c rest,
         kinds log = kinds log' -> kinds log = (k0 ++ Query :: rest)%list ->
         same_follow_up_answer (chat_completions_create E log rq)
                               (generate_content E log' history c)) ->
      w_log wv = w_log w ->
      kinds (w_log w) = k0 ->
      same_first_answer E
        (chat_completions_create E (w_log w ++ [input_event])
           (first_request (w_transcript w)))
        (generate_content E (w_log wv ++ [input_event]) [] (UserText user_query)) ->
      fst (OpenAI.main E user_query w) = fst (Vertex.main E user_query wv)
      /\ kinds (new_events w (snd (OpenAI.main E user_query w)))
         = kinds (new_events wv (snd (Vertex.main E user_query wv)))
      /\ gets (new_events w (snd (OpenAI.main E user_query w)))
         = gets (new_events wv (snd (Vertex.main E user_query wv)))
      /\ printed (new_events w (snd (OpenAI.main E user_query w)))
         = printed (new_events wv (snd (Vertex.main E user_query wv))))
  /\ (forall (completion : completion_) (c0 : choice) (cs : list choice)
             (tc : tool_call_) (fc : function_call_),
        choices completion = c0 :: cs ->
        same_call E tc fc ->
        fc_name fc = "get_exchange_rate" ->
        (forall kv, vertex_payload (fetched E (http_get E (w_log wv)
                      (fst (vplanned_get E fc)) (snd (vplanned_get E fc))))
                    <> JObject kv) ->
        kinds (new_events w (snd (OpenAI.main_for_body E completion tc w)))
        = [Tool; Query]
        /\ (exists e, fst (Vertex.main_for_body E fc wv) = Raise e)
        /\ kinds (new_events wv (snd (Vertex.main_for_body E fc wv))) = [Tool])
  /\ (forall (completion final : completion_) (c0 f0 : choice) (cs fs : list choice)
             (tc : tool_call_) (fc : function_call_) (kv : list (string * json))
             (vfinal : generation_response) (e : exn),
        let url := fst (vplanned_get E fc) in
        let params := snd (vplanned_get E fc) in
        let result := openai_payload E (fetched E (http_get E (w_log w) url params)) in
        let vresult := vertex_payload (fetched E (http_get E (w_log wv) url params)) in
        choices completion = c0 :: cs ->
        same_call E tc fc ->
        fc_name fc = "get_exchange_rate" ->
        vresult = JObject kv ->
        chat_completions_create E (w_log w ++ [EvGet url params])
          (follow_up (w_transcript w ++
             [AssistantMessage (ch_message c0); ToolMessage (tc_id tc) result]))
        = Ok final ->
        choices final = f0 :: fs ->
        msg_content (ch_message f0) = None ->
        generate_content E (w_log wv ++ [EvGet url params]) (w_transcript wv)
          (FunctionResponse "get_exchange_rate" vresult) = Ok vfinal ->
        resp_text vfinal = Raise e ->
        fst (OpenAI.main_for_body E completion tc w) = Ok tt
        /\ printed (new_events w (snd (OpenAI.main_for_body E completion tc w)))
           = ["Final response: None"]
        /\ fst (Vertex.main_for_body E fc wv) = Raise e
        /\ printed (new_events wv (snd (Vertex.main_for_body E fc wv))) = []).
Proof.
  split; [reflexivity|]. split; [|split; [|split]].
  - intros Hlog.
    exists (fetched E (http_get E (w_log w) (rate_url E d) (rate_params f t))).
    rewrite openai_get_exchange_rate_run, vertex_get_exchange_rate_run.
    rewrite Hlog. cbn [fst snd].
    do 2 eexists. split; [reflexivity|]. split; [reflexivity|]. split.
    + erewrite !new_events_app by (cbn [w_log]; rewrite ?Hlog; reflexivity).
      reflexivity.
    + destruct (fetched E _); simpl; auto.
  - intros Hservice Hmaps Hmodel Hlog Hk0 Hfirst.
    destruct (main_side_by_side E Hservice k0 Hmodel Hmaps user_query w wv Hlog Hk0 Hfirst)
      as (Hr & Hk & Hg & Hp).
    split; [exact Hr|].
    destruct (openai_main_shape E user_query w) as (added & more & j & H1 & _).
    destruct (vertex_main_shape E user_query wv) as (vadded & jv & stub & Hv1 & _).
    rewrite (new_events_app w _ added H1), (new_events_app wv _ vadded Hv1).
    rewrite H1, Hv1, Hlog in *.
    rewrite !kinds_app in Hk. rewrite !gets_app in Hg. rewrite !printed_app in Hp.
    apply app_inv_head in Hk, Hg, Hp. auto.
  - intros completion c0 cs tc fc.
    exact (bodies_part_on_a_result_that_is_no_mapping E completion c0 cs tc fc w wv).
  - intros completion final c0 f0 cs fs tc fc kv vfinal e.
    exact (bodies_part_on_an_answer_without_text E completion final c0 f0 cs fs
             tc fc kv vfinal e w wv).
Qed.

(** In a scripted world the answers go by position. *)
Lemma scripted_gets_by_kinds (log : list event) :
  List.length (filter Sample.is_get log) = List.length (filter is_tool (kinds log)).
Proof.
  induction log as [|ev rest IH]; [reflexivity|].
  destruct ev; simpl; rewrite ?IH; reflexivity.
Qed.

Lemma scripted_queries_by_kinds (log : list event) :
  List.length (filter Sample.is_query log)
  = List.length (filter (fun k => negb (is_tool k)) (kinds log)).
Proof.
  induction log as [|ev rest IH]; [reflexivity|].
  destruct ev; simpl; rewrite ?IH; reflexivity.
Qed.

(** The theorem at the scenario of one call: both runs return and print the
    same final answer; at a service that answers with a list and at a
    follow-up answer without text the iterations part. *)
Lemma sdk_variants_drive_the_same_protocol_witness :
  (fst (OpenAI.main one_call_env "100 usd to eur" (user_asks "100 usd to eur"))
   = fst (Vertex.main one_call_env "100 usd to eur" fresh_session)
   /\ printed (new_events (user_asks "100 usd to eur")
                 (snd (OpenAI.main one_call_env "100 usd to eur"
                         (user_asks "100 usd to eur"))))
      = printed (new_events fresh_session
                   (snd (Vertex.main one_call_env "100 usd to eur" fresh_session))))
  /\ (exists e,
        fst (Vertex.main_for_body list_body_env
               {| fc_name := "get_exchange_rate"; fc_args := Sample.usd_eur |}
               fresh_session) = Raise e)
  /\ printed (new_events asked_once
                (snd (OpenAI.main_for_body no_text_env
                        (Sample.asks [Sample.call "call_1" "get_exchange_rate"
                                        Sample.usd_eur_text])
                        (Sample.call "call_1" "get_exchange_rate" Sample.usd_eur_text)
                        asked_once)))
     = ["Final response: None"].
Proof.
  split; [|split].
  - destruct (proj1 (proj2 (proj2
                (sdk_variants_drive_the_same_protocol one_call_env [] "100 usd to eur"
                   (user_asks "100 usd to eur") fresh_session JNull JNull JNull))))
      as (Hr & _ & _ & Hp).
    + intros log log' url params Hk.
      unfold one_call_env, Sample.scripted. cbn [http_get].
      rewrite !scripted_gets_by_kinds, Hk. reflexivity.
    + intros log url params.
      unfold one_call_env, Sample.scripted. cbn [http_get].
      destruct (List.length (filter Sample.is_get log)) as [|[|m]];
        cbn [nth]; eexists; vm_compute; reflexivity.
    + intros log log' rq history c rest Hk Hrest.
      unfold one_call_env, Sample.scripted.
      cbn [chat_completions_create generate_content].
      rewrite !scripted_queries_by_kinds, <- Hk, Hrest.
      cbn [app filter is_tool negb List.length].
      destruct (List.length (filter (fun k => negb (is_tool k)) rest)) as [|[|m]];
        cbn [nth].
      * unfold same_follow_up_answer. do 3 eexists. repeat split; reflexivity.
      * reflexivity.
      * reflexivity.
    + reflexivity.
    + reflexivity.
    + unfold same_first_answer.
      cbn -[Sample.usd_eur_text Sample.loads].
      constructor; [|constructor].
      split; [reflexivity|]. vm_compute. reflexivity.
    + split; [exact Hr|exact Hp].
  - destruct (proj1 (proj2 (proj2 (proj2
                (sdk_variants_drive_the_same_protocol list_body_env [] "100 usd to eur"
                   no_messages fresh_session JNull JNull JNull))))
                (Sample.asks [Sample.call "call_1" "get_exchange_rate"
                                Sample.usd_eur_text])
                (Sample.ask_choice [Sample.call "call_1" "get_exchange_rate"
                                      Sample.usd_eur_text])
                []
                (Sample.call "call_1" "get_exchange_rate" Sample.usd_eur_text)
                {| fc_name := "get_exchange_rate"; fc_args := Sample.usd_eur |})
      as (_ & He & _).
    + reflexivity.
    + split; [reflexivity|]. vm_compute. reflexivity.
    + reflexivity.
    + intros kv H. vm_compute in H. discriminate H.
    + exact He.
  - destruct (proj2 (proj2 (proj2 (proj2
                (sdk_variants_drive_the_same_protocol no_text_env [] "100 usd to eur"
                   asked_once vasked_once JNull JNull JNull))))
                (Sample.asks [Sample.call "call_1" "get_exchange_rate"
                                Sample.usd_eur_text])
                {| choices := [ {| ch_message := {| msg_content := None;
                                                    msg_tool_calls := None |} |} ] |}
                (Sample.ask_choice [Sample.call "call_1" "get_exchange_rate"
                                      Sample.usd_eur_text])
                {| ch_message := {| msg_content := None; msg_tool_calls := None |} |}
                [] []
                (Sample.call "call_1" "get_exchange_rate" Sample.usd_eur_text)
                {| fc_name := "get_exchange_rate"; fc_args := Sample.usd_eur |}
                [("amount", JInt 100); ("base", JString "USD");
                 ("rates", JObject [("EUR", JFloat "88.645")])]
                {| candidates := [ {| function_calls := [] |} ];
                   resp_text := Raise (ValueError "Response has no text parts") |}
                (ValueError "Response has no text parts"))
      as (_ & Hp & _).
    + reflexivity.
    + split; [reflexivity|]. vm_compute. reflexivity.
    + reflexivity.
    + vm_compute. reflexivity.
    + vm_compute. reflexivity.
    + reflexivity.
    + reflexivity.
    + vm_compute. reflexivity.
    + reflexivity.
    + exact Hp.
Defined.

(** * More facts about the notebook *)

(** ** Answers without a tool call *)

(** X1: when the answer to the first request has no tool calls ([None] or
    an empty list), the OpenAI [main] prints its content after [Direct
    response:] and returns: one query, no tool execution, no follow-up
    query, and the list [messages] as it was. *)
Theorem openai_prints_a_direct_answer (E : env) (user_query : string)
  (w : world message) (completion : completion_) (c0 : choice) (cs : list choice) :
  chat_completions_create E (w_log w ++ [input_event])
    (first_request (w_transcript w)) = Ok completion ->
  choices completion = c0 :: cs ->
  msg_tool_calls (ch_message c0) = None \/ msg_tool_calls (ch_message c0) = Some [] ->
  OpenAI.main E user_query w
  = (Ok tt,
     {| w_log := w_log w ++
          [input_event; EvCreate (first_request (w_transcript w));
           EvPrint ("Direct response: " ++ str_opt (msg_content (ch_message c0)))];
        w_transcript := w_transcript w |}).
Proof.
  intros H1 Hc Hnone. rewrite openai_main_run. cbv zeta. rewrite H1, Hc.
  unfold OpenAI.truthy_calls. destruct Hnone as [-> | ->]; reflexivity.
Qed.

Lemma openai_prints_a_direct_answer_witness :
  OpenAI.main direct_env "100 usd to eur" (user_asks "100 usd to eur")
  = (Ok tt,
     {| w_log := [input_event;
                  EvCreate (first_request [RoleMessage "user" "100 usd to eur"]);
                  EvPrint "Direct response: The exchange rate for 100 USD to EUR is 88.645 EUR."];
        w_transcript := [RoleMessage "user" "100 usd to eur"] |}).
Proof.
  refine (openai_prints_a_direct_answer direct_env "100 usd to eur"
            (user_asks "100 usd to eur")
            (Sample.says "The exchange rate for 100 USD to EUR is 88.645 EUR.")
            (Sample.say_choice "The exchange rate for 100 USD to EUR is 88.645 EUR.")
            [] _ _ _).
  - vm_compute. reflexivity.
  - reflexivity.
  - left. reflexivity.
Defined.

(** X2: when the first candidate of the answer has no function call, the
    Vertex [main] makes no tool execution and sends nothing more: it prints
    the text of the answer after [Direct response:] and returns, or, the
    answer having no text, raises what [response.text] raises. *)
Theorem vertex_prints_a_direct_answer (E : env) (user_query : string)
  (w : world turn) (response : generation_response) (c0 : candidate)
  (cs : list candidate) :
  generate_content E (w_log w ++ [input_event]) [] (UserText user_query) = Ok response ->
  candidates response = c0 :: cs ->
  function_calls c0 = [] ->
  let log1 := (w_log w ++ [input_event; EvSend [] (UserText user_query)])%list in
  let history := [Sent (UserText user_query); Received response] in
  Vertex.main E user_query w
  = match resp_text response with
    | Ok t => (Ok tt, {| w_log := log1 ++ [EvPrint ("Direct response: " ++ t)];
                         w_transcript := history |})
    | Raise e => (Raise e, {| w_log := log1; w_transcript := history |})
    end.
Proof.
  intros H1 Hc Hnone log1 history. rewrite vertex_main_run. cbv zeta.
  rewrite H1, Hc, Hnone. reflexivity.
Qed.

Lemma vertex_prints_a_direct_answer_witness :
  Vertex.main direct_env "100 usd to eur" fresh_session
  = (Ok tt,
     {| w_log := [input_event; EvSend [] (UserText "100 usd to eur");
                  EvPrint "Direct response: The exchange rate for 100 USD to EUR is 88.645 EUR."];
        w_transcript :=
          [Sent (UserText "100 usd to eur");
           Received (Sample.vsays "The exchange rate for 100 USD to EUR is 88.645 EUR.")] |}).
Proof.
  refine (vertex_prints_a_direct_answer direct_env "100 usd to eur" fresh_session
            (Sample.vsays "The exchange rate for 100 USD to EUR is 88.645 EUR.")
            {| function_calls := [] |} [] _ _ _).
  - vm_compute. reflexivity.
  - reflexivity.
  - reflexivity.
Defined.

(** ** Faults of the model endpoint *)

(** X3: when the first request to the model raises, [main] raises the same
    exception, with either SDK: nothing is retried, no tool is executed,
    nothing is printed, and the OpenAI list [messages] is as it was. *)
Theorem first_request_fault_is_fatal (E : env) (user_query : string)
  (w : world message) (wv : world turn) (e ev : exn) :
  chat_completions_create E (w_log w ++ [input_event])
    (first_request (w_transcript w)) = Raise e ->
  generate_content E (w_log wv ++ [input_event]) [] (UserText user_query) = Raise ev ->
  OpenAI.main E user_query w
  = (Raise e,
     {| w_log := w_log w ++ [input_event; EvCreate (first_request (w_transcript w))];
        w_transcript := w_transcript w |})
  /\ Vertex.main E user_query wv
     = (Raise ev,
        {| w_log := w_log wv ++ [input_event; EvSend [] (UserText user_query)];
           w_transcript := [] |}).
Proof.
  intros Ho Hv. split.
  - rewrite openai_main_run. cbv zeta. rewrite Ho. reflexivity.
  - rewrite vertex_main_run. cbv zeta. rewrite Hv. reflexivity.
Qed.

Lemma first_request_fault_is_fatal_witness :
  fst (OpenAI.main model_down_env "100 usd to eur" (user_asks "100 usd to eur"))
  = Raise (APIError "Connection error.")
  /\ fst (Vertex.main model_down_env "100 usd to eur" fresh_session)
     = Raise (APIError "Connection error.").
Proof.
  destruct (first_request_fault_is_fatal model_down_env "100 usd to eur"
              (user_asks "100 usd to eur") fresh_session
              (APIError "Connection error.") (APIError "Connection error.")
              eq_refl eq_refl) as [Ho Hv].
  rewrite Ho, Hv. split; reflexivity.
Defined.

(** X4: an answer without any choice makes the OpenAI [main] raise
    [IndexError] right after the first request: it indexes the list of
    choices with [[0]] before it looks at anything else. *)
Theorem answer_without_choice_raises_index_error (E : env) (user_query : string)
  (w : world message) (completion : completion_) :
  chat_completions_create E (w_log w ++ [input_event])
    (first_request (w_transcript w)) = Ok completion ->
  choices completion = [] ->
  OpenAI.main E user_query w
  = (Raise (IndexError "list index out of range"),
     {| w_log := w_log w ++ [input_event; EvCreate (first_request (w_transcript w))];
        w_transcript := w_transcript w |}).
Proof.
  intros Ho Hc. rewrite openai_main_run. cbv zeta. rewrite Ho, Hc. reflexivity.
Qed.

Lemma answer_without_choice_raises_index_error_witness :
  fst (OpenAI.main no_choice_env "100 usd to eur" (user_asks "100 usd to eur"))
  = Raise (IndexError "list index out of range").
Proof.
  rewrite (answer_without_choice_raises_index_error no_choice_env "100 usd to eur"
             (user_asks "100 usd to eur") {| choices := [] |} eq_refl eq_refl).
  reflexivity.
Defined.

(** ** Arguments that are JSON but no dict *)

(** X5: when the arguments of a call for [get_exchange_rate] are JSON but
    not an object (a list, a string, a number, [true], [false], [null]),
    [args.get] raises [AttributeError]: the iteration raises it and changes
    nothing, and when the call is the first of the answer [main] raises it
    right after its first request, with no tool executed. *)
Theorem arguments_that_are_no_dict_raise_attribute_error (E : env)
  (user_query : string) (w : world message) (completion : completion_)
  (c0 : choice) (cs : list choice) (tc : tool_call_) (rest : list tool_call_)
  (a : json) :
  chat_completions_create E (w_log w ++ [input_event])
    (first_request (w_transcript w)) = Ok completion ->
  choices completion = c0 :: cs ->
  msg_tool_calls (ch_message c0) = Some (tc :: rest) ->
  fn_name (tc_function tc) = "get_exchange_rate" ->
  json_loads E (fn_arguments (tc_function tc)) = Ok a ->
  (forall kv, a <> JObject kv) ->
  exists msg,
    (forall w1, OpenAI.main_for_body E completion tc w1 = (Raise (AttributeError msg), w1))
    /\ OpenAI.main E user_query w
       = (Raise (AttributeError msg),
          {| w_log := w_log w ++ [input_event; EvCreate (first_request (w_transcript w))];
             w_transcript := w_transcript w |}).
Proof.
  intros H1 Hc Hcalls Hname Hargs Hno.
  assert (Hbody : exists msg, forall w1,
            OpenAI.main_for_body E completion tc w1 = (Raise (AttributeError msg), w1)).
  { unfold OpenAI.main_for_body. rewrite Hname. simpl String.eqb.
    unfold bind, lift. rewrite Hargs.
    destruct a; simpl; try (eexists; intros w1; reflexivity).
    exfalso. eapply Hno. reflexivity. }
  destruct Hbody as [msg Hbody]. exists msg. split; [exact Hbody|].
  rewrite openai_main_run. cbv zeta. rewrite H1, Hc.
  unfold OpenAI.truthy_calls. rewrite Hcalls.
  simpl for_each. unfold bind. rewrite Hbody. reflexivity.
Qed.

Lemma arguments_that_are_no_dict_raise_attribute_error_witness :
  fst (OpenAI.main list_arguments_env "100 usd to eur" (user_asks "100 usd to eur"))
  = Raise (AttributeError "'list' object has no attribute 'get'")
  /\ gets (new_events (user_asks "100 usd to eur")
             (snd (OpenAI.main list_arguments_env "100 usd to eur"
                     (user_asks "100 usd to eur")))) = [].
Proof.
  destruct (arguments_that_are_no_dict_raise_attribute_error list_arguments_env
              "100 usd to eur" (user_asks "100 usd to eur")
              (Sample.asks [Sample.call "call_1" "get_exchange_rate" "[]"])
              (Sample.ask_choice [Sample.call "call_1" "get_exchange_rate" "[]"])
              [] (Sample.call "call_1" "get_exchange_rate" "[]") [] (JArray []))
    as [msg [Hbody Hmain]]; try (vm_compute; reflexivity).
  - intros kv H. discriminate H.
  - rewrite Hmain. simpl fst. simpl snd.
    erewrite new_events_app by (simpl; reflexivity).
    split; [|reflexivity].
    specialize (Hbody no_messages). vm_compute in Hbody.
    inversion Hbody. reflexivity.
Defined.

(** ** The date that is given *)

(** The GET of an iteration of the Vertex loop. *)
Lemma vertex_body_gets (E : env) (fc : function_call_) (w : world turn) :
  fc_name fc = "get_exchange_rate" ->
  gets (new_events w (snd (Vertex.main_for_body E fc w))) = [vplanned_get E fc].
Proof.
  intros Hname.
  assert (Hreg : vregistered fc = true)
    by (unfold vregistered; rewrite Hname; reflexivity).
  rewrite (vertex_body_registered E fc w Hreg). cbv zeta.
  destruct (Vertex.from_function_response _ _) as [c|e].
  - destruct (generate_content E _ _ _) as [final|e];
      [destruct (resp_text final) as [t|e]|];
      (erewrite new_events_app
         by (cbn [snd w_log]; rewrite <- ?app_assoc; reflexivity));
      unfold vplanned_get; reflexivity.
  - erewrite new_events_app by (cbn [snd w_log]; reflexivity).
    unfold vplanned_get; reflexivity.
Qed.

(** X6: the default date is used only when the key [currency_date] is
    absent.  When the arguments hold the key, its value names the path of
    the GET whatever it is: for [null] the path is [None], with either
    SDK. *)
Theorem given_date_is_used_as_it_is (E : env) (completion : completion_)
  (tc : tool_call_) (kv : list (string * json)) (w : world message)
  (fc : function_call_) (wv : world turn) (v vv : json) :
  fn_name (tc_function tc) = "get_exchange_rate" ->
  json_loads E (fn_arguments (tc_function tc)) = Ok (JObject kv) ->
  assoc "currency_date" kv = Some v ->
  fc_name fc = "get_exchange_rate" ->
  assoc "currency_date" (fc_args fc) = Some vv ->
  map fst (gets (new_events w (snd (OpenAI.main_for_body E completion tc w))))
  = ["https://api.frankfurter.app/" ++ py_str E v]
  /\ map fst (gets (new_events wv (snd (Vertex.main_for_body E fc wv))))
     = ["https://api.frankfurter.app/" ++ py_str E vv]
  /\ py_str E JNull = "None".
Proof.
  intros Hname Hargs Hv Hvname Hvv. split; [|split; [|reflexivity]].
  - destruct (openai_body_dict_effects E completion tc kv w Hname Hargs) as [Hg _].
    rewrite Hg. unfold dict_get. rewrite Hv. reflexivity.
  - rewrite (vertex_body_gets E fc wv Hvname). unfold vplanned_get, dict_get.
    rewrite Hvv. reflexivity.
Qed.

Lemma given_date_is_used_as_it_is_witness :
  map fst (gets (new_events (user_asks "usd to eur")
                   (snd (OpenAI.main_for_body null_date_env
                           (Sample.asks [Sample.call "call_1" "get_exchange_rate"
                                           null_date_text])
                           (Sample.call "call_1" "get_exchange_rate" null_date_text)
                           (user_asks "usd to eur")))))
  = ["https://api.frankfurter.app/None"]
  /\ map fst (gets (new_events fresh_session
                      (snd (Vertex.main_for_body null_date_env
                              {| fc_name := "get_exchange_rate"; fc_args := null_date |}
                              fresh_session))))
     = ["https://api.frankfurter.app/None"].
Proof.
  destruct (given_date_is_used_as_it_is null_date_env
              (Sample.asks [Sample.call "call_1" "get_exchange_rate" null_date_text])
              (Sample.call "call_1" "get_exchange_rate" null_date_text)
              null_date (user_asks "usd to eur")
              {| fc_name := "get_exchange_rate"; fc_args := null_date |}
              fresh_session JNull JNull)
    as (Ho & Hv & _); try (vm_compute; reflexivity).
  split; [exact Ho|exact Hv].
Defined.

(** ** The loop over several calls *)

Lemma for_each_app {T A : Type} (xs ys : list A) (body : A -> M T unit) (w : world T) :
  for_each (xs ++ ys) body w
  = match for_each xs body w with
    | (Ok _, w1) => for_each ys body w1
    | (Raise e, w1) => (Raise e, w1)
    end.
Proof.
  revert w. induction xs as [|x xs IH]; intros w; [reflexivity|].
  simpl. unfold bind. destruct (body x w) as [[[]|e] w1]; [apply IH|reflexivity].
Qed.

(** X7: calls for other tools do not change a run.  The loop of either
    [main] over the calls of an answer does what it would do over the calls
    for [get_exchange_rate] alone, in their order: same result, same
    world. *)
Theorem other_calls_do_not_change_the_loop (E : env) (completion : completion_)
  (tcs : list tool_call_) (w : world message) (fcs : list function_call_)
  (wv : world turn) :
  for_each tcs (OpenAI.main_for_body E completion) w
  = for_each (filter registered tcs) (OpenAI.main_for_body E completion) w
  /\ for_each fcs (Vertex.main_for_body E) wv
     = for_each (filter vregistered fcs) (Vertex.main_for_body E) wv.
Proof.
  split.
  - revert w. induction tcs as [|tc rest IH]; intros w; [reflexivity|].
    simpl. destruct (registered tc) eqn:Hreg.
    + simpl. unfold bind.
      destruct (OpenAI.main_for_body E completion tc w) as [[[]|e] w1];
        [apply IH|reflexivity].
    + unfold bind. rewrite (openai_body_skip E completion tc w Hreg). apply IH.
  - revert wv. induction fcs as [|fc rest IH]; intros wv; [reflexivity|].
    simpl. destruct (vregistered fc) eqn:Hreg.
    + simpl. unfold bind.
      destruct (Vertex.main_for_body E fc wv) as [[[]|e] w1]; [apply IH|reflexivity].
    + unfold bind. rewrite (vertex_body_skip E fc wv Hreg). apply IH.
Qed.

(** An unknown tool between two calls for the rate: the run is that of the
    two calls. *)
Example unknown_tool_between_two_calls :
  let w := user_asks "100 usd to eur" in
  let run := OpenAI.main mixed_calls_env "100 usd to eur" w in
  fst run = Ok tt
  /\ kinds (new_events w (snd run)) = [Query; Tool; Query; Tool; Query]
  /\ map fst (tool_turns (w_transcript (snd run))) = ["call_1"; "call_3"].
Proof.
  vm_compute. repeat split; reflexivity.
Qed.

(** X8: a call whose arguments [json.loads] rejects ends the loop of the
    OpenAI [main]: the calls before it are resolved, the exception is
    raised, and the calls after it are never looked at, whatever they
    are. *)
Theorem bad_arguments_abandon_the_later_calls (E : env) (completion : completion_)
  (before after after' : list tool_call_) (tc : tool_call_) (e : exn)
  (w : world message) :
  fn_name (tc_function tc) = "get_exchange_rate" ->
  json_loads E (fn_arguments (tc_function tc)) = Raise e ->
  for_each (before ++ tc :: after) (OpenAI.main_for_body E completion) w
  = for_each (before ++ tc :: after') (OpenAI.main_for_body E completion) w
  /\ (forall w1,
        for_each before (OpenAI.main_for_body E completion) w = (Ok tt, w1) ->
        for_each (before ++ tc :: after) (OpenAI.main_for_body E completion) w
        = (Raise e, w1)).
Proof.
  intros Hname Hargs.
  assert (Hreg : registered tc = true)
    by (unfold registered; rewrite Hname; reflexivity).
  assert (Hstop : forall rest w1,
            for_each (tc :: rest) (OpenAI.main_for_body E completion) w1 = (Raise e, w1)).
  { intros rest w1. simpl. unfold bind.
    rewrite (openai_body_bad_json E completion tc w1 e Hreg Hargs). reflexivity. }
  split.
  - rewrite !for_each_app.
    destruct (for_each before _ w) as [[[]|e1] w1]; [|reflexivity].
    rewrite !Hstop. reflexivity.
  - intros w1 Hbefore. rewrite for_each_app, Hbefore. apply Hstop.
Qed.

Lemma bad_arguments_abandon_the_later_calls_witness :
  let w := user_asks "100 usd to eur" in
  let run := OpenAI.main broken_calls_env "100 usd to eur" w in
  (exists msg, fst run = Raise (JSONDecodeError msg))
  /\ kinds (new_events w (snd run)) = [Query; Tool; Query]
  /\ map fst (tool_turns (w_transcript (snd run))) = ["call_1"].
Proof.
  cbv zeta.
  rewrite openai_main_run. cbv zeta.
  change (chat_completions_create broken_calls_env
            (w_log (user_asks "100 usd to eur") ++ [input_event])
            (first_request (w_transcript (user_asks "100 usd to eur"))))
    with (Ok (Sample.asks broken_calls)).
  cbn [choices Sample.asks Sample.ask_choice ch_message OpenAI.truthy_calls
       msg_tool_calls broken_calls].
  destruct (bad_arguments_abandon_the_later_calls broken_calls_env
              (Sample.asks broken_calls)
              [Sample.call "call_1" "get_exchange_rate" Sample.usd_eur_text]
              [Sample.call "call_3" "get_exchange_rate" Sample.usd_eur_text] []
              (Sample.call "call_2" "get_exchange_rate" "not json")
              (JSONDecodeError "Expecting value")
              {| w_log := w_log (user_asks "100 usd to eur") ++
                   [input_event;
                    EvCreate (first_request (w_transcript (user_asks "100 usd to eur")))];
                 w_transcript := w_transcript (user_asks "100 usd to eur") |})
    as [Hsame _]; try (vm_compute; reflexivity).
  cbn [app] in Hsame. rewrite Hsame.
  vm_compute. split; [eexists; reflexivity|]. split; reflexivity.
Defined.

(** ** What a run leaves in [messages] *)

Lemma openai_loop_appends (E : env) (completion : completion_) (c0 : choice)
  (cs : list choice) (tcs : list tool_call_) :
  choices completion = c0 :: cs ->
  forall w w' : world message,
  for_each tcs (OpenAI.main_for_body E completion) w = (Ok tt, w') ->
  exists more,
    w_transcript w' = (w_transcript w ++ more)%list
    /\ map erase_content more
       = flat_map (fun tc => [AssistantMessage (ch_message c0);
                              ToolMessage (tc_id tc) ""])
                  (filter registered tcs).
Proof.
  intros Hc. induction tcs as [|tc rest IH]; intros w w' Hrun.
  - simpl in Hrun. unfold ret in Hrun. inversion Hrun; subst.
    exists []. rewrite app_nil_r. auto.
  - simpl in Hrun. unfold bind in Hrun.
    destruct (OpenAI.main_for_body E completion tc w) as [r1 w1] eqn:Hbody.
    destruct (openai_body_shape E completion c0 cs tc w w1 r1 Hc Hbody)
      as [(Hreg & -> & ->)|[(Hreg & _ & [e ->] & _)
                           |(Hreg & g & result & tail & _ & _ & Htr & Hend)]].
    + destruct (IH _ _ Hrun) as (more & H1 & H2).
      exists more. simpl. rewrite Hreg. auto.
    + discriminate.
    + destruct Hend as [[_ [e ->]]|[line [_ ->]]]; [discriminate|].
      destruct (IH _ _ Hrun) as (more & H1 & H2).
      eexists. split; [rewrite H1, Htr, <- app_assoc; reflexivity|].
      simpl. rewrite Hreg. simpl. rewrite H2. reflexivity.
Qed.

(** X9: when the OpenAI [main] returns, it has appended to [messages], for
    each call for [get_exchange_rate] of the answer and in the order of the
    calls, the model's message (the same message once for every call) and
    then one tool turn with the id of the call; nothing else was appended
    and nothing that was there has changed. *)
Theorem returning_run_appends_two_turns_a_call (E : env) (user_query : string)
  (w : world message) (completion : completion_) (c0 : choice) (cs : list choice) :
  chat_completions_create E (w_log w ++ [input_event])
    (first_request (w_transcript w)) = Ok completion ->
  choices completion = c0 :: cs ->
  fst (OpenAI.main E user_query w) = Ok tt ->
  exists more,
    w_transcript (snd (OpenAI.main E user_query w)) = (w_transcript w ++ more)%list
    /\ map erase_content more
       = flat_map (fun tc => [AssistantMessage (ch_message c0);
                              ToolMessage (tc_id tc) ""])
                  (filter registered (calls_of (Ok completion))).
Proof.
  intros H1 Hc. rewrite openai_main_run. cbv zeta. rewrite H1, Hc.
  unfold calls_of. rewrite Hc. unfold OpenAI.truthy_calls.
  destruct (msg_tool_calls (ch_message c0)) as [[|tc tcs]|].
  1,3: intros _; exists []; rewrite app_nil_r; auto.
  intros Hok.
  destruct (for_each (tc :: tcs) (OpenAI.main_for_body E completion) _)
    as [r w'] eqn:Hloop.
  simpl in Hok. subst r.
  destruct (openai_loop_appends E completion c0 cs (tc :: tcs) Hc _ _ Hloop)
    as (more & Hm & He).
  exists more. auto.
Qed.

Lemma returning_run_appends_two_turns_a_call_witness :
  map erase_content
    (skipn 1 (w_transcript (snd (OpenAI.main mixed_calls_env "100 usd to eur"
                                   (user_asks "100 usd to eur")))))
  = [AssistantMessage (ch_message (Sample.ask_choice mixed_calls));
     ToolMessage "call_1" "";
     AssistantMessage (ch_message (Sample.ask_choice mixed_calls));
     ToolMessage "call_3" ""].
Proof.
  destruct (returning_run_appends_two_turns_a_call mixed_calls_env "100 usd to eur"
              (user_asks "100 usd to eur") (Sample.asks mixed_calls)
              (Sample.ask_choice mixed_calls) [])
    as (more & Hm & He); [vm_compute; reflexivity..|].
  rewrite Hm. cbn [user_asks w_transcript app skipn]. rewrite He.
  vm_compute. reflexivity.
Defined.

(** ** The requests of a run *)

Lemma requests_app (l1 l2 : list event) :
  requests (l1 ++ l2) = (requests l1 ++ requests l2)%list.
Proof.
  induction l1 as [|ev l1 IH]; simpl; [reflexivity|].
  destruct ev; simpl; rewrite IH; reflexivity.
Qed.

Lemma last_cons {A : Type} (a d : A) (l : list A) : last (a :: l) d = last l a.
Proof.
  revert a d. induction l as [|b l IH]; intros a d; [reflexivity|].
  change (last (a :: b :: l) d) with (last (b :: l) d).
  rewrite !IH. reflexivity.
Qed.

Lemma openai_loop_requests (E : env) (completion : completion_) (c0 : choice)
  (cs : list choice) (tcs : list tool_call_) :
  choices completion = c0 :: cs ->
  forall (w w' : world message) (r : result unit),
  for_each tcs (OpenAI.main_for_body E completion) w = (r, w') ->
  exists added mss,
    w_log w' = (w_log w ++ added)%list
    /\ requests added = map follow_up mss
    /\ grows_by_rounds (w_transcript w) mss
    /\ w_transcript w' = last mss (w_transcript w).
Proof.
  intros Hc. induction tcs as [|tc rest IH]; intros w w' r Hrun.
  - simpl in Hrun. unfold ret in Hrun. inversion Hrun; subst.
    exists [], []. rewrite app_nil_r. simpl. auto.
  - simpl in Hrun. unfold bind in Hrun.
    destruct (OpenAI.main_for_body E completion tc w) as [r1 w1] eqn:Hbody.
    destruct (openai_body_shape E completion c0 cs tc w w1 r1 Hc Hbody)
      as [(Hreg & -> & ->)|[(Hreg & _ & [e ->] & ->)
                           |(Hreg & g & result & tail & _ & Hlog & Htr & Hend)]].
    + apply (IH _ _ _ Hrun).
    + inversion Hrun; subst. exists [], []. rewrite app_nil_r. simpl. auto.
    + assert (Hone : exists added1,
                w_log w1 = (w_log w ++ added1)%list
                /\ requests added1 = map follow_up [w_transcript w1]
                /\ grows_by_rounds (w_transcript w) [w_transcript w1]).
      { eexists. split; [exact Hlog|]. rewrite Htr. split.
        - destruct Hend as [[-> _]|[line [-> _]]]; reflexivity.
        - simpl. split; [eauto|exact I]. }
      destruct Hone as (added1 & Hl1 & Hr1 & Hg1).
      destruct Hend as [[_ [e ->]]|[line [_ ->]]].
      * inversion Hrun; subst. exists added1, [w_transcript w']. auto.
      * destruct (IH _ _ _ Hrun) as (added2 & mss & Hl2 & Hr2 & Hg2 & Hlast).
        exists (added1 ++ added2)%list, (w_transcript w1 :: mss).
        split; [rewrite Hl2, Hl1, <- app_assoc; reflexivity|].
        split; [rewrite requests_app, Hr1, Hr2; reflexivity|].
        split; [split; [exact (proj1 Hg1)|exact Hg2]|].
        rewrite Hlast, last_cons. reflexivity.
Qed.

(** X10: in every run of the OpenAI [main] only the first request carries
    the tool declarations, [tool_choice] and [max_tokens]; every later
    request is a follow-up request without them.  The messages of the first
    request are the list [messages] as [main] found it, the messages of each
    follow-up request are those of the request before with the model's
    message and one tool turn appended, and the last request carries the
    whole of [messages] as [main] leaves it. *)
Theorem requests_grow_by_one_round (E : env) (user_query : string)
  (w : world message) :
  exists mss,
    requests (new_events w (snd (OpenAI.main E user_query w)))
    = first_request (w_transcript w) :: map follow_up mss
    /\ grows_by_rounds (w_transcript w) mss
    /\ w_transcript (snd (OpenAI.main E user_query w)) = last mss (w_transcript w).
Proof.
  rewrite openai_main_run. cbv zeta.
  destruct (chat_completions_create E _ _) as [completion|e].
  2:{ exists []. erewrite new_events_app by (simpl; reflexivity). simpl. auto. }
  destruct (choices completion) as [|c0 cs] eqn:Hc.
  { exists []. erewrite new_events_app by (simpl; reflexivity). simpl. auto. }
  destruct (OpenAI.truthy_calls (ch_message c0)) as [tcs|].
  2:{ exists []. erewrite new_events_app by (simpl; reflexivity). simpl. auto. }
  destruct (for_each tcs (OpenAI.main_for_body E completion) _) as [r w'] eqn:Hloop.
  destruct (openai_loop_requests E completion c0 cs tcs Hc _ _ _ Hloop)
    as (added & mss & Hl & Hr & Hg & Hlast).
  simpl w_log in Hl. simpl w_transcript in Hg, Hlast.
  exists mss. simpl snd.
  erewrite new_events_app by (rewrite Hl, <- app_assoc; reflexivity).
  simpl. rewrite Hr. auto.
Qed.

(** The scenario of two calls: three requests, the first with the tools. *)
Example requests_of_two_calls :
  let w := user_asks "100 usd to eur" in
  let rqs := requests (new_events w (snd (OpenAI.main two_calls_env "100 usd to eur" w))) in
  map rq_tools rqs = [Some OpenAI.tools; None; None]
  /\ map (fun rq => List.length (rq_messages rq)) rqs = [1; 3; 5]%nat.
Proof.
  vm_compute. split; reflexivity.
Qed.

(** X11: the list [messages] is never emptied.  Whatever the first run
    appended is still there when [main] is run again: the first request of
    the second run carries the turns of the first run, one tool turn for
    each of its rounds. *)
Theorem second_run_carries_the_first (E : env) (q1 q2 : string) (w : world message) :
  let w1 := snd (OpenAI.main E q1 w) in
  exists more j rest,
    w_transcript w1 = (w_transcript w ++ more)%list
    /\ kinds (new_events w w1) = Query :: rounds j
    /\ List.length (tool_turns more) = j
    /\ new_events w1 (snd (OpenAI.main E q2 w1))
       = input_event :: EvCreate (first_request (w_transcript w ++ more)) :: rest.
Proof.
  intros w1.
  destruct (openai_main_shape E q1 w) as (added & more & j & H1 & H2 & H3 & _ & H5 & _).
  destruct (openai_first_request_is_messages E q2 w1) as [rest Hrest].
  exists more, j, rest. subst w1.
  rewrite (new_events_app w _ added H1). rewrite <- H2. auto.
Qed.

(** After the run of one call, a second run sends the tool turn of the
    first in its first request. *)
Example second_run_sends_the_first_tool_turn :
  let w1 := snd (OpenAI.main one_call_env "100 usd to eur" no_messages) in
  map (fun rq => map fst (tool_turns (rq_messages rq)))
    (firstn 1 (requests (new_events w1 (snd (OpenAI.main direct_env "200 usd to eur" w1)))))
  = [["call_1"]].
Proof.
  vm_compute. reflexivity.
Qed.

(** X12: the Vertex [main] starts a new chat session each time: its run
    does not depend on the history that was there, and its first message
    goes out with an empty history. *)
Theorem vertex_main_forgets_the_history (E : env) (user_query : string)
  (w : world turn) (history : list turn) :
  Vertex.main E user_query w
  = Vertex.main E user_query {| w_log := w_log w; w_transcript := history |}
  /\ exists rest,
       new_events w (snd (Vertex.main E user_query w))
       = input_event :: EvSend [] (UserText user_query) :: rest.
Proof.
  split; [reflexivity|]. apply vertex_main_sends_user_query_first.
Qed.

(** ** Faults after the tool has run *)

(** X13: when the follow-up request of the OpenAI [main] raises, [main]
    raises the same exception, and nothing is undone: the GET was made, and
    the model's message and the tool turn stay in [messages]. *)
Theorem follow_up_fault_keeps_the_turns (E : env) (user_query : string)
  (w : world message) (completion : completion_) (c0 : choice) (cs : list choice)
  (tc : tool_call_) (rest : list tool_call_) (kv : list (string * json)) (e : exn) :
  let first := first_request (w_transcript w) in
  let url := rate_url E (dict_get kv "currency_date" (JString "latest")) in
  let params := rate_params (dict_get kv "currency_from" JNull)
                            (dict_get kv "currency_to" JNull) in
  let result := openai_payload E
    (fetched E (http_get E (w_log w ++ [input_event; EvCreate first]) url params)) in
  let messages := (w_transcript w ++
    [AssistantMessage (ch_message c0); ToolMessage (tc_id tc) result])%list in
  chat_completions_create E (w_log w ++ [input_event]) first = Ok completion ->
  choices completion = c0 :: cs ->
  msg_tool_calls (ch_message c0) = Some (tc :: rest) ->
  fn_name (tc_function tc) = "get_exchange_rate" ->
  json_loads E (fn_arguments (tc_function tc)) = Ok (JObject kv) ->
  chat_completions_create E (w_log w ++ [input_event; EvCreate first; EvGet url params])
    (follow_up messages) = Raise e ->
  OpenAI.main E user_query w
  = (Raise e,
     {| w_log := w_log w ++ [input_event; EvCreate first; EvGet url params;
                             EvCreate (follow_up messages)];
        w_transcript := messages |}).
Proof.
  intros first url params result messages H1 Hc Hcalls Hname Hargs H2.
  rewrite openai_main_run. cbv zeta. fold first. rewrite H1, Hc.
  unfold OpenAI.truthy_calls. rewrite Hcalls.
  simpl for_each. unfold bind at 1.
  assert (Hreg : registered tc = true)
    by (unfold registered; rewrite Hname; reflexivity).
  rewrite (openai_body_dict E completion tc _ kv Hreg Hargs). cbv zeta.
  rewrite Hc. simpl w_log. simpl w_transcript.
  fold url params result messages.
  rewrite <- !app_assoc. simpl app.
  rewrite H2. reflexivity.
Qed.

Lemma follow_up_fault_keeps_the_turns_witness :
  OpenAI.main follow_up_fails_env "100 usd to eur" (user_asks "100 usd to eur")
  = (Raise (APIError "Connection error."),
     {| w_log := [input_event;
                  EvCreate (first_request [RoleMessage "user" "100 usd to eur"]);
                  EvGet "https://api.frankfurter.app/latest"
                        [("from", JString "USD"); ("to", JString "EUR")];
                  EvCreate (follow_up
                    [RoleMessage "user" "100 usd to eur";
                     AssistantMessage (ch_message (Sample.ask_choice
                       [Sample.call "call_1" "get_exchange_rate" Sample.usd_eur_text]));
                     ToolMessage "call_1" Sample.rates_text])];
        w_transcript :=
          [RoleMessage "user" "100 usd to eur";
           AssistantMessage (ch_message (Sample.ask_choice
             [Sample.call "call_1" "get_exchange_rate" Sample.usd_eur_text]));
           ToolMessage "call_1" Sample.rates_text] |}).
Proof.
  refine (follow_up_fault_keeps_the_turns follow_up_fails_env "100 usd to eur"
            (user_asks "100 usd to eur")
            (Sample.asks [Sample.call "call_1" "get_exchange_rate" Sample.usd_eur_text])
            (Sample.ask_choice [Sample.call "call_1" "get_exchange_rate"
                                  Sample.usd_eur_text])
            [] (Sample.call "call_1" "get_exchange_rate" Sample.usd_eur_text) []
            Sample.usd_eur (APIError "Connection error.") _ _ _ _ _ _);
    vm_compute; reflexivity.
Defined.

(** X14: when the tool result is a mapping and the answer to the function
    response has no text, the Vertex [main] raises what
    [final_response.text] raises, after the tool has run and the function
    response was sent: nothing is printed, and the session keeps the
    exchange. *)
Theorem vertex_answer_without_text_raises (E : env) (user_query : string)
  (w : world turn) (response final : generation_response) (c0 : candidate)
  (cs : list candidate) (fc : function_call_) (rest : list function_call_)
  (kv : list (string * json)) (e : exn) :
  let asked := [Sent (UserText user_query); Received response] in
  let url := fst (vplanned_get E fc) in
  let params := snd (vplanned_get E fc) in
  let log1 := (w_log w ++ [input_event; EvSend [] (UserText user_query)])%list in
  let result := vertex_payload (fetched E (http_get E log1 url params)) in
  let c := FunctionResponse "get_exchange_rate" result in
  generate_content E (w_log w ++ [input_event]) [] (UserText user_query) = Ok response ->
  candidates response = c0 :: cs ->
  function_calls c0 = fc :: rest ->
  fc_name fc = "get_exchange_rate" ->
  result = JObject kv ->
  generate_content E (log1 ++ [EvGet url params]) asked c = Ok final ->
  resp_text final = Raise e ->
  Vertex.main E user_query w
  = (Raise e, {| w_log := log1 ++ [EvGet url params; EvSend asked c];
                 w_transcript := asked ++ [Sent c; Received final] |}).
Proof.
  intros asked url params log1 result c H1 Hc Hcalls Hname Hmap H2 Ht.
  rewrite vertex_main_run. cbv zeta. rewrite H1, Hc, Hcalls.
  simpl for_each. unfold bind at 1.
  assert (Hreg : vregistered fc = true)
    by (unfold vregistered; rewrite Hname; reflexivity).
  rewrite (vertex_body_registered E fc _ Hreg). cbv zeta.
  simpl w_log. simpl w_transcript.
  fold log1 url params result.
  assert (Hfr : Vertex.from_function_response "get_exchange_rate" result = Ok c)
    by (rewrite Hmap; subst c; rewrite Hmap; reflexivity).
  rewrite Hfr. fold asked.
  rewrite H2, Ht. rewrite <- ?app_assoc. reflexivity.
Qed.

Lemma vertex_answer_without_text_raises_witness :
  fst (Vertex.main follow_up_fails_env "100 usd to eur" fresh_session)
  = Raise (ValueError "Response has no text parts")
  /\ printed (w_log (snd (Vertex.main follow_up_fails_env "100 usd to eur"
                            fresh_session))) = []
  /\ List.length (w_transcript (snd (Vertex.main follow_up_fails_env "100 usd to eur"
                                       fresh_session))) = 4%nat.
Proof.
  rewrite (vertex_answer_without_text_raises follow_up_fails_env "100 usd to eur"
             fresh_session
             (Sample.vasks [ {| fc_name := "get_exchange_rate"; fc_args := Sample.usd_eur |} ])
             (Sample.vasks [ {| fc_name := "get_exchange_rate"; fc_args := Sample.usd_eur |} ])
             {| function_calls :=
                  [ {| fc_name := "get_exchange_rate"; fc_args := Sample.usd_eur |} ] |}
             [] {| fc_name := "get_exchange_rate"; fc_args := Sample.usd_eur |} []
             [("amount", JInt 100); ("base", JString "USD");
              ("rates", JObject [("EUR", JFloat "88.645")])]
             (ValueError "Response has no text parts"));
    try (vm_compute; reflexivity).
  repeat split; reflexivity.
Defined.

(** ** Answers of the service that are not 2xx and not faults *)

(** X15: [raise_for_status] lets every status below 400 pass.  A response
    with such a status, 2xx or not, whose body is JSON is returned by
    [get_exchange_rate] like a success: the parsed body (Vertex), or its
    JSON text (OpenAI). *)
Theorem status_below_400_is_a_success (E : env) (d f t : json)
  (w : world message) (wv : world turn) (r rv : response_) (j jv : json) :
  http_get E (w_log w) (rate_url E d) (rate_params f t) = Ok r ->
  status_code r < 400 ->
  json_loads E (text_ r) = Ok j ->
  http_get E (w_log wv) (rate_url E d) (rate_params f t) = Ok rv ->
  status_code rv < 400 ->
  json_loads E (text_ rv) = Ok jv ->
  fst (OpenAI.get_exchange_rate E d f t w) = Ok (json_dumps E j)
  /\ fst (Vertex.get_exchange_rate E d f t wv) = Ok jv.
Proof.
  intros Hr Hs Hj Hrv Hsv Hjv.
  rewrite openai_get_exchange_rate_run, vertex_get_exchange_rate_run.
  rewrite Hr, Hrv. simpl.
  rewrite (raise_for_status_passes r Hs), (raise_for_status_passes rv Hsv).
  unfold response_json. rewrite Hj, Hjv. split; reflexivity.
Qed.

Lemma status_below_400_is_a_success_witness :
  fst (OpenAI.get_exchange_rate service_300_env (JString "latest") (JString "USD")
         (JString "EUR") no_messages) = Ok Sample.rates_text
  /\ fst (Vertex.get_exchange_rate service_300_env (JString "latest") (JString "USD")
            (JString "EUR") fresh_session) = Ok Sample.rates.
Proof.
  destruct (status_below_400_is_a_success service_300_env (JString "latest")
              (JString "USD") (JString "EUR") no_messages fresh_session
              multiple_choices multiple_choices Sample.rates Sample.rates)
    as [Ho Hv];
    [vm_compute; reflexivity | simpl; lia | vm_compute; reflexivity
    | vm_compute; reflexivity | simpl; lia | vm_compute; reflexivity |].
  rewrite Ho, Hv. split; [vm_compute; reflexivity|reflexivity].
Defined.

(** X16: the value of the Vertex [get_exchange_rate] does not tell a fault
    from an answer.  When the service answers with the JSON body
    [{"error": m}], the value is the very dict returned when the GET raises
    an exception with the message [m]. *)
Theorem vertex_error_dict_is_ambiguous (E1 E2 : env) (d f t : json)
  (w1 w2 : world turn) (e : exn) (r : response_) :
  http_get E1 (w_log w1) (rate_url E1 d) (rate_params f t) = Raise e ->
  http_get E2 (w_log w2) (rate_url E2 d) (rate_params f t) = Ok r ->
  status_code r < 400 ->
  json_loads E2 (text_ r) = Ok (JObject [("error", JString (str_exn e))]) ->
  fst (Vertex.get_exchange_rate E1 d f t w1) = fst (Vertex.get_exchange_rate E2 d f t w2).
Proof.
  intros H1 H2 Hs Hj.
  rewrite !vertex_get_exchange_rate_run. rewrite H1, H2. simpl.
  rewrite (raise_for_status_passes r Hs). unfold response_json. rewrite Hj.
  reflexivity.
Qed.

Lemma vertex_error_dict_is_ambiguous_witness :
  fst (Vertex.get_exchange_rate service_down_env (JString "latest") (JString "USD")
         (JString "EUR") fresh_session)
  = fst (Vertex.get_exchange_rate service_error_body_env (JString "latest")
           (JString "USD") (JString "EUR") fresh_session).
Proof.
  apply (vertex_error_dict_is_ambiguous service_down_env service_error_body_env
           (JString "latest") (JString "USD") (JString "EUR")
           fresh_session fresh_session (RequestException "Connection refused")
           error_body);
    [vm_compute; reflexivity | vm_compute; reflexivity | simpl; lia
    | vm_compute; reflexivity].
Defined.

(** ** What the Vertex [main] sends *)

Lemma sends_app (l1 l2 : list event) : sends (l1 ++ l2) = (sends l1 ++ sends l2)%list.
Proof.
  induction l1 as [|ev l1 IH]; simpl; [reflexivity|].
  destruct ev; simpl; rewrite IH; reflexivity.
Qed.

Lemma vertex_loop_sends (E : env) (fcs : list function_call_) :
  forall (w w' : world turn) (r : result unit),
  for_each fcs (Vertex.main_for_body E) w = (r, w') ->
  exists added results,
    w_log w' = (w_log w ++ added)%list
    /\ sends added = map (FunctionResponse "get_exchange_rate") results
    /\ Forall (fun result => exists kv, result = JObject kv) results
    /\ (List.length results <= List.length (gets added) <= S (List.length results))%nat
    /\ (r = Ok tt -> List.length results = List.length (gets added)).
Proof.
  induction fcs as [|fc rest IH]; intros w w' r Hrun.
  - simpl in Hrun. unfold ret in Hrun. inversion Hrun; subst.
    exists [], []. rewrite app_nil_r. simpl. repeat split; auto.
  - simpl in Hrun. unfold bind in Hrun.
    destruct (vregistered fc) eqn:Hreg.
    2:{ rewrite (vertex_body_skip E fc w Hreg) in Hrun. apply (IH _ _ _ Hrun). }
    rewrite (vertex_body_registered E fc w Hreg) in Hrun. cbv zeta in Hrun.
    set (url := fst (vplanned_get E fc)) in *.
    set (params := snd (vplanned_get E fc)) in *.
    set (result := vertex_payload _) in *.
    destruct (from_function_response_cases "get_exchange_rate" result)
      as [(kv & Hkv & Hfr)|(_ & msg & Hfr)]; rewrite Hfr in Hrun.
    2:{ inversion Hrun; subst. exists [EvGet url params], [].
        simpl. repeat split; auto. discriminate. }
    assert (Hmap : exists kv0, result = JObject kv0) by (exists kv; exact Hkv).
    destruct (generate_content E _ _ _) as [final|e].
    + destruct (resp_text final) as [t|e].
      * destruct (IH _ _ _ Hrun) as (added & results & Hl & Hs & Hall & Hn & Hok).
        simpl w_log in Hl.
        eexists; exists (result :: results).
        split; [rewrite Hl, <- !app_assoc; reflexivity|].
        simpl. rewrite ?sends_app, ?gets_app, ?length_app, Hs. simpl.
        split; [reflexivity|]. split; [constructor; assumption|].
        split; [lia|]. intros Hr. rewrite (Hok Hr). reflexivity.
      * inversion Hrun; subst. eexists; exists [result].
        split; [reflexivity|]. simpl.
        split; [reflexivity|]. split; [constructor; [assumption|constructor]|].
        split; [lia|discriminate].
    + inversion Hrun; subst. eexists; exists [result].
      split; [reflexivity|]. simpl.
      split; [reflexivity|]. split; [constructor; [assumption|constructor]|].
      split; [lia|discriminate].
Qed.

(** X17: in every run the Vertex [main] sends the user's text once, as its
    first message, and after it only function responses named
    [get_exchange_rate], each carrying a mapping: one for each tool
    execution when [main] returns, and in every run one for each tool
    execution except, at most, the last one. *)
Theorem vertex_sends_text_then_function_responses (E : env) (user_query : string)
  (w : world turn) :
  exists results,
    sends (new_events w (snd (Vertex.main E user_query w)))
    = UserText user_query :: map (FunctionResponse "get_exchange_rate") results
    /\ Forall (fun result => exists kv, result = JObject kv) results
    /\ (List.length results
        <= List.length (gets (new_events w (snd (Vertex.main E user_query w))))
        <= S (List.length results))%nat
    /\ (fst (Vertex.main E user_query w) = Ok tt ->
        List.length results
        = List.length (gets (new_events w (snd (Vertex.main E user_query w))))).
Proof.
  rewrite vertex_main_run. cbv zeta.
  destruct (generate_content E _ _ _) as [response|e].
  2:{ exists []. erewrite new_events_app by (simpl; reflexivity). simpl.
      repeat split; auto. }
  destruct (candidates response) as [|c0 cs].
  { exists []. erewrite new_events_app by (simpl; reflexivity). simpl.
    repeat split; auto. }
  destruct (function_calls c0) as [|fc fcs].
  { exists [].
    destruct (resp_text response) as [t|e];
      (erewrite new_events_app by (simpl; rewrite <- ?app_assoc; reflexivity));
      simpl; repeat split; auto. }
  destruct (for_each (fc :: fcs) (Vertex.main_for_body E) _) as [r w'] eqn:Hloop.
  destruct (vertex_loop_sends E (fc :: fcs) _ _ _ Hloop)
    as (added & results & Hl & Hs & Hall & Hn & Hok).
  simpl w_log in Hl. exists results. simpl snd. simpl fst.
  erewrite new_events_app by (rewrite Hl, <- app_assoc; reflexivity).
  simpl. rewrite Hs. repeat split; auto; lia.
Qed.

(** The theorem at the run with two calls, which returns: two function
    responses, one for each of the two executions. *)
Lemma vertex_sends_text_then_function_responses_witness :
  exists results,
    sends (new_events fresh_session
             (snd (Vertex.main two_calls_env "100 usd to eur" fresh_session)))
    = UserText "100 usd to eur" :: map (FunctionResponse "get_exchange_rate") results
    /\ List.length results = 2%nat.
Proof.
  destruct (vertex_sends_text_then_function_responses two_calls_env "100 usd to eur"
              fresh_session) as (results & Hs & _ & _ & Hok).
  assert (Hv : fst (Vertex.main two_calls_env "100 usd to eur" fresh_session) = Ok tt)
    by (vm_compute; reflexivity).
  assert (Hg : List.length (gets (new_events fresh_session
                 (snd (Vertex.main two_calls_env "100 usd to eur" fresh_session))))
               = 2%nat)
    by (vm_compute; reflexivity).
  exists results. split; [exact Hs|]. rewrite (Hok Hv). exact Hg.
Defined.

(** ** The set-up cells *)

(** X18: the placeholder of the form field never becomes the project id,
    and neither does the empty string, unless the environment variable
    [GOOGLE_CLOUD_PROJECT] itself holds it; this is so in both set-up
    cells. *)
Theorem placeholder_is_never_the_project (form : string) (vars : environ) :
  (project_id form vars = "" \/ project_id form vars = "[your-project-id]" ->
   environ_get vars "GOOGLE_CLOUD_PROJECT" = Some (project_id form vars))
  /\ (PROJECT_ID form vars = "" \/ PROJECT_ID form vars = "[your-project-id]" ->
      environ_get vars "GOOGLE_CLOUD_PROJECT" = Some (PROJECT_ID form vars)).
Proof.
  assert (H : forall p,
            p = (if is_empty form || String.eqb form "[your-project-id]"
                 then str_opt (environ_get vars "GOOGLE_CLOUD_PROJECT") else form) ->
            p = "" \/ p = "[your-project-id]" ->
            environ_get vars "GOOGLE_CLOUD_PROJECT" = Some p).
  { intros p Hp Hbad.
    destruct (is_empty form) eqn:He; simpl in Hp.
    - subst p. destruct (environ_get vars "GOOGLE_CLOUD_PROJECT"); [reflexivity|].
      destruct Hbad as [Hbad|Hbad]; discriminate Hbad.
    - destruct (String.eqb form "[your-project-id]") eqn:Hq.
      + subst p. destruct (environ_get vars "GOOGLE_CLOUD_PROJECT"); [reflexivity|].
        destruct Hbad as [Hbad|Hbad]; discriminate Hbad.
      + subst p. exfalso. destruct Hbad as [Hbad|Hbad].
        * rewrite Hbad in He. discriminate He.
        * rewrite Hbad in Hq. discriminate Hq. }
  split; intros Hbad; apply H; try assumption; reflexivity.
Qed.

Lemma placeholder_is_never_the_project_witness :
  environ_get [("GOOGLE_CLOUD_PROJECT", "[your-project-id]")] "GOOGLE_CLOUD_PROJECT"
  = Some (project_id "" [("GOOGLE_CLOUD_PROJECT", "[your-project-id]")]).
Proof.
  apply (proj1 (placeholder_is_never_the_project ""
                  [("GOOGLE_CLOUD_PROJECT", "[your-project-id]")])).
  right. reflexivity.
Defined.

(** X19: with the form field left empty or at its placeholder and
    [GOOGLE_CLOUD_PROJECT] not set, the set-up does not fail: the project id
    is the string [None], in both cells, and the base URL of the OpenAI
    client names the project [None]. *)
Theorem unset_project_becomes_the_string_none (form : string) (vars : environ) :
  form = "" \/ form = "[your-project-id]" ->
  environ_get vars "GOOGLE_CLOUD_PROJECT" = None ->
  project_id form vars = "None"
  /\ PROJECT_ID form vars = "None"
  /\ base_url form vars
     = "https://" ++ location vars ++ "-aiplatform.googleapis.com/v1/projects/None/locations/"
       ++ location vars ++ "/endpoints/openapi".
Proof.
  intros Hform Hunset.
  assert (Hp : project_id form vars = "None").
  { unfold project_id. rewrite Hunset. destruct Hform as [-> | ->]; reflexivity. }
  split; [exact Hp|]. split; [exact Hp|].
  unfold base_url. rewrite Hp. reflexivity.
Qed.

Lemma unset_project_becomes_the_string_none_witness :
  base_url "[your-project-id]" []
  = "https://us-east5-aiplatform.googleapis.com/v1/projects/None/locations/us-east5/endpoints/openapi".
Proof.
  rewrite (proj2 (proj2 (unset_project_becomes_the_string_none "[your-project-id]" []
                           (or_intror eq_refl) eq_refl))).
  reflexivity.
Defined.

(** X20: the two set-up cells resolve the same project id for every form
    value and environment, and the same location exactly when
    [GOOGLE_CLOUD_REGION] is set: without it the OpenAI cells use
    [us-east5] and the Vertex cells [us-central1]. *)
Theorem set_up_cells_agree_when_region_is_set (form : string) (vars : environ) :
  project_id form vars = PROJECT_ID form vars
  /\ (location vars = LOCATION vars
      <-> environ_get vars "GOOGLE_CLOUD_REGION" <> None)
  /\ (environ_get vars "GOOGLE_CLOUD_REGION" = None ->
      location vars = "us-east5" /\ LOCATION vars = "us-central1").
Proof.
  split; [reflexivity|]. unfold location, LOCATION.
  destruct (environ_get vars "GOOGLE_CLOUD_REGION") as [region|]; split.
  - split; [intros _; discriminate|reflexivity].
  - intros H; discriminate H.
  - split; [intros H; discriminate H|intros H; contradiction H; reflexivity].
  - auto.
Qed.

Lemma set_up_cells_agree_when_region_is_set_witness :
  location [("GOOGLE_CLOUD_REGION", "europe-west1")]
  = LOCATION [("GOOGLE_CLOUD_REGION", "europe-west1")]
  /\ location [] = "us-east5" /\ LOCATION [] = "us-central1".
Proof.
  destruct (set_up_cells_agree_when_region_is_set ""
              [("GOOGLE_CLOUD_REGION", "europe-west1")]) as (_ & [_ Hset] & _).
  destruct (set_up_cells_agree_when_region_is_set "" []) as (_ & _ & Hunset).
  split; [apply Hset; discriminate|apply Hunset; reflexivity].
Defined.

(** ** What a run prints *)

Lemma openai_loop_prints (E : env) (completion : completion_) (c0 : choice)
  (cs : list choice) (tcs : list tool_call_) :
  choices completion = c0 :: cs ->
  forall w w' : world message,
  for_each tcs (OpenAI.main_for_body E completion) w = (Ok tt, w') ->
  exists added,
    w_log w' = (w_log w ++ added)%list
    /\ List.length (printed added) = List.length (filter registered tcs).
Proof.
  intros Hc. induction tcs as [|tc rest IH]; intros w w' Hrun.
  - simpl in Hrun. unfold ret in Hrun. inversion Hrun; subst.
    exists []. rewrite app_nil_r. auto.
  - simpl in Hrun. unfold bind in Hrun.
    destruct (OpenAI.main_for_body E completion tc w) as [r1 w1] eqn:Hbody.
    destruct (openai_body_shape E completion c0 cs tc w w1 r1 Hc Hbody)
      as [(Hreg & -> & ->)|[(Hreg & _ & [e ->] & _)
                           |(Hreg & g & result & tail & _ & Hlog & _ & Hend)]].
    + destruct (IH _ _ Hrun) as (added & H1 & H2).
      exists added. simpl. rewrite Hreg. auto.
    + discriminate.
    + destruct Hend as [[_ [e ->]]|[line [-> ->]]]; [discriminate|].
      destruct (IH _ _ Hrun) as (added & H1 & H2).
      eexists. split; [rewrite H1, Hlog, <- !app_assoc; reflexivity|].
      simpl. rewrite Hreg. simpl. rewrite H2. reflexivity.
Qed.

(** X21: when the answer to the first request has tool calls and the OpenAI
    [main] returns, it has printed one line for each call for
    [get_exchange_rate], not one line for the run, and no line at all when
    none of the calls is for [get_exchange_rate]: the content of the first
    answer is never printed then. *)
Theorem returning_run_prints_a_line_a_call (E : env) (user_query : string)
  (w : world message) (completion : completion_) (c0 : choice) (cs : list choice)
  (tc : tool_call_) (tcs : list tool_call_) :
  chat_completions_create E (w_log w ++ [input_event])
    (first_request (w_transcript w)) = Ok completion ->
  choices completion = c0 :: cs ->
  msg_tool_calls (ch_message c0) = Some (tc :: tcs) ->
  fst (OpenAI.main E user_query w) = Ok tt ->
  List.length (printed (new_events w (snd (OpenAI.main E user_query w))))
  = List.length (filter registered (tc :: tcs)).
Proof.
  intros H1 Hc Hcalls. rewrite openai_main_run. cbv zeta. rewrite H1, Hc.
  unfold OpenAI.truthy_calls. rewrite Hcalls.
  destruct (for_each (tc :: tcs) (OpenAI.main_for_body E completion) _)
    as [r w'] eqn:Hloop.
  simpl fst. simpl snd. intros ->.
  destruct (openai_loop_prints E completion c0 cs (tc :: tcs) Hc _ _ Hloop)
    as (added & Hl & Hp).
  simpl w_log in Hl.
  erewrite new_events_app by (rewrite Hl, <- app_assoc; reflexivity).
  simpl. exact Hp.
Qed.

Lemma returning_run_prints_a_line_a_call_witness :
  printed (new_events (user_asks "100 usd to eur")
             (snd (OpenAI.main unknown_tool_env "100 usd to eur"
                     (user_asks "100 usd to eur")))) = []
  /\ List.length (printed (new_events (user_asks "100 usd to eur")
                             (snd (OpenAI.main mixed_calls_env "100 usd to eur"
                                     (user_asks "100 usd to eur"))))) = 2%nat.
Proof.
  pose proof (returning_run_prints_a_line_a_call unknown_tool_env "100 usd to eur"
                (user_asks "100 usd to eur")
                (Sample.asks [Sample.call "call_1" "unknown_tool" "{}"])
                (Sample.ask_choice [Sample.call "call_1" "unknown_tool" "{}"])
                [] (Sample.call "call_1" "unknown_tool" "{}") []) as Hnone.
  pose proof (returning_run_prints_a_line_a_call mixed_calls_env "100 usd to eur"
                (user_asks "100 usd to eur") (Sample.asks mixed_calls)
                (Sample.ask_choice mixed_calls) []
                (Sample.call "call_1" "get_exchange_rate" Sample.usd_eur_text)
                [Sample.call "call_2" "unknown_tool" "{}";
                 Sample.call "call_3" "get_exchange_rate" Sample.usd_eur_text])
    as Htwo.
  split.
  - apply length_zero_iff_nil.
    apply Hnone; vm_compute; reflexivity.
  - apply Htwo; vm_compute; reflexivity.
Defined.
